(** * Crypto market database: import pipeline and derived metrics

    A shallow embedding of [src/database.py]: the SQLite store with its three
    tables, the CSV importers, the per-asset metrics computation on binary64
    floats, the verification stage and [main].  Numbers are Rocq's primitive
    floats (IEEE 754 binary64, the type pandas and SQLite REAL use), so the
    arithmetic of [pct_change] and of the rolling variance is the one the
    program performs; the real numbers appear only where exact arithmetic
    is meant. *)

From Stdlib Require Import Reals Lra.
From Stdlib Require Import ZArith List Bool Lia String Ascii Uint63 Floats.
From Stdlib Require Import Sorted Permutation.
Import ListNotations.

Local Open Scope string_scope.
Local Open Scope list_scope.

(** ** Configuration *)

Definition DB_PATH : string := "data/crypto_market.db".
Definition SCHEMA_PATH : string := "sql/schema.sql".
Definition RAW_DATA_DIR : string := "data/raw".

(** ** Exceptions and results *)

Inductive exn : Type :=
| FileNotFoundError (path : string)   (* [open] / [pd.read_csv] on a missing file *)
| MalformedInput (path : string)      (* ParserError, KeyError or ValueError on a bad CSV *)
| IntegrityError (table : string)     (* sqlite3.IntegrityError: a UNIQUE / PRIMARY KEY conflict *)
| TypeError.                          (* [str.join] on an item that is not a str *)

Inductive result (A : Type) : Type :=
| Ok (a : A)
| Raise (e : exn).
Arguments Ok {A} a.
Arguments Raise {A} e.

(** ** Rows *)

(** A calendar date, as its day number; the ISO text SQLite stores orders
    the same way. *)
Definition date := Z.

(** The columns of [crypto_info.csv] that the importer selects, as
    [pd.read_csv] returns them.  A symbol or name cell that pandas does not
    read as text (an empty cell, or one of its markers of a missing value
    such as NA) is [None]; ids are text. *)
Record CryptoInfo : Type := {
  id : string;
  symbol : option string;
  name : option string
}.

(** The columns of [price_history.csv] that the importer selects, the date
    already parsed by [pd.to_datetime(...).dt.date]. *)
Record RawPrice : Type := {
  r_crypto_id : string;
  r_date : date;
  price : float;
  r_market_cap : float;
  volume : float
}.

(** A row of the assets table; a missing symbol or name is stored as
    NULL. *)
Record Cryptocurrency : Type := {
  crypto_id : string;
  c_symbol : option string;
  c_name : option string
}.

Record PriceRow : Type := {
  ph_crypto_id : string;
  ph_date : date;
  price_usd : float;
  market_cap : float;
  total_volume : float
}.

(** A row of the metrics table; [None] is SQL NULL. *)
Record MetricRow : Type := {
  m_crypto_id : string;
  m_date : date;
  daily_return : option float;
  volatility_7d : option float;
  volatility_30d : option float;
  volume_change_24h : option float
}.

(** ** The store *)

Record Store : Type := {
  cryptocurrencies : list Cryptocurrency;
  price_history : list PriceRow;
  metrics : list MetricRow
}.

(** Modelled from the spec: sql/schema.sql is not among the sources; run on
    a new database file, the script creates the three tables (and the view
    over them) with no row. *)
Definition empty_store : Store :=
  {| cryptocurrencies := []; price_history := []; metrics := [] |}.

(** A CSV file under [RAW_DATA_DIR]. *)
Inductive csv_file (R : Type) : Type :=
| Missing
| Malformed
| Table (rows : list R).
Arguments Missing {R}.
Arguments Malformed {R}.
Arguments Table {R} rows.

(** The files the program touches: the database file (absent, or holding a
    store), the schema script, and the two raw CSV files. *)
Record World : Type := {
  db_file : option Store;
  schema_sql : bool;
  crypto_info_csv : csv_file CryptoInfo;
  price_history_csv : csv_file RawPrice
}.

Definition set_db (w : World) (d : option Store) : World :=
  {| db_file := d;
     schema_sql := schema_sql w;
     crypto_info_csv := crypto_info_csv w;
     price_history_csv := price_history_csv w |}.

(** ** A state-and-exception monad for code run against the connection *)

Definition DB (A : Type) : Type := Store -> result A * Store.

Definition ret {A} (a : A) : DB A := fun s => (Ok a, s).
Definition raise {A} (e : exn) : DB A := fun s => (Raise e, s).
Definition bind {A B} (m : DB A) (k : A -> DB B) : DB B :=
  fun s => match m s with
           | (Ok a, s') => k a s'
           | (Raise e, s') => (Raise e, s')
           end.
Definition lift {A} (r : result A) : DB A := fun s => (r, s).

Notation "x <- m ;; k" := (bind m (fun x => k))
  (at level 61, m at next level, right associativity).
Notation "m ;;; k" := (bind m (fun _ => k))
  (at level 61, right associativity).

(** ** Schema constraints *)

(** Modelled from the spec: sql/schema.sql is not among the sources; the
    spec gives [assets(asset_id PK, ...)] and a composite
    [UNIQUE(asset_id, date)] on both observations and metrics. *)
Definition same_crypto (a b : Cryptocurrency) : bool :=
  String.eqb (crypto_id a) (crypto_id b).

Definition key : Type := (string * date)%type.

Definition key_eqb (k1 k2 : key) : bool :=
  String.eqb (fst k1) (fst k2) && Z.eqb (snd k1) (snd k2).

Definition price_key (r : PriceRow) : key := (ph_crypto_id r, ph_date r).
Definition metric_key (r : MetricRow) : key := (m_crypto_id r, m_date r).

Definition same_price_key (a b : PriceRow) : bool :=
  key_eqb (price_key a) (price_key b).
Definition same_metric_key (a b : MetricRow) : bool :=
  key_eqb (metric_key a) (metric_key b).

(** [INSERT] of [rows], one after the other, into a table whose constraint
    rejects a row that [conflict]s with one already present. *)
Fixpoint insert_rows {R} (conflict : R -> R -> bool) (table rows : list R)
  : option (list R) :=
  match rows with
  | [] => Some table
  | r :: rest =>
      if existsb (conflict r) table then None
      else insert_rows conflict (table ++ [r]) rest
  end.

(** [df.to_sql(table, conn, if_exists="append", index=False)]: all rows in
    one transaction, rolled back when a constraint fails. *)
Definition to_sql_cryptocurrencies (rows : list Cryptocurrency) : DB unit :=
  fun s => match insert_rows same_crypto (cryptocurrencies s) rows with
           | Some t => (Ok tt, {| cryptocurrencies := t;
                                  price_history := price_history s;
                                  metrics := metrics s |})
           | None => (Raise (IntegrityError "cryptocurrencies"), s)
           end.

Definition to_sql_price_history (rows : list PriceRow) : DB unit :=
  fun s => match insert_rows same_price_key (price_history s) rows with
           | Some t => (Ok tt, {| cryptocurrencies := cryptocurrencies s;
                                  price_history := t;
                                  metrics := metrics s |})
           | None => (Raise (IntegrityError "price_history"), s)
           end.

Definition to_sql_metrics (rows : list MetricRow) : DB unit :=
  fun s => match insert_rows same_metric_key (metrics s) rows with
           | Some t => (Ok tt, {| cryptocurrencies := cryptocurrencies s;
                                  price_history := price_history s;
                                  metrics := t |})
           | None => (Raise (IntegrityError "metrics"), s)
           end.

(** ** create_database *)

(** Removes the old database file, connects (a new file) and runs the schema
    script.  When the script cannot be read the exception leaves the file
    without tables, which [None] stands for as well. *)
Definition create_database (w : World) : result Store * World :=
  let w' := set_db w None in                       (* os.remove(DB_PATH) *)
  if schema_sql w
  then (Ok empty_store, set_db w' (Some empty_store))
  else (Raise (FileNotFoundError SCHEMA_PATH), w').

(** ** Importers *)

Definition read_csv {R} (file : string) (f : csv_file R) : result (list R) :=
  match f with
  | Missing => Raise (FileNotFoundError (RAW_DATA_DIR ++ "/" ++ file))
  | Malformed => Raise (MalformedInput (RAW_DATA_DIR ++ "/" ++ file))
  | Table rows => Ok rows
  end.

Definition to_cryptocurrency (r : CryptoInfo) : Cryptocurrency :=
  {| crypto_id := id r; c_symbol := symbol r; c_name := name r |}.

(** [col.head(n).tolist()]. *)
Definition head {A} (n : nat) (col : list A) : list A := firstn n col.
Arguments head : simpl never.

(** The items of a list when every one of them is a str. *)
Fixpoint texts (items : list (option string)) : option (list string) :=
  match items with
  | [] => Some []
  | Some t :: rest => option_map (cons t) (texts rest)
  | None :: _ => None
  end.

(** [sep.join(items)]: TypeError as soon as an item is not a str. *)
Definition join (sep : string) (items : list (option string)) : result string :=
  match texts items with
  | Some l => Ok (String.concat sep l)
  | None => Raise TypeError
  end.

(** The rows are committed by [to_sql] before the line that prints the
    first five symbols, [', '.join(df_insert['symbol'].head(5).tolist())],
    is reached. *)
Definition import_cryptocurrencies (w : World) : DB (list CryptoInfo) :=
  df <- lift (read_csv "crypto_info.csv" (crypto_info_csv w)) ;;
  let df_insert := map to_cryptocurrency df in
  to_sql_cryptocurrencies df_insert ;;;
  lift (join ", " (head 5 (map c_symbol df_insert))) ;;;
  ret df.

Definition to_price_row (r : RawPrice) : PriceRow :=
  {| ph_crypto_id := r_crypto_id r;
     ph_date := r_date r;
     price_usd := price r;
     market_cap := r_market_cap r;
     total_volume := volume r |}.

(** [df.drop_duplicates(subset=["crypto_id", "date"], keep="last")]: a row
    is dropped when a later row has its key; the others keep their order. *)
Fixpoint drop_duplicates (df : list PriceRow) : list PriceRow :=
  match df with
  | [] => []
  | r :: rest =>
      if existsb (same_price_key r) rest then drop_duplicates rest
      else r :: drop_duplicates rest
  end.

Definition import_price_history (w : World) : DB (list PriceRow) :=
  df <- lift (read_csv "price_history.csv" (price_history_csv w)) ;;
  let df_insert := map to_price_row df in
  let df_insert := drop_duplicates df_insert in
  to_sql_price_history df_insert ;;;
  ret df_insert.

(** ** Series operations of pandas, on binary64 columns *)

Definition notna (x : float) : bool := negb (is_nan x).

(** [Series.pct_change()] on a column without missing values (the input
    contract: float >= 0), where no fill applies before the shift:
    [data / data.shift(1) - 1], the first position having no predecessor. *)
Fixpoint pct_change_from (prev : float) (col : list float) : list float :=
  match col with
  | [] => []
  | x :: rest => (x / prev - 1)%float :: pct_change_from x rest
  end.

Definition pct_change (col : list float) : list float :=
  match col with
  | [] => []
  | x :: rest => nan :: pct_change_from x rest
  end.

Definition times100 (col : list float) : list float :=
  map (fun x => (x * 100)%float) col.

Definition float_of_nat (n : nat) : float :=
  of_uint63 (Uint63.of_Z (Z.of_nat n)).

(** The trailing window of [w] row positions that ends at position [i]. *)
Definition window {A} (w : nat) (col : list A) (i : nat) : list A :=
  skipn (S i - w) (firstn (S i) col).

(** ** The rolling variance of pandas *)

(** [Rolling.std()] does not compute each window afresh: values enter and
    leave a running mean and a running sum of squared differences
    ([roll_var], Welford's method with a compensation term).  The update is
    written here over the arithmetic it runs on: binary64 in the program,
    the real numbers when exact arithmetic is meant. *)
Class Arith (F : Type) : Type := {
  a_zero : F;
  a_nan : F;
  a_add : F -> F -> F;
  a_sub : F -> F -> F;
  a_mul : F -> F -> F;
  a_div : F -> F -> F;
  a_of_nat : nat -> F;
  a_eqb : F -> F -> bool;
  a_is_nan : F -> bool
}.

#[export] Instance binary64 : Arith float := {|
  a_zero := 0%float;
  a_nan := nan;
  a_add := PrimFloat.add;
  a_sub := PrimFloat.sub;
  a_mul := PrimFloat.mul;
  a_div := PrimFloat.div;
  a_of_nat := float_of_nat;
  a_eqb := PrimFloat.eqb;
  a_is_nan := is_nan
|}.


(** [start[i]] and [end[i]] of a fixed window of [w] rows, and
    [range(a, b)]. *)
Definition window_start (w i : nat) : nat := S i - w.
Definition window_end (i : nat) : nat := S i.
Definition positions (a b : nat) : list nat := seq a (b - a).

Section RollVar.
Context {F : Type} {arith : Arith F}.

Local Infix "+." := a_add (at level 50, left associativity).
Local Infix "-." := a_sub (at level 50, left associativity).
Local Infix "*." := a_mul (at level 40, left associativity).
Local Infix "/." := a_div (at level 40, left associativity).

(** The running state; [nobs] and [num_consecutive_same_value] are counts
    (the first one held in a double by pandas, exactly). *)
Record VarState : Type := {
  nobs : nat;
  mean_x : F;
  ssqdm_x : F;
  compensation_add : F;
  compensation_remove : F;
  num_consecutive_same_value : nat;
  prev_value : F
}.

Definition initial (v : F) : VarState :=
  {| nobs := 0; mean_x := a_zero; ssqdm_x := a_zero;
     compensation_add := a_zero; compensation_remove := a_zero;
     num_consecutive_same_value := 0; prev_value := v |}.

(** [add_var]: a NaN is skipped. *)
Definition add_var (val : F) (st : VarState) : VarState :=
  if a_is_nan val then st
  else
    let nobs' := S (nobs st) in
    let same :=
      if a_eqb val (prev_value st)
      then S (num_consecutive_same_value st) else 1%nat in
    let prev_mean := mean_x st -. compensation_add st in
    let y := val -. compensation_add st in
    let t := y -. mean_x st in
    let compensation := t +. mean_x st -. y in
    let delta := t in
    let mean :=
      if (nobs' =? 0)%nat then a_zero
      else mean_x st +. delta /. a_of_nat nobs' in
    {| nobs := nobs';
       mean_x := mean;
       ssqdm_x := ssqdm_x st +. (val -. prev_mean) *. (val -. mean);
       compensation_add := compensation;
       compensation_remove := compensation_remove st;
       num_consecutive_same_value := same;
       prev_value := val |}.

(** [remove_var]. *)
Definition remove_var (val : F) (st : VarState) : VarState :=
  if a_is_nan val then st
  else
    let nobs' := (nobs st - 1)%nat in
    if (nobs' =? 0)%nat
    then {| nobs := nobs';
            mean_x := a_zero;
            ssqdm_x := a_zero;
            compensation_add := compensation_add st;
            compensation_remove := compensation_remove st;
            num_consecutive_same_value := num_consecutive_same_value st;
            prev_value := prev_value st |}
    else
      let prev_mean := mean_x st -. compensation_remove st in
      let y := val -. compensation_remove st in
      let t := y -. mean_x st in
      let compensation := t +. mean_x st -. y in
      let delta := t in
      let mean := mean_x st -. delta /. a_of_nat nobs' in
      {| nobs := nobs';
         mean_x := mean;
         ssqdm_x := ssqdm_x st -. (val -. prev_mean) *. (val -. mean);
         compensation_add := compensation_add st;
         compensation_remove := compensation;
         num_consecutive_same_value := num_consecutive_same_value st;
         prev_value := prev_value st |}.

(** [calc_var]: NaN below [minp] observations; zero when the window holds
    one value or only repetitions of one value. *)
Definition calc_var (minp ddof : nat) (st : VarState) : F :=
  if (minp <=? nobs st)%nat && (ddof <? nobs st)%nat
  then
    if (nobs st =? 1)%nat || (nobs st <=? num_consecutive_same_value st)%nat
    then a_zero
    else ssqdm_x st /. a_of_nat (nobs st - ddof)
  else a_nan.

Definition add_values (values : list F) (st : VarState) (js : list nat)
  : VarState :=
  fold_left (fun st j => add_var (nth j values a_nan) st) js st.

Definition remove_values (values : list F) (st : VarState) (js : list nat)
  : VarState :=
  fold_left (fun st j => remove_var (nth j values a_nan) st) js st.

(** One turn of the loop of [roll_var] over the windows: the first window,
    and any window that starts where the one before it ended or later, is
    built from nothing; every other one from the state of the window before
    it, by removing the values that left and adding those that came in. *)
Definition next_state (w : nat) (values : list F) (st : VarState) (i : nat)
  : VarState :=
  let s := window_start w i in
  let e := window_end i in
  if (i =? 0)%nat || (window_end (i - 1) <=? s)%nat
  then add_values values (initial (nth s values a_nan)) (positions s e)
  else
    add_values values
      (remove_values values st (positions (window_start w (i - 1)) s))
      (positions (window_end (i - 1)) e).

Definition roll_var_step (w minp ddof : nat) (values : list F)
  (acc : VarState * list F) (i : nat) : VarState * list F :=
  let st := next_state w values (fst acc) i in
  (st, snd acc ++ [calc_var minp ddof st]).

Definition roll_var (w minp ddof : nat) (values : list F) : list F :=
  snd (fold_left (roll_var_step w (Nat.max minp 1) ddof values)
                 (seq 0 (List.length values))
                 (initial a_nan, [])).

(** The state once the windows that end before position [n] are done. *)
Definition state_after (w : nat) (values : list F) (n : nat) : VarState :=
  fold_left (next_state w values) (seq 0 n) (initial a_nan).

End RollVar.

Arguments VarState F : clear implicits.

(** [_prep_values] turns infinite values into NaN before the window
    functions run. *)
Definition inf_to_nan (x : float) : float :=
  if is_infinity x then nan else x.

(** [zsqrt]: the square root, and zero where the argument is negative. *)
Definition zsqrt (x : float) : float :=
  if (x <? 0)%float then 0%float else PrimFloat.sqrt x.

(** [col.rolling(window=w).std()]: [min_periods] defaults to [w] and
    [ddof] to 1. *)
Definition rolling_std (w : nat) (col : list float) : list float :=
  map zsqrt (roll_var w w 1 (map inf_to_nan col)).

(** The sample variance (ddof = 1) of the specification, in exact
    arithmetic. *)
Definition rsum (l : list R) : R := fold_right Rplus 0%R l.

Definition mean_of (l : list R) : R := (rsum l / INR (List.length l))%R.

Definition sum_sq_diff (m : R) (l : list R) : R :=
  rsum (map (fun x => ((x - m) * (x - m))%R) l).

Definition sample_variance (l : list R) : R :=
  (sum_sq_diff (mean_of l) l / (INR (List.length l) - 1))%R.

(** What the running state is worth in exact arithmetic when the window
    holds the values [q], oldest first. *)
Definition tracks (st : VarState R) (q : list R) : Prop :=
  nobs st = List.length q /\
  compensation_add st = 0%R /\
  compensation_remove st = 0%R /\
  (INR (List.length q) * mean_x st = rsum q)%R /\
  ssqdm_x st = sum_sq_diff (mean_x st) q /\
  forall k, (k < num_consecutive_same_value st)%nat ->
            (k < List.length q)%nat ->
            nth k (rev q) 0%R = prev_value st.

(** ** calculate_metrics *)

(** Insertion of [x] before the first element it is [leb] to; [sort_by] is
    the stable sort built from it. *)
Fixpoint insert_by {A} (leb : A -> A -> bool) (x : A) (l : list A) : list A :=
  match l with
  | [] => [x]
  | y :: rest => if leb x y then x :: l else y :: insert_by leb x rest
  end.

Definition sort_by {A} (leb : A -> A -> bool) (l : list A) : list A :=
  fold_right (insert_by leb) [] l.

Definition key_leb (k1 k2 : key) : bool :=
  match String.compare (fst k1) (fst k2) with
  | Lt => true
  | Eq => Z.leb (snd k1) (snd k2)
  | Gt => false
  end.

(** [SELECT crypto_id, date, price_usd, total_volume FROM price_history
     ORDER BY crypto_id, date]. *)
Definition read_price_history (s : Store) : list PriceRow :=
  sort_by (fun a b => key_leb (price_key a) (price_key b)) (price_history s).

(** [Series.unique()]: the distinct values in order of first appearance. *)
Fixpoint unique (l : list string) : list string :=
  match l with
  | [] => []
  | x :: rest => x :: filter (fun y => negb (String.eqb x y)) (unique rest)
  end.

(** [df[df["crypto_id"] == crypto_id].copy().sort_values("date")]. *)
Definition df_crypto (c : string) (df : list PriceRow) : list PriceRow :=
  sort_by (fun a b => Z.leb (ph_date a) (ph_date b))
          (filter (fun r => String.eqb (ph_crypto_id r) c) df).

(** A row of [df_crypto] once the four metric columns are added; NaN marks
    a value that is not defined. *)
Record FrameRow : Type := {
  f_date : date;
  f_daily_return : float;
  f_volatility_7d : float;
  f_volatility_30d : float;
  f_volume_change_24h : float
}.

Definition add_metric_columns (dfc : list PriceRow) : list FrameRow :=
  let col_daily_return := times100 (pct_change (map price_usd dfc)) in
  let col_volatility_7d := rolling_std 7 col_daily_return in
  let col_volatility_30d := rolling_std 30 col_daily_return in
  let col_volume_change := times100 (pct_change (map total_volume dfc)) in
  map (fun i =>
         {| f_date := nth i (map ph_date dfc) 0%Z;
            f_daily_return := nth i col_daily_return nan;
            f_volatility_7d := nth i col_volatility_7d nan;
            f_volatility_30d := nth i col_volatility_30d nan;
            f_volume_change_24h := nth i col_volume_change nan |})
      (seq 0 (List.length dfc)).

(** The loop over [iterrows()]: the rows whose [daily_return] is not NaN,
    tagged with the asset. *)
Definition asset_entries (c : string) (dfc : list PriceRow)
  : list (string * FrameRow) :=
  map (fun row => (c, row))
      (filter (fun row => notna (f_daily_return row)) (add_metric_columns dfc)).

Definition metrics_list (s : Store) : list (string * FrameRow) :=
  let df := read_price_history s in
  flat_map (fun c => asset_entries c (df_crypto c df))
           (unique (map ph_crypto_id df)).

(** [df_metrics.where(pd.notna(df_metrics), None)], on one value and on one
    row. *)
Definition nan_to_none (x : float) : option float :=
  if is_nan x then None else Some x.

Definition where_notna (e : string * FrameRow) : MetricRow :=
  {| m_crypto_id := fst e;
     m_date := f_date (snd e);
     daily_return := nan_to_none (f_daily_return (snd e));
     volatility_7d := nan_to_none (f_volatility_7d (snd e));
     volatility_30d := nan_to_none (f_volatility_30d (snd e));
     volume_change_24h := nan_to_none (f_volume_change_24h (snd e)) |}.

Definition df_metrics (s : Store) : list MetricRow :=
  map where_notna (metrics_list s).

Definition calculate_metrics : DB unit :=
  fun s => to_sql_metrics (df_metrics s) s.

(** ** verify_data, run_sample_queries and main *)

(** What [verify_data] prints: the three row counts and the date range
    ([None] is what MIN and MAX return on an empty table). *)
Record Report : Type := {
  count_cryptocurrencies : nat;
  count_price_history : nat;
  count_metrics : nat;
  min_date : option date;
  max_date : option date
}.

Definition fold_dates (f : Z -> Z -> Z) (l : list date) : option date :=
  match l with
  | [] => None
  | d :: rest => Some (fold_left f rest d)
  end.

Definition verify_data : DB Report :=
  fun s =>
    let dates := map ph_date (price_history s) in
    ret {| count_cryptocurrencies := List.length (cryptocurrencies s);
           count_price_history := List.length (price_history s);
           count_metrics := List.length (metrics s);
           min_date := fold_dates Z.min dates;
           max_date := fold_dates Z.max dates |} s.

(** The two sample queries only read and print. *)
Definition run_sample_queries : DB unit := ret tt.

Inductive line : Type :=
| PrintReport (r : Report)
| PrintSuccess
| PrintError (e : exn).

(** The body of the [try] block after the connection is open. *)
Definition stages (w : World) : DB Report :=
  import_cryptocurrencies w ;;;
  import_price_history w ;;;
  calculate_metrics ;;;
  r <- verify_data ;;
  run_sample_queries ;;;
  ret r.

Record Run : Type := {
  outcome : result unit;
  final : World;
  stdout : list line
}.

(** [main]: the stages in order; [except Exception as e: print(...); raise]
    prints the error and raises it again. *)
Definition main (w : World) : Run :=
  match create_database w with
  | (Raise e, w1) =>
      {| outcome := Raise e; final := w1; stdout := [PrintError e] |}
  | (Ok conn, w1) =>
      match stages w conn with
      | (Ok r, s) =>
          {| outcome := Ok tt; final := set_db w1 (Some s);
             stdout := [PrintReport r; PrintSuccess] |}
      | (Raise e, s) =>
          {| outcome := Raise e; final := set_db w1 (Some s);
             stdout := [PrintError e] |}
      end
  end.

(** ** Examples *)

Definition observation (c : string) (d : Z) (p v : float) : RawPrice :=
  {| r_crypto_id := c; r_date := d; price := p;
     r_market_cap := 1000; volume := v |}.

Definition world_of (rows : list RawPrice) : World :=
  {| db_file := None; schema_sql := true;
     crypto_info_csv := Table [ {| id := "bitcoin"; symbol := Some "BTC"; name := Some "Bitcoin" |} ];
     price_history_csv := Table rows |}.

Definition stored_metrics (w : World) : list MetricRow :=
  match db_file (final (main w)) with
  | Some s => metrics s
  | None => []
  end.

Definition duplicated_rows : list RawPrice :=
  [ observation "bitcoin" 1 100 5; observation "ethereum" 1 7 8;
    observation "bitcoin" 1 101 6; observation "bitcoin" 2 103 9; observation "bitcoin" 1 102 7 ].

Definition unsorted_rows : list RawPrice :=
  [ observation "bitcoin" 2 110 5; observation "bitcoin" 1 100 5 ].

Definition world_without_history : World :=
  {| db_file := Some {| cryptocurrencies := []; price_history := [];
                        metrics := [] |};
     schema_sql := true;
     crypto_info_csv := Table [ {| id := "bitcoin"; symbol := Some "BTC"; name := Some "Bitcoin" |} ];
     price_history_csv := Missing |}.

(** Three observations of one asset on consecutive dates. *)
Definition example_rows : list RawPrice :=
  [ observation "bitcoin" 1 100 5; observation "bitcoin" 2 110 5; observation "bitcoin" 3 99 5 ].

Definition example_store : Store :=
  {| cryptocurrencies := [];
     price_history := map to_price_row example_rows;
     metrics := [] |}.

(** Ten observations of one asset, two consecutive prices being zero. *)
Definition gap_rows : list RawPrice :=
  [ observation "bitcoin" 0 1 5; observation "bitcoin" 1 2 5; observation "bitcoin" 2 3 5;
    observation "bitcoin" 3 4 5; observation "bitcoin" 4 5 5; observation "bitcoin" 5 6 5;
    observation "bitcoin" 6 7 5; observation "bitcoin" 7 0 5; observation "bitcoin" 8 0 5;
    observation "bitcoin" 9 1 5 ].

(** Nine observations with prices 1, 2, ..., 9. *)
Definition rising_rows : list RawPrice :=
  [ observation "bitcoin" 0 1 5; observation "bitcoin" 1 2 5; observation "bitcoin" 2 3 5;
    observation "bitcoin" 3 4 5; observation "bitcoin" 4 5 5; observation "bitcoin" 5 6 5;
    observation "bitcoin" 6 7 5; observation "bitcoin" 7 8 5; observation "bitcoin" 8 9 5 ].

Definition rising_store : Store :=
  {| cryptocurrencies := [];
     price_history := map to_price_row rising_rows;
     metrics := [] |}.

(** Two strictly positive finite prices whose quotient exceeds the largest
    binary64 number. *)
Definition overflow_rows : list RawPrice :=
  [ observation "bitcoin" 1 0x1p-600 5; observation "bitcoin" 2 0x1p+600 5 ].

(** Prices 1, 2, 3 with volumes 4, 0, 0. *)
Definition zero_volume_rows : list RawPrice :=
  [ observation "bitcoin" 1 1 4; observation "bitcoin" 2 2 0; observation "bitcoin" 3 3 0 ].

Definition zero_volume_store : Store :=
  {| cryptocurrencies := [];
     price_history := map to_price_row zero_volume_rows;
     metrics := [] |}.

(** Nine observations at one price and one volume. *)
Definition flat_rows : list RawPrice :=
  [ observation "bitcoin" 0 100 5; observation "bitcoin" 1 100 5; observation "bitcoin" 2 100 5;
    observation "bitcoin" 3 100 5; observation "bitcoin" 4 100 5; observation "bitcoin" 5 100 5;
    observation "bitcoin" 6 100 5; observation "bitcoin" 7 100 5; observation "bitcoin" 8 100 5 ].

Definition flat_store : Store :=
  {| cryptocurrencies := [];
     price_history := map to_price_row flat_rows;
     metrics := [] |}.

(** An asset file that names one id twice. *)
Definition duplicated_info_world : World :=
  {| db_file := None; schema_sql := true;
     crypto_info_csv :=
       Table [ {| id := "bitcoin"; symbol := Some "BTC"; name := Some "Bitcoin" |};
               {| id := "ethereum"; symbol := Some "ETH"; name := Some "Ethereum" |};
               {| id := "bitcoin"; symbol := Some "XBT"; name := Some "Bitcoin" |} ];
     price_history_csv := Table [] |}.

(** The observations of [example_rows] in another order, among those of a
    second asset. *)
Definition mixed_store : Store :=
  {| cryptocurrencies := [];
     price_history :=
       map to_price_row
           [ observation "ethereum" 2 7 8; observation "bitcoin" 3 99 5;
             observation "bitcoin" 1 100 5; observation "ethereum" 1 6 8;
             observation "bitcoin" 2 110 5 ];
     metrics := [] |}.

(** ** Specification-side notions *)

(** The last row of [l], in input order, whose key is [k]. *)
Definition last_with_key (k : key) (l : list PriceRow) : option PriceRow :=
  find (fun r => key_eqb (price_key r) k) (rev l).

Definition rows_with_key (k : key) (l : list PriceRow) : list PriceRow :=
  filter (fun r => key_eqb (price_key r) k) l.

(** [l1] is [l2] with some rows left out, the others in the same order. *)
Inductive Subseq {A} : list A -> list A -> Prop :=
| Subseq_nil : Subseq [] []
| Subseq_skip x l1 l2 : Subseq l1 l2 -> Subseq l1 (x :: l2)
| Subseq_keep x l1 l2 : Subseq l1 l2 -> Subseq (x :: l1) (x :: l2).

Fixpoint sorted_by {A} (leb : A -> A -> bool) (l : list A) : bool :=
  match l with
  | [] => true
  | x :: rest =>
      match rest with
      | [] => true
      | y :: _ => leb x y && sorted_by leb rest
      end
  end.

(** [main] on [w] ended with exception [e], printed it, and left the
    database as [s]. *)
Definition aborted_with (w : World) (e : exn) (s : Store) : Prop :=
  outcome (main w) = Raise e /\
  db_file (final (main w)) = Some s /\
  stdout (main w) = [PrintError e].

Definition some_table_empty (s : Store) : Prop :=
  cryptocurrencies s = [] \/ price_history s = [] \/ metrics s = [].

(** Shapes of a binary64 value, on the specification side of the primitive
    floats: a number of sign [s] (zero, finite or infinite), any number, a
    zero or finite value, a finite non-zero value. *)
Definition sf_signed (s : bool) (x : spec_float) : Prop :=
  match x with
  | S754_zero s' | S754_infinity s' | S754_finite s' _ _ => s' = s
  | S754_nan => False
  end.

Definition sf_num (x : spec_float) : Prop :=
  match x with S754_nan => False | _ => True end.

Definition sf_fin (x : spec_float) : Prop :=
  match x with S754_zero _ | S754_finite _ _ _ => True | _ => False end.

Definition sf_pos (x : spec_float) : Prop :=
  match x with S754_finite _ _ _ => True | _ => False end.

Definition sf_zero (x : spec_float) : Prop :=
  match x with S754_zero _ => True | _ => False end.

(** The observations of asset [c] as the metrics stage orders them, and
    the columns derived from such a series. *)
Definition asset_series (s : Store) (c : string) : list PriceRow :=
  df_crypto c (read_price_history s).

Definition price_at (l : list PriceRow) (i : nat) : float :=
  nth i (map price_usd l) nan.

Definition volume_at (l : list PriceRow) (i : nat) : float :=
  nth i (map total_volume l) nan.

Definition date_at (l : list PriceRow) (i : nat) : date :=
  nth i (map ph_date l) 0%Z.

Definition daily_returns (l : list PriceRow) : list float :=
  times100 (pct_change (map price_usd l)).

Definition volume_changes (l : list PriceRow) : list float :=
  times100 (pct_change (map total_volume l)).

(** The rows of asset [c] in the metrics table after [calculate_metrics]. *)
Definition stored_asset_metrics (s : Store) (c : string) : list MetricRow :=
  filter (fun r => String.eqb (m_crypto_id r) c)
         (metrics (snd (calculate_metrics s))).

(** The row of the frame at position [i]. *)
Definition frame_row (l : list PriceRow) (i : nat) : FrameRow :=
  {| f_date := date_at l i;
     f_daily_return := nth i (daily_returns l) nan;
     f_volatility_7d := nth i (rolling_std 7 (daily_returns l)) nan;
     f_volatility_30d := nth i (rolling_std 30 (daily_returns l)) nan;
     f_volume_change_24h := nth i (volume_changes l) nan |}.

(** A finite, strictly positive binary64 value. *)
Definition positive_finite (x : float) : bool :=
  is_finite x && PrimFloat.ltb 0 x.

Definition is_some {A} (o : option A) : bool :=
  match o with Some _ => true | None => false end.

(** The two composite uniqueness invariants of the store, and what it means
    for a piece of database code to keep them. *)
Definition keys_unique (s : Store) : Prop :=
  NoDup (map price_key (price_history s)) /\
  NoDup (map metric_key (metrics s)).

Definition preserves {A} (m : DB A) : Prop :=
  forall s, keys_unique s -> keys_unique (snd (m s)).

(** ** data_collection.py: the collector *)

Module DataCollection.

Definition API_BASE_URL : string := "https://api.coingecko.com/api/v3".
Definition DATA_DIR : string := "data/raw".
Definition TOP_CRYPTOS : list string :=
  [ "bitcoin"; "ethereum"; "binancecoin"; "algorand"; "cosmos" ].
Definition DAYS_OF_HISTORY : nat := 90.

(** The exceptions this script can end with; a RequestException never
    leaves the two request functions. *)
Inductive error : Type :=
| KeyError (key : string)
| ValueError
| UnboundLocalError (variable : string).

Inductive outcome (A : Type) : Type :=
| Done (a : A)
| Raised (e : error).
Arguments Done {A} a.
Arguments Raised {A} e.

Definition and_then {A B} (o : outcome A) (k : A -> outcome B) : outcome B :=
  match o with
  | Done a => k a
  | Raised e => Raised e
  end.

(** [requests.get], [raise_for_status] and [response.json()] together: a
    RequestException, or the decoded JSON object. *)
Inductive response (J : Type) : Type :=
| RequestException
| Body (data : J).
Arguments RequestException {J}.
Arguments Body {J} data.

(** [d[key]] on a JSON object in which the key may be absent. *)
Definition item {A} (key : string) (field : option A) : outcome A :=
  match field with
  | Some v => Done v
  | None => Raised (KeyError key)
  end.

(** The parts of the answer of [/coins/{id}] that are read. *)
Record UsdQuote : Type := { usd : option float }.

Record MarketData : Type := {
  md_current_price : option UsdQuote;
  md_market_cap : option UsdQuote;
  md_total_volume : option UsdQuote
}.

Record CoinJson : Type := {
  j_id : option string;
  j_symbol : option string;
  j_name : option string;
  j_market_cap_rank : option Z;
  j_market_data : option MarketData
}.

(** The parts of the answer of [/coins/{id}/market_chart] that are read:
    three series of [timestamp in ms, value] points. *)
Record ChartJson : Type := {
  prices : option (list (Z * float));
  market_caps : option (list (Z * float));
  total_volumes : option (list (Z * float))
}.

(** The remote service, as what it answers to each request. *)
Record Api : Type := {
  coin : string -> response CoinJson;
  market_chart : string -> nat -> response ChartJson
}.

Record Info : Type := {
  i_id : string;
  i_symbol : string;
  i_name : string;
  i_market_cap_rank : option Z;
  i_current_price : float;
  i_market_cap : float;
  i_total_volume : float
}.

(** [str.upper()] on ASCII text. *)
Definition upper_ascii (c : ascii) : ascii :=
  let n := nat_of_ascii c in
  if (97 <=? n)%nat && (n <=? 122)%nat then ascii_of_nat (n - 32) else c.

Fixpoint upper (s : string) : string :=
  match s with
  | EmptyString => EmptyString
  | String c rest => String (upper_ascii c) (upper rest)
  end.

Definition quote_usd (outer : string) (field : option UsdQuote)
  : outcome float :=
  and_then (item outer field) (fun q => item "usd" (usd q)).

(** [get_crypto_info]: [None] when the request fails; a KeyError, which the
    handler does not catch, when the answer lacks a field that is indexed. *)
Definition get_crypto_info (api : Api) (crypto_id : string)
  : outcome (option Info) :=
  match coin api crypto_id with
  | RequestException => Done None
  | Body data =>
      and_then (item "id" (j_id data)) (fun v_id =>
      and_then (item "symbol" (j_symbol data)) (fun v_symbol =>
      and_then (item "name" (j_name data)) (fun v_name =>
      and_then (item "market_data" (j_market_data data)) (fun md =>
      and_then (quote_usd "current_price" (md_current_price md)) (fun v_price =>
      and_then (item "market_data" (j_market_data data)) (fun md =>
      and_then (quote_usd "market_cap" (md_market_cap md)) (fun v_cap =>
      and_then (item "market_data" (j_market_data data)) (fun md =>
      and_then (quote_usd "total_volume" (md_total_volume md)) (fun v_volume =>
      Done (Some {| i_id := v_id;
                    i_symbol := upper v_symbol;
                    i_name := v_name;
                    i_market_cap_rank := j_market_cap_rank data;
                    i_current_price := v_price;
                    i_market_cap := v_cap;
                    i_total_volume := v_volume |}))))))))))
  end.

Definition MS_PER_DAY : Z := 86400000.

(** [pd.to_datetime(ts, unit="ms").dt.date], as a day number. *)
Definition date_of_ms (timestamp : Z) : date := (timestamp / MS_PER_DAY)%Z.

(** The rows of the frame built from four columns of one length. *)
Fixpoint frame_rows (crypto_id : string) (timestamp : list Z)
  (col_price col_market_cap col_volume : list float) : list RawPrice :=
  match timestamp, col_price, col_market_cap, col_volume with
  | t :: ts, p :: ps, m :: ms, v :: vs =>
      {| r_crypto_id := crypto_id;
         r_date := date_of_ms t;
         price := p;
         r_market_cap := m;
         volume := v |} :: frame_rows crypto_id ts ps ms vs
  | _, _, _, _ => []
  end.

(** [get_historical_prices]: no row when the request fails; KeyError when
    a series is absent and ValueError, from the DataFrame constructor, when
    the series differ in length. *)
Definition get_historical_prices (api : Api) (crypto_id : string) (days : nat)
  : outcome (list RawPrice) :=
  match market_chart api crypto_id days with
  | RequestException => Done []
  | Body data =>
      and_then (item "prices" (prices data)) (fun pts =>
      and_then (item "market_caps" (market_caps data)) (fun caps =>
      and_then (item "total_volumes" (total_volumes data)) (fun vols =>
      if Nat.eqb (List.length pts) (List.length caps)
         && Nat.eqb (List.length pts) (List.length vols)
      then Done (frame_rows crypto_id (map fst pts) (map snd pts)
                            (map snd caps) (map snd vols))
      else Raised ValueError)))
  end.

Record Metadata : Type := {
  collection_date : string;
  cryptos_count : nat;
  days_of_history : nat;
  data_points : nat;
  cryptos : list string
}.

(** The three files under [DATA_DIR], each absent or holding what was last
    written to it. *)
Record Files : Type := {
  crypto_info_csv : option (list Info);
  price_history_csv : option (list RawPrice);
  metadata_json : option Metadata
}.

Definition is_empty {A} (l : list A) : bool :=
  match l with [] => true | _ => false end.

(** The loop over [TOP_CRYPTOS], with its two accumulators. *)
Fixpoint collect_loop (api : Api) (ids : list string)
  (crypto_info_list : list Info) (historical_data_list : list (list RawPrice))
  : outcome (list Info * list (list RawPrice)) :=
  match ids with
  | [] => Done (crypto_info_list, historical_data_list)
  | crypto_id :: rest =>
      and_then (get_crypto_info api crypto_id) (fun info =>
      let crypto_info_list :=
        match info with
        | Some i => crypto_info_list ++ [i]
        | None => crypto_info_list
        end in
      and_then (get_historical_prices api crypto_id DAYS_OF_HISTORY)
        (fun historical =>
      let historical_data_list :=
        if is_empty historical then historical_data_list
        else historical_data_list ++ [historical] in
      collect_loop api rest crypto_info_list historical_data_list))
  end.

(** [collect_all_data]: what it returns or raises, and the files after it.
    [df_info] and [df_historical] are bound only inside the two [if]s that
    save them, so the final [return] raises UnboundLocalError when a list
    is empty. *)
Definition collect_all_data (api : Api) (now : string) (files : Files)
  : outcome (list Info * list RawPrice) * Files :=
  match collect_loop api TOP_CRYPTOS [] [] with
  | Raised e => (Raised e, files)
  | Done (crypto_info_list, historical_data_list) =>
      let df_historical := List.concat historical_data_list in
      let files' :=
        {| crypto_info_csv :=
             if is_empty crypto_info_list then crypto_info_csv files
             else Some crypto_info_list;
           price_history_csv :=
             if is_empty historical_data_list then price_history_csv files
             else Some df_historical;
           metadata_json :=
             Some {| collection_date := now;
                     cryptos_count := List.length crypto_info_list;
                     days_of_history := DAYS_OF_HISTORY;
                     data_points :=
                       if is_empty historical_data_list then 0%nat
                       else List.length df_historical;
                     cryptos := TOP_CRYPTOS |} |} in
      if is_empty crypto_info_list
      then (Raised (UnboundLocalError "df_info"), files')
      else if is_empty historical_data_list
      then (Raised (UnboundLocalError "df_historical"), files')
      else (Done (crypto_info_list, df_historical), files')
  end.

(** [main]: the previews it prints read the two frames only; an exception
    is printed and raised again. *)
Definition main (api : Api) (now : string) (files : Files)
  : outcome unit * Files :=
  match collect_all_data api now files with
  | (Done _, files') => (Done tt, files')
  | (Raised e, files') => (Raised e, files')
  end.

(** What is fetched, asset by asset, in the order of [TOP_CRYPTOS]. *)
Definition fetched_info (api : Api) (crypto_id : string) : list Info :=
  match get_crypto_info api crypto_id with
  | Done (Some i) => [i]
  | _ => []
  end.

Definition fetched_history (api : Api) (crypto_id : string) : list RawPrice :=
  match get_historical_prices api crypto_id DAYS_OF_HISTORY with
  | Done rows => rows
  | Raised _ => []
  end.

(** No answer lacks a field or has series of different lengths. *)
Definition well_formed (api : Api) (ids : list string) : Prop :=
  forall c, In c ids ->
    (exists info, get_crypto_info api c = Done info) /\
    (exists rows, get_historical_prices api c DAYS_OF_HISTORY = Done rows).

(** A service on which every request fails, and one that answers for
    bitcoin only, with two points on the same day. *)
Definition api_down : Api :=
  {| coin := fun _ => RequestException;
     market_chart := fun _ _ => RequestException |}.

Definition bitcoin_chart : ChartJson :=
  {| prices := Some [ (86400000%Z, 100%float); (172800000%Z, 110%float);
                      (172800500%Z, 111%float) ];
     market_caps := Some [ (86400000%Z, 1000%float); (172800000%Z, 1100%float);
                           (172800500%Z, 1110%float) ];
     total_volumes := Some [ (86400000%Z, 5%float); (172800000%Z, 6%float);
                             (172800500%Z, 7%float) ] |}.

Definition api_bitcoin : Api :=
  {| coin := fun c =>
       if String.eqb c "bitcoin"
       then Body {| j_id := Some "bitcoin"; j_symbol := Some "btc";
                    j_name := Some "Bitcoin"; j_market_cap_rank := Some 1%Z;
                    j_market_data :=
                      Some {| md_current_price := Some {| usd := Some 111%float |};
                              md_market_cap := Some {| usd := Some 1110%float |};
                              md_total_volume := Some {| usd := Some 7%float |} |} |}
       else RequestException;
     market_chart := fun c _ =>
       if String.eqb c "bitcoin" then Body bitcoin_chart else RequestException |}.

(** The same service, except that the answer for cosmos has no market data. *)
Definition api_broken : Api :=
  {| coin := fun c =>
       if String.eqb c "cosmos"
       then Body {| j_id := Some "cosmos"; j_symbol := Some "atom";
                    j_name := Some "Cosmos"; j_market_cap_rank := None;
                    j_market_data := None |}
       else coin api_bitcoin c;
     market_chart := market_chart api_bitcoin |}.

Definition no_files : Files :=
  {| crypto_info_csv := None; price_history_csv := None; metadata_json := None |}.

End DataCollection.

(** ** analysis.py: what the charts are drawn from *)

Module Analysis.

(** The rows of [price_history ph JOIN cryptocurrencies c
     ON ph.crypto_id = c.crypto_id], before any column is selected. *)
Definition joined (s : Store) : list (PriceRow * Cryptocurrency) :=
  flat_map
    (fun ph =>
       map (pair ph)
           (filter (fun c => String.eqb (ph_crypto_id ph) (crypto_id c))
                   (cryptocurrencies s)))
    (price_history s).

(** A row of [SELECT c.symbol, ph.date, ph.price_usd]; the symbol of an
    asset stored without one is NULL. *)
Record QueryRow : Type := {
  q_symbol : option string;
  q_date : date;
  q_price_usd : float
}.

Definition price_rows (s : Store) : list QueryRow :=
  map (fun e => {| q_symbol := c_symbol (snd e);
                   q_date := ph_date (fst e);
                   q_price_usd := price_usd (fst e) |})
      (joined s).

(** The order of SQLite on a text column: NULL before every text. *)
Definition symbol_compare (a b : option string) : comparison :=
  match a, b with
  | None, None => Eq
  | None, Some _ => Lt
  | Some _, None => Gt
  | Some x, Some y => String.compare x y
  end.

Definition date_symbol_leb (a b : QueryRow) : bool :=
  match Z.compare (q_date a) (q_date b) with
  | Lt => true
  | Eq => match symbol_compare (q_symbol a) (q_symbol b) with
          | Gt => false
          | _ => true
          end
  | Gt => false
  end.

Definition symbol_date_leb (a b : QueryRow) : bool :=
  match symbol_compare (q_symbol a) (q_symbol b) with
  | Lt => true
  | Eq => Z.leb (q_date a) (q_date b)
  | Gt => false
  end.

(** What a query with [ORDER BY] may return: the rows in any arrangement
    that respects the order.  Rows that agree on every sort key (two assets
    with one symbol at one date) come in an order SQL leaves open. *)
Definition ordered_result (leb : QueryRow -> QueryRow -> bool)
  (s : Store) (rows : list QueryRow) : Prop :=
  Permutation rows (price_rows s) /\
  Sorted (fun a b => leb a b = true) rows.

(** The query of [plot_price_evolution], [ORDER BY ph.date, c.symbol], and
    the query of [plot_correlation_heatmap], [ORDER BY c.symbol, ph.date]:
    the results in which rows with equal sort keys keep the order of the
    join. *)
Definition price_query (s : Store) : list QueryRow :=
  sort_by date_symbol_leb (price_rows s).

Definition correlation_query (s : Store) : list QueryRow :=
  sort_by symbol_date_leb (price_rows s).

(** A row of the frame when its symbol is text. *)
Record SymbolPrice : Type := {
  sp_symbol : string;
  sp_date : date;
  sp_price_usd : float
}.

Definition query_row (r : SymbolPrice) : QueryRow :=
  {| q_symbol := Some (sp_symbol r);
     q_date := sp_date r;
     q_price_usd := sp_price_usd r |}.

(** The frame [pd.read_sql_query] builds from rows whose symbols are all
    text; the charts are modelled on such frames. *)
Fixpoint text_frame (rows : list QueryRow) : option (list SymbolPrice) :=
  match rows with
  | [] => Some []
  | r :: rest =>
      match q_symbol r, text_frame rest with
      | Some t, Some df =>
          Some ({| sp_symbol := t; sp_date := q_date r;
                   sp_price_usd := q_price_usd r |} :: df)
      | _, _ => None
      end
  end.

(** [df.loc[mask, 'price_usd'].iloc[0]] for [mask = (df['symbol'] == symbol)];
    the loop only asks for symbols that occur in [df]. *)
Definition first_price (symbol : string) (df : list SymbolPrice) : float :=
  match filter (fun r => String.eqb (sp_symbol r) symbol) df with
  | r :: _ => sp_price_usd r
  | [] => nan
  end.

(** One turn of the loop: the rows of [symbol] get their price relative to
    the symbol's first price, the other rows keep what they have. *)
Fixpoint assign_normalized (first : float) (symbol : string)
  (df : list SymbolPrice) (column : list float) : list float :=
  match df, column with
  | r :: df', old :: column' =>
      (if String.eqb (sp_symbol r) symbol
       then (sp_price_usd r / first * 100)%float
       else old) :: assign_normalized first symbol df' column'
  | _, _ => []
  end.

(** The column [price_normalized] after the loop over
    [df['symbol'].unique()]; it starts out as NaN in every row. *)
Definition price_normalized (df : list SymbolPrice) : list float :=
  fold_left
    (fun column symbol =>
       assign_normalized (first_price symbol df) symbol df column)
    (unique (map sp_symbol df))
    (map (fun _ => nan) df).

(** The grid of [plot_volume_analysis] for [n_symbols] symbols, and the
    number of axes in the list the loop indexes. *)
Definition volume_grid (n_symbols : nat) : nat * nat :=
  if (n_symbols <=? 2)%nat then (1%nat, n_symbols)
  else if (n_symbols <=? 4)%nat then (2%nat, 2%nat)
  else if (n_symbols <=? 6)%nat then (2%nat, 3%nat)
  else (3%nat, 3%nat).

Definition axes_count (n_symbols : nat) : nat :=
  if (n_symbols =? 1)%nat then 1%nat
  else (fst (volume_grid n_symbols) * snd (volume_grid n_symbols))%nat.

Definition symbol_leb (a b : string) : bool :=
  match String.compare a b with
  | Gt => false
  | _ => true
  end.

(** [sorted(df['symbol'].unique())], then the symbols that get a panel: the
    loop stops at the first index that has no axis. *)
Definition sorted_symbols (df_symbols : list string) : list string :=
  sort_by symbol_leb (unique df_symbols).

Definition plotted_symbols (df_symbols : list string) : list string :=
  firstn (axes_count (List.length (sorted_symbols df_symbols)))
         (sorted_symbols df_symbols).

(** The axes made invisible: [range(n_symbols, len(axes))]. *)
Definition hidden_axes (n_symbols : nat) : list nat :=
  seq n_symbols (axes_count n_symbols - n_symbols).

Definition entry_eqb (a b : date * string) : bool :=
  Z.eqb (fst a) (fst b) && String.eqb (snd a) (snd b).

(** Whether some (index, column) pair occurs twice. *)
Fixpoint duplicated (entries : list (date * string)) : bool :=
  match entries with
  | [] => false
  | e :: rest => existsb (entry_eqb e) rest || duplicated rest
  end.

Record PivotTable : Type := {
  pv_index : list date;
  pv_columns : list string;
  pv_values : list (list float)
}.

(** [df.pivot(index='date', columns='symbol', values='price_usd')]: one
    line per date and one column per symbol, both sorted, NaN where a
    symbol has no row at a date; ValueError when a (date, symbol) pair
    occurs twice. *)
Definition pivot (df : list SymbolPrice)
  : DataCollection.outcome PivotTable :=
  if duplicated (map (fun r => (sp_date r, sp_symbol r)) df)
  then DataCollection.Raised DataCollection.ValueError
  else
    let index := sort_by Z.leb (nodup Z.eq_dec (map sp_date df)) in
    let columns := sorted_symbols (map sp_symbol df) in
    DataCollection.Done
      {| pv_index := index;
         pv_columns := columns;
         pv_values :=
           map (fun d =>
                  map (fun c =>
                         match find (fun r => entry_eqb (sp_date r, sp_symbol r) (d, c)) df with
                         | Some r => sp_price_usd r
                         | None => nan
                         end)
                      columns)
               index |}.

(** Two assets that share a symbol and a date. *)
Definition same_symbol_store : Store :=
  {| cryptocurrencies :=
       [ {| crypto_id := "bitcoin"; c_symbol := Some "BTC"; c_name := Some "Bitcoin" |};
         {| crypto_id := "batcat"; c_symbol := Some "BTC"; c_name := Some "BatCat" |} ];
     price_history :=
       map to_price_row
           [ observation "bitcoin" 1 100 1; observation "batcat" 1 2 1 ];
     metrics := [] |}.

(** A store with two assets, the second listed from a later date on. *)
Definition two_asset_store : Store :=
  {| cryptocurrencies :=
       [ {| crypto_id := "bitcoin"; c_symbol := Some "BTC"; c_name := Some "Bitcoin" |};
         {| crypto_id := "ethereum"; c_symbol := Some "ETH"; c_name := Some "Ethereum" |} ];
     price_history :=
       map to_price_row
           [ observation "ethereum" 3 8 1; observation "bitcoin" 2 110 1;
             observation "bitcoin" 1 100 1; observation "ethereum" 2 4 1;
             observation "bitcoin" 3 99 1 ];
     metrics := [] |}.

(** The frame read from the price query on that store. *)
Definition two_asset_frame : list SymbolPrice :=
  [ {| sp_symbol := "BTC"; sp_date := 1%Z; sp_price_usd := 100%float |};
    {| sp_symbol := "BTC"; sp_date := 2%Z; sp_price_usd := 110%float |};
    {| sp_symbol := "ETH"; sp_date := 2%Z; sp_price_usd := 4%float |};
    {| sp_symbol := "BTC"; sp_date := 3%Z; sp_price_usd := 99%float |};
    {| sp_symbol := "ETH"; sp_date := 3%Z; sp_price_usd := 8%float |} ].

(** The frame read from the correlation query on [same_symbol_store]. *)
Definition same_symbol_frame : list SymbolPrice :=
  [ {| sp_symbol := "BTC"; sp_date := 1%Z; sp_price_usd := 100%float |};
    {| sp_symbol := "BTC"; sp_date := 1%Z; sp_price_usd := 2%float |} ].

End Analysis.

(** The store once the assets of the file are committed, and nothing else. *)
Definition assets_store (infos : list CryptoInfo) : Store :=
  {| cryptocurrencies := map to_cryptocurrency infos;
     price_history := [];
     metrics := [] |}.

(** The store after a run of [main] in which no stage failed. *)
Definition populated_store (infos : list CryptoInfo) (rows : list RawPrice)
  : Store :=
  let imported :=
    {| cryptocurrencies := map to_cryptocurrency infos;
       price_history := drop_duplicates (map to_price_row rows);
       metrics := [] |} in
  {| cryptocurrencies := cryptocurrencies imported;
     price_history := price_history imported;
     metrics := df_metrics imported |}.

(** A history file that holds what the collector fetched for bitcoin. *)
Definition collected_world : World :=
  {| db_file := None; schema_sql := true;
     crypto_info_csv := Table [ {| id := "bitcoin"; symbol := Some "BTC"; name := Some "Bitcoin" |} ];
     price_history_csv :=
       Table (DataCollection.fetched_history DataCollection.api_bitcoin "bitcoin") |}.

(** An asset file whose second symbol is read as missing. *)
Definition missing_symbol_world : World :=
  {| db_file := None; schema_sql := true;
     crypto_info_csv :=
       Table [ {| id := "bitcoin"; symbol := Some "BTC"; name := Some "Bitcoin" |};
               {| id := "nano"; symbol := None; name := Some "Nano" |} ];
     price_history_csv := Table [] |}.

(** ** Keys and inserts *)

(** Distinctness of an explicit list of keys. *)
Ltac distinct_keys := repeat constructor; simpl; intuition discriminate.

Lemma key_eqb_eq (k1 k2 : key) : key_eqb k1 k2 = true <-> k1 = k2.
Proof.
  destruct k1 as [c1 d1], k2 as [c2 d2]. unfold key_eqb. simpl.
  rewrite andb_true_iff, String.eqb_eq, Z.eqb_eq.
  split; [intros [-> ->]; reflexivity | intros E; inversion E; auto].
Qed.

Lemma key_eqb_refl (k : key) : key_eqb k k = true.
Proof. apply key_eqb_eq. reflexivity. Qed.

Section KeyedTable.
Context {R : Type} (keyf : R -> key).

Let conflict (a b : R) : bool := key_eqb (keyf a) (keyf b).

Lemma existsb_conflict_In (r : R) (l : list R) :
  existsb (conflict r) l = true <-> In (keyf r) (map keyf l).
Proof.
  rewrite existsb_exists, in_map_iff. unfold conflict.
  split; intros [x [H1 H2]]; exists x.
  - apply key_eqb_eq in H2. auto.
  - split; [auto | apply key_eqb_eq; auto].
Qed.

Lemma existsb_conflict_notin (r : R) (l : list R) :
  existsb (conflict r) l = false <-> ~ In (keyf r) (map keyf l).
Proof.
  rewrite <- existsb_conflict_In. destruct (existsb (conflict r) l); split; intros; congruence.
Qed.

(** A successful insert appends the rows, in order. *)
Lemma insert_rows_app (rows : list R) : forall table t,
  insert_rows conflict table rows = Some t -> t = table ++ rows.
Proof.
  induction rows as [|r rest IH]; simpl; intros table t H.
  - inversion H. now rewrite app_nil_r.
  - destruct (existsb (conflict r) table); [discriminate|].
    apply IH in H. subst t. now rewrite <- app_assoc.
Qed.

(** The insert succeeds exactly when no key is repeated. *)
Lemma insert_rows_nodup (rows : list R) : forall table,
  NoDup (map keyf table) ->
  (NoDup (map keyf (table ++ rows)) <->
   insert_rows conflict table rows = Some (table ++ rows)).
Proof.
  induction rows as [|r rest IH]; simpl; intros table Ht.
  - rewrite app_nil_r. tauto.
  - destruct (existsb (conflict r) table) eqn:E.
    + split; [|discriminate]. intros Hn. exfalso.
      apply existsb_conflict_In in E.
      rewrite map_app in Hn. simpl in Hn.
      apply NoDup_remove_2 in Hn. apply Hn, in_or_app. auto.
    + apply existsb_conflict_notin in E.
      assert (Ht' : NoDup (map keyf (table ++ [r]))).
      { rewrite map_app. simpl. apply NoDup_app; [exact Ht | |].
        - constructor; [intros [] | constructor].
        - intros k Hk [<-|[]]. contradiction. }
      specialize (IH _ Ht'). rewrite <- app_assoc in IH. simpl in IH. exact IH.
Qed.

Lemma insert_rows_keeps_nodup (rows table t : list R) :
  NoDup (map keyf table) ->
  insert_rows conflict table rows = Some t ->
  NoDup (map keyf t).
Proof.
  intros Ht H. pose proof (insert_rows_app _ _ _ H) as ->.
  apply insert_rows_nodup; assumption.
Qed.
End KeyedTable.

(** ** drop_duplicates keeps the last row of every key *)

Lemma same_price_key_In (r : PriceRow) (l : list PriceRow) :
  existsb (same_price_key r) l = true <-> In (price_key r) (map price_key l).
Proof. apply (existsb_conflict_In price_key). Qed.

Lemma drop_duplicates_keys (l : list PriceRow) (k : key) :
  In k (map price_key (drop_duplicates l)) <-> In k (map price_key l).
Proof.
  induction l as [|r rest IH]; simpl; [tauto|].
  destruct (existsb (same_price_key r) rest) eqn:E; simpl; rewrite IH.
  - apply same_price_key_In in E. split; [auto|]. intros [<-|H]; auto.
  - tauto.
Qed.

Lemma drop_duplicates_NoDup (l : list PriceRow) :
  NoDup (map price_key (drop_duplicates l)).
Proof.
  induction l as [|r rest IH]; simpl; [constructor|].
  destruct (existsb (same_price_key r) rest) eqn:E; [exact IH|].
  simpl. constructor; [|exact IH].
  rewrite drop_duplicates_keys, <- same_price_key_In, E. discriminate.
Qed.

Lemma drop_duplicates_Subseq (l : list PriceRow) :
  Subseq (drop_duplicates l) l.
Proof.
  induction l as [|r rest IH]; simpl; [constructor|].
  destruct (existsb (same_price_key r) rest); constructor; exact IH.
Qed.

Lemma find_app_some {A} (f : A -> bool) (l1 l2 : list A) (x : A) :
  find f l1 = Some x -> find f (l1 ++ l2) = Some x.
Proof.
  induction l1 as [|a l1 IH]; simpl; [discriminate|].
  destruct (f a); auto.
Qed.

Lemma find_app_none {A} (f : A -> bool) (l1 l2 : list A) :
  find f l1 = None -> find f (l1 ++ l2) = find f l2.
Proof.
  induction l1 as [|a l1 IH]; simpl; [reflexivity|].
  destruct (f a); [discriminate | auto].
Qed.

Lemma last_with_key_cons_later (k : key) (r : PriceRow) (l : list PriceRow) :
  In k (map price_key l) -> last_with_key k (r :: l) = last_with_key k l.
Proof.
  unfold last_with_key. simpl. intros H.
  destruct (find (fun x => key_eqb (price_key x) k) (rev l)) eqn:E.
  - now apply find_app_some.
  - exfalso. apply in_map_iff in H. destruct H as [x [Hk Hx]].
    apply in_rev in Hx. pose proof (find_none _ _ E x Hx) as Hf. simpl in Hf.
    rewrite Hk, key_eqb_refl in Hf. discriminate.
Qed.

Lemma last_with_key_cons_only (r : PriceRow) (l : list PriceRow) :
  ~ In (price_key r) (map price_key l) ->
  last_with_key (price_key r) (r :: l) = Some r.
Proof.
  unfold last_with_key. simpl. intros H.
  rewrite find_app_none; [simpl; now rewrite key_eqb_refl|].
  destruct (find _ (rev l)) eqn:E; [|reflexivity].
  exfalso. apply find_some in E. destruct E as [Hin Hk].
  apply key_eqb_eq in Hk. apply H. rewrite <- Hk.
  apply in_map. now apply in_rev.
Qed.

Lemma drop_duplicates_last (l : list PriceRow) (r : PriceRow) :
  In r (drop_duplicates l) -> last_with_key (price_key r) l = Some r.
Proof.
  induction l as [|a rest IH]; simpl; [tauto|].
  destruct (existsb (same_price_key a) rest) eqn:E.
  - intros H. rewrite last_with_key_cons_later; [auto|].
    apply drop_duplicates_keys. now apply in_map.
  - simpl. intros [<-|H].
    + apply last_with_key_cons_only. rewrite <- same_price_key_In, E. discriminate.
    + rewrite last_with_key_cons_later; [auto|].
      apply drop_duplicates_keys. now apply in_map.
Qed.

Lemma rows_with_key_once (k : key) (l : list PriceRow) :
  NoDup (map price_key l) -> In k (map price_key l) ->
  List.length (rows_with_key k l) = 1%nat.
Proof.
  unfold rows_with_key.
  induction l as [|a rest IH]; simpl; [tauto|].
  intros Hn Hin. inversion Hn as [|? ? Hna Hn']; subst.
  destruct (key_eqb (price_key a) k) eqn:E.
  - apply key_eqb_eq in E. subst k. simpl. f_equal.
    destruct (filter _ rest) as [|x xs] eqn:F; [reflexivity|].
    exfalso. assert (Hx : In x (filter (fun r => key_eqb (price_key r) (price_key a)) rest))
      by (rewrite F; left; reflexivity).
    apply filter_In in Hx. destruct Hx as [Hx1 Hx2].
    apply key_eqb_eq in Hx2. apply Hna. rewrite <- Hx2. now apply in_map.
  - destruct Hin as [Hin|Hin]; [|auto].
    subst k. rewrite key_eqb_refl in E. discriminate.
Qed.

(** What the observation import does on a readable file. *)
Lemma import_price_history_run (w : World) (rows : list RawPrice) (s : Store) :
  price_history_csv w = Table rows ->
  import_price_history w s =
    match insert_rows same_price_key (price_history s)
                      (drop_duplicates (map to_price_row rows)) with
    | Some t => (Ok (drop_duplicates (map to_price_row rows)),
                 {| cryptocurrencies := cryptocurrencies s;
                    price_history := t;
                    metrics := metrics s |})
    | None => (Raise (IntegrityError "price_history"), s)
    end.
Proof.
  intros H. unfold import_price_history, bind, lift, to_sql_price_history, ret.
  rewrite H. simpl.
  destruct (insert_rows same_price_key _ _); reflexivity.
Qed.

Lemma import_price_history_fresh (w : World) (rows : list RawPrice) (s : Store) :
  price_history_csv w = Table rows -> price_history s = [] ->
  import_price_history w s =
    (Ok (drop_duplicates (map to_price_row rows)),
     {| cryptocurrencies := cryptocurrencies s;
        price_history := drop_duplicates (map to_price_row rows);
        metrics := metrics s |}).
Proof.
  intros H E. rewrite (import_price_history_run _ _ _ H), E.
  pose proof (proj1 (insert_rows_nodup price_key (drop_duplicates (map to_price_row rows))
                       [] (NoDup_nil _)) (drop_duplicates_NoDup _)) as Hi.
  simpl in Hi. unfold same_price_key. rewrite Hi. reflexivity.
Qed.

(** ** The observation import *)

(** C3: on a fresh observations table the import succeeds and stores, for
    every key (asset_id, date) of the input, exactly one row, which is the
    last input tuple with that key. *)
Theorem import_price_history_last_write_wins
  (w : World) (rows : list RawPrice) (s : Store) :
  price_history_csv w = Table rows ->
  price_history s = [] ->
  exists s',
    import_price_history w s = (Ok (price_history s'), s') /\
    (forall r, In r rows ->
       List.length (rows_with_key (price_key (to_price_row r)) (price_history s')) = 1%nat) /\
    (forall row, In row (price_history s') ->
       last_with_key (price_key row) (map to_price_row rows) = Some row).
Proof.
  intros Hw Hs.
  exists {| cryptocurrencies := cryptocurrencies s;
            price_history := drop_duplicates (map to_price_row rows);
            metrics := metrics s |}.
  split; [now apply import_price_history_fresh|].
  simpl. split.
  - intros r Hr. apply rows_with_key_once; [apply drop_duplicates_NoDup|].
    apply drop_duplicates_keys. apply in_map. now apply in_map.
  - intros row Hrow. now apply drop_duplicates_last.
Qed.

Lemma import_price_history_last_write_wins_witness :
  exists s',
    import_price_history (world_of duplicated_rows) empty_store
      = (Ok (price_history s'), s') /\
    (forall r, In r duplicated_rows ->
       List.length (rows_with_key (price_key (to_price_row r)) (price_history s')) = 1%nat) /\
    (forall row, In row (price_history s') ->
       last_with_key (price_key row) (map to_price_row duplicated_rows) = Some row).
Proof.
  apply (import_price_history_last_write_wins
           (world_of duplicated_rows) duplicated_rows empty_store);
    reflexivity.
Defined.

(** C4: the import preserves the uniqueness of (asset_id, date) among the
    stored observations, whatever the input file holds and however the
    import ends; the fresh store has it. *)
Theorem observation_keys_unique (w : World) (s : Store) :
  NoDup (map price_key (price_history s)) ->
  NoDup (map price_key (price_history (snd (import_price_history w s)))).
Proof.
  intros Hs. unfold import_price_history, bind, lift, to_sql_price_history, ret.
  destruct (read_csv _ _) as [df|e]; simpl; [|exact Hs].
  destruct (insert_rows same_price_key _ _) as [t|] eqn:E; simpl; [|exact Hs].
  exact (insert_rows_keeps_nodup price_key _ _ _ Hs E).
Qed.

Lemma observation_keys_unique_witness :
  NoDup (map price_key
           (price_history
              (snd (import_price_history (world_of duplicated_rows) empty_store)))).
Proof.
  apply (observation_keys_unique (world_of duplicated_rows) empty_store).
  simpl. constructor.
Defined.

(** C5, as stated, fails: two rows given in descending date order are
    handed to the insert in that order. *)
Lemma import_price_history_not_sorted :
  ~ (forall (w : World) (s s' : Store) (df : list PriceRow),
       import_price_history w s = (Ok df, s') ->
       sorted_by (fun a b => key_leb (price_key a) (price_key b)) df = true).
Proof.
  intros H.
  specialize (H (world_of unsorted_rows) empty_store _ _ eq_refl).
  vm_compute in H. discriminate.
Qed.

(** C5, amended: the importer does not sort; the rows handed to the insert
    are the deduplicated rows in input order, and they are appended to the
    table in that order. *)
Theorem import_price_history_keeps_input_order
  (w : World) (rows : list RawPrice) (s s' : Store) (df : list PriceRow) :
  price_history_csv w = Table rows ->
  import_price_history w s = (Ok df, s') ->
  df = drop_duplicates (map to_price_row rows) /\
  Subseq df (map to_price_row rows) /\
  price_history s' = price_history s ++ df.
Proof.
  intros Hw H. rewrite (import_price_history_run _ _ _ Hw) in H.
  destruct (insert_rows same_price_key _ _) as [t|] eqn:E; [|discriminate].
  inversion H; subst. simpl.
  split; [reflexivity|]. split; [apply drop_duplicates_Subseq|].
  exact (insert_rows_app price_key _ _ _ E).
Qed.

Lemma import_price_history_keeps_input_order_witness :
  map ph_date (drop_duplicates (map to_price_row unsorted_rows)) = [2%Z; 1%Z] /\
  Subseq (drop_duplicates (map to_price_row unsorted_rows))
         (map to_price_row unsorted_rows).
Proof.
  destruct (import_price_history_keeps_input_order
              (world_of unsorted_rows) unsorted_rows empty_store
              (snd (import_price_history (world_of unsorted_rows) empty_store))
              (drop_duplicates (map to_price_row unsorted_rows))
              eq_refl eq_refl) as [_ [H _]].
  split; [reflexivity | exact H].
Defined.

(** ** create_database *)

(** C6: whatever the database file held before, [create_database] leaves a
    store with the schema's three tables and no row, and returns it; running
    it again gives the same. *)
Theorem create_database_resets (w : World) (prior : option Store) :
  schema_sql w = true ->
  create_database (set_db w prior)
    = (Ok empty_store, set_db w (Some empty_store)) /\
  create_database (snd (create_database (set_db w prior)))
    = create_database (set_db w prior).
Proof.
  intros H. unfold create_database. simpl. rewrite H. simpl. rewrite H.
  split; reflexivity.
Qed.

Lemma create_database_resets_witness :
  create_database
    (set_db (world_of duplicated_rows)
            (Some {| cryptocurrencies := [];
                     price_history := map to_price_row duplicated_rows;
                     metrics := [] |}))
  = (Ok empty_store, set_db (world_of duplicated_rows) (Some empty_store)).
Proof.
  apply (create_database_resets (world_of duplicated_rows)). reflexivity.
Defined.

(** ** main *)

Lemma bind_raise {A B} (m : DB A) (k : A -> DB B) (s s' : Store) (e : exn) :
  m s = (Raise e, s') -> bind m k s = (Raise e, s').
Proof. intros H. unfold bind. now rewrite H. Qed.

Lemma bind_ok {A B} (m : DB A) (k : A -> DB B) (s s' : Store) (a : A) :
  m s = (Ok a, s') -> bind m k s = k a s'.
Proof. intros H. unfold bind. now rewrite H. Qed.

(** ** verify_data *)

(** C8, as stated, fails: on a store whose tables are all empty
    [verify_data] returns normally. *)
Lemma verify_data_accepts_empty_tables :
  ~ (forall s : Store, some_table_empty s ->
       exists e, fst (verify_data s) = Raise e).
Proof.
  intros H. destruct (H empty_store (or_introl eq_refl)) as [e He].
  discriminate.
Qed.

Lemma fold_min_spec (l : list Z) : forall d,
  In (fold_left Z.min l d) (d :: l) /\
  forall x, In x (d :: l) -> (fold_left Z.min l d <= x)%Z.
Proof.
  induction l as [|a l IH]; intros d; simpl.
  - split; [auto | intros x [<-|[]]; lia].
  - destruct (IH (Z.min d a)) as [Hin Hle]. split.
    + destruct Hin as [Hin|Hin]; [|auto].
      rewrite <- Hin. destruct (Z.min_spec d a) as [[_ ->]|[_ ->]]; auto.
    + intros x Hx. assert (Hm : (fold_left Z.min l (Z.min d a) <= Z.min d a)%Z)
        by (apply Hle; left; reflexivity).
      destruct Hx as [<-|[<-|Hx]]; [lia | lia | apply Hle; right; exact Hx].
Qed.

Lemma fold_max_spec (l : list Z) : forall d,
  In (fold_left Z.max l d) (d :: l) /\
  forall x, In x (d :: l) -> (x <= fold_left Z.max l d)%Z.
Proof.
  induction l as [|a l IH]; intros d; simpl.
  - split; [auto | intros x [<-|[]]; lia].
  - destruct (IH (Z.max d a)) as [Hin Hle]. split.
    + destruct Hin as [Hin|Hin]; [|auto].
      rewrite <- Hin. destruct (Z.max_spec d a) as [[_ ->]|[_ ->]]; auto.
    + intros x Hx. assert (Hm : (Z.max d a <= fold_left Z.max l (Z.max d a))%Z)
        by (apply Hle; left; reflexivity).
      destruct Hx as [<-|[<-|Hx]]; [lia | lia | apply Hle; right; exact Hx].
Qed.

(** C8, amended: [verify_data] reports the row count of each table and the
    date range of the observations (the least and the greatest stored date,
    nothing when there is no observation), changes nothing and never fails,
    also when a table is empty. *)
Theorem verify_data_reports (s : Store) :
  exists r : Report,
    verify_data s = (Ok r, s) /\
    count_cryptocurrencies r = List.length (cryptocurrencies s) /\
    count_price_history r = List.length (price_history s) /\
    count_metrics r = List.length (metrics s) /\
    match min_date r, max_date r with
    | Some lo, Some hi =>
        In lo (map ph_date (price_history s)) /\
        In hi (map ph_date (price_history s)) /\
        forall d, In d (map ph_date (price_history s)) -> (lo <= d <= hi)%Z
    | None, None => price_history s = []
    | _, _ => False
    end.
Proof.
  eexists. split; [reflexivity|]. simpl. repeat split.
  destruct (price_history s) as [|r rows]; simpl; [reflexivity|].
  destruct (fold_min_spec (map ph_date rows) (ph_date r)) as [Hlo Hmin].
  destruct (fold_max_spec (map ph_date rows) (ph_date r)) as [Hhi Hmax].
  repeat split; auto.
Qed.

(** ** calculate_metrics: the frame *)

(** C10: [calculate_metrics] leaves the asset and observation tables as they
    were and only adds rows at the end of the metrics table. *)
Theorem calculate_metrics_only_appends (s : Store) :
  cryptocurrencies (snd (calculate_metrics s)) = cryptocurrencies s /\
  price_history (snd (calculate_metrics s)) = price_history s /\
  exists new, metrics (snd (calculate_metrics s)) = metrics s ++ new.
Proof.
  unfold calculate_metrics, to_sql_metrics.
  destruct (insert_rows same_metric_key (metrics s) (df_metrics s)) as [t|] eqn:E;
    simpl; repeat split.
  - exists (df_metrics s). exact (insert_rows_app metric_key _ _ _ E).
  - exists []. now rewrite app_nil_r.
Qed.

(** ** Binary64 arithmetic: when a result is a number *)

Module Binary64.

Lemma shr_1_nonneg mrs : (0 <= shr_m mrs)%Z -> (0 <= shr_m (shr_1 mrs))%Z.
Proof.
  destruct mrs as [m r s]; simpl.
  destruct m as [|p|p]; [cbn; lia| |intros; lia].
  destruct p; cbn; lia.
Qed.

Lemma iter_shr_1_nonneg p : forall mrs,
  (0 <= shr_m mrs)%Z -> (0 <= shr_m (iter_pos shr_1 p mrs))%Z.
Proof.
  induction p as [p IH|p IH|]; intros mrs H; simpl.
  - apply IH, IH, shr_1_nonneg, H.
  - apply IH, IH, H.
  - apply shr_1_nonneg, H.
Qed.

Lemma shr_fexp_nonneg (pr em m e : Z) (l : location) :
  (0 <= m)%Z -> (0 <= shr_m (fst (shr_fexp pr em m e l)))%Z.
Proof.
  intros H. unfold shr_fexp, shr.
  assert (H0 : (0 <= shr_m (shr_record_of_loc m l))%Z).
  { destruct l as [|[| |]]; exact H. }
  destruct (_ - _)%Z; simpl; auto using iter_shr_1_nonneg.
Qed.

Lemma round_nearest_even_nonneg m l :
  (0 <= m)%Z -> (0 <= round_nearest_even m l)%Z.
Proof.
  intros H. destruct l as [|[| |]]; simpl; try lia.
  destruct (Z.even m); lia.
Qed.

(** Rounding a non-negative mantissa never gives NaN and keeps the sign. *)
Lemma binary_round_aux_signed (pr em : Z) s m e l :
  (0 <= m)%Z -> sf_signed s (binary_round_aux pr em s m e l).
Proof.
  intros H. unfold binary_round_aux.
  pose proof (shr_fexp_nonneg pr em m e l H) as H1.
  destruct (shr_fexp pr em m e l) as [mrs' e']. simpl in H1.
  pose proof (shr_fexp_nonneg pr em _ e' loc_Exact
                (round_nearest_even_nonneg _ (loc_of_shr_record mrs') H1)) as H2.
  destruct (shr_fexp pr em _ e' loc_Exact) as [mrs'' e'']. simpl in H2.
  destruct (shr_m mrs'') as [|p|p]; simpl; [reflexivity| |lia].
  destruct (e'' <=? em - pr)%Z; reflexivity.
Qed.

Lemma binary_round_signed (pr em : Z) s m e :
  sf_signed s (binary_round pr em s m e).
Proof.
  unfold binary_round. destruct (shl_align _ _ _) as [mz ez].
  apply binary_round_aux_signed. lia.
Qed.

Lemma sf_signed_num s x : sf_signed s x -> sf_num x.
Proof. destruct x; simpl; auto. Qed.

Lemma binary_normalize_num (pr em : Z) m e sz :
  sf_num (binary_normalize pr em m e sz).
Proof.
  destruct m; simpl; [exact I| |]; eapply sf_signed_num, binary_round_signed.
Qed.

Lemma div_core_nonneg (pr em : Z) mx ex my ey :
  (0 <= fst (fst (SFdiv_core_binary pr em (Zpos mx) ex (Zpos my) ey)))%Z.
Proof.
  unfold SFdiv_core_binary.
  set (s := (_ - _ - _)%Z).
  set (m' := match s with Z0 => _ | Zpos _ => _ | Zneg _ => _ end).
  assert (Hm : (0 <= m')%Z).
  { subst m'. destruct s; try lia. apply Z.shiftl_nonneg. lia. }
  pose proof (Z.div_pos m' (Zpos my) Hm ltac:(lia)) as Hq.
  unfold Z.div in Hq. destruct (Z.div_eucl m' (Zpos my)) as [q r]. exact Hq.
Qed.

Lemma SFdiv_num (pr em : Z) x y :
  sf_num x -> sf_pos y -> sf_num (SFdiv pr em x y).
Proof.
  destruct x as [sx|sx| |sx mx ex], y as [sy|sy| |sy my ey]; simpl;
    try contradiction; intros _ _; try exact I.
  pose proof (div_core_nonneg pr em mx ex my ey) as H.
  destruct (SFdiv_core_binary _ _ _ _ _ _) as [[mz ez] lz]. simpl in H.
  eapply sf_signed_num, binary_round_aux_signed, H.
Qed.

Lemma SFsub_num_fin (pr em : Z) x y :
  sf_num x -> sf_fin y -> sf_num (SFsub pr em x y).
Proof.
  destruct x as [sx|sx| |sx mx ex], y as [sy|sy| |sy my ey]; simpl;
    try contradiction; intros _ _; try exact I.
  - destruct sx, sy; exact I.
  - apply binary_normalize_num.
Qed.

Lemma SFmul_num_pos (pr em : Z) x y :
  sf_num x -> sf_pos y -> sf_num (SFmul pr em x y).
Proof.
  destruct x as [sx|sx| |sx mx ex], y as [sy|sy| |sy my ey]; simpl;
    try contradiction; intros _ _; try exact I.
  eapply sf_signed_num, binary_round_aux_signed. lia.
Qed.

Lemma sqrt_core_nonneg (pr em : Z) m e :
  (0 <= fst (fst (SFsqrt_core_binary pr em (Zpos m) e)))%Z.
Proof.
  unfold SFsqrt_core_binary.
  set (s := (_ - _)%Z).
  set (m' := match s with Z0 => _ | Zpos _ => _ | Zneg _ => _ end).
  pose proof (Z.sqrtrem_spec m') as Hs.
  destruct (Z.sqrtrem m') as [q r].
  assert (Hm : (0 <= m')%Z).
  { subst m'. destruct s; try lia. apply Z.shiftl_nonneg. lia. }
  specialize (Hs Hm). simpl. lia.
Qed.

(** *** Primitive floats through their specification *)

Lemma SFcompare_refl x : sf_num x -> SFcompare x x = Some Eq.
Proof.
  destruct x as [s|s| |s m e]; simpl; try contradiction; intros _.
  - reflexivity.
  - destruct s; reflexivity.
  - rewrite Z.compare_refl, Pos.compare_cont_refl. destruct s; reflexivity.
Qed.

Lemma is_nan_false x : is_nan x = false <-> sf_num (Prim2SF x).
Proof.
  unfold is_nan. rewrite eqb_spec. unfold SFeqb. split.
  - intros H. destruct (Prim2SF x); simpl in *; auto. discriminate.
  - intros H. rewrite (SFcompare_refl _ H). reflexivity.
Qed.

Lemma is_nan_true x : is_nan x = true <-> Prim2SF x = S754_nan.
Proof.
  split.
  - intros H. destruct (Prim2SF x) eqn:E; auto;
      assert (Hn : is_nan x = false) by (apply is_nan_false; rewrite E; exact I);
      congruence.
  - intros H. destruct (is_nan x) eqn:E; auto.
    apply is_nan_false in E. rewrite H in E. contradiction.
Qed.

Lemma is_finite_fin x : is_finite x = true -> sf_fin (Prim2SF x).
Proof.
  unfold is_finite, is_nan, is_infinity.
  rewrite !eqb_spec, abs_spec.
  change (Prim2SF infinity) with (S754_infinity false).
  destruct (Prim2SF x) as [s|s| |s m e]; simpl; auto.
  - destruct s; cbn; discriminate.
  - cbn; discriminate.
Qed.

Lemma is_finite_num x : is_finite x = true -> sf_num (Prim2SF x).
Proof.
  intros H. apply is_finite_fin in H.
  destruct (Prim2SF x); simpl in *; auto.
Qed.

Lemma is_zero_false_pos x :
  is_finite x = true -> is_zero x = false -> sf_pos (Prim2SF x).
Proof.
  intros Hf Hz. apply is_finite_fin in Hf. revert Hz.
  unfold is_zero. rewrite eqb_spec.
  change (Prim2SF 0) with (S754_zero false).
  destruct (Prim2SF x) as [s|s| |s m e]; simpl in *; auto; try contradiction.
  discriminate.
Qed.

Lemma is_zero_true x : is_zero x = true -> sf_zero (Prim2SF x).
Proof.
  unfold is_zero. rewrite eqb_spec.
  change (Prim2SF 0) with (S754_zero false).
  destruct (Prim2SF x) as [s|s| |s m e]; simpl; auto.
  - destruct s; discriminate.
  - discriminate.
  - destruct s; discriminate.
Qed.

(** A one-step percentage change is a number when both values are finite
    and the earlier one is not zero. *)
Lemma pct_not_nan (prev cur : float) :
  is_finite prev = true -> is_zero prev = false -> is_finite cur = true ->
  is_nan ((cur / prev - 1) * 100)%float = false.
Proof.
  intros Hp Hz Hc. apply is_nan_false.
  rewrite mul_spec, sub_spec, div_spec.
  apply SFmul_num_pos; [apply SFsub_num_fin|].
  - apply SFdiv_num; auto using is_finite_num, is_zero_false_pos.
  - vm_compute. exact I.
  - vm_compute. exact I.
Qed.

(** It is NaN when both values are zero. *)
Lemma pct_zero_zero (prev cur : float) :
  is_zero prev = true -> is_zero cur = true ->
  is_nan ((cur / prev - 1) * 100)%float = true.
Proof.
  intros Hp Hc. apply is_zero_true in Hp, Hc. apply is_nan_true.
  rewrite mul_spec, sub_spec, div_spec.
  destruct (Prim2SF prev), (Prim2SF cur); simpl in *; try contradiction.
  reflexivity.
Qed.

(** A finite non-zero value divided by itself is exactly one, so the
    percentage change between equal values is exactly zero. *)
Lemma SFdiv_self (s : bool) (m : positive) (e : Z) :
  SF64div (S754_finite s m e) (S754_finite s m e) = Prim2SF 1.
Proof.
  unfold SF64div, SFdiv, SFdiv_core_binary.
  replace (Zdigits2 (Z.pos m) + e - (Zdigits2 (Z.pos m) + e))%Z with 0%Z by lia.
  rewrite Z.sub_diag, xorb_nilpotent.
  change (Z.min (fexp prec emax 0) 0) with (-53)%Z.
  change (0 - -53)%Z with 53%Z. cbv iota.
  rewrite Z.shiftl_mul_pow2 by lia.
  pose proof (Z.div_mul (2 ^ 53) (Z.pos m) ltac:(lia)) as Hq.
  pose proof (Z.mod_mul (2 ^ 53) (Z.pos m) ltac:(lia)) as Hr.
  rewrite (Z.mul_comm (2 ^ 53)) in Hq, Hr.
  unfold Z.div, Z.modulo in Hq, Hr.
  destruct (Z.div_eucl (Z.pos m * 2 ^ 53) (Z.pos m)) as [q r].
  subst q r. unfold new_location.
  destruct (Z.even (Z.pos m)); vm_compute; reflexivity.
Qed.

Lemma pct_same (x : float) :
  is_finite x = true -> is_zero x = false ->
  ((x / x - 1) * 100)%float = 0%float.
Proof.
  intros Hf Hz. pose proof (is_zero_false_pos x Hf Hz) as Hp.
  assert (E : (x / x)%float = 1%float).
  { apply Prim2SF_inj. rewrite div_spec.
    destruct (Prim2SF x) as [| | |s m e]; try contradiction.
    apply SFdiv_self. }
  rewrite E. reflexivity.
Qed.

End Binary64.

(** ** Columns by position *)

Lemma nth_map_seq {A} (f : nat -> A) (n i : nat) (d : A) :
  (i < n)%nat -> nth i (map f (seq 0 n)) d = f i.
Proof.
  intros H. rewrite (nth_indep _ d (f 0%nat)) by (now rewrite length_map, length_seq).
  rewrite map_nth, seq_nth by exact H. reflexivity.
Qed.

Lemma filter_map_comm {A B} (f : A -> B) (p : B -> bool) (l : list A) :
  filter p (map f l) = map f (filter (fun x => p (f x)) l).
Proof.
  induction l as [|a l IH]; simpl; [reflexivity|].
  destruct (p (f a)); simpl; now rewrite IH.
Qed.

Lemma filter_seq_all (q : nat -> bool) (n : nat) : forall a,
  (forall i, (a <= i < a + n)%nat -> q i = true) ->
  filter q (seq a n) = seq a n.
Proof.
  induction n as [|n IH]; simpl; intros a H; [reflexivity|].
  rewrite (H a) by lia. f_equal. apply IH. intros i Hi. apply H. lia.
Qed.

Lemma length_pct_change_from (col : list float) : forall prev,
  List.length (pct_change_from prev col) = List.length col.
Proof. induction col; simpl; intros; [reflexivity | now rewrite IHcol]. Qed.

Lemma length_pct_change (col : list float) :
  List.length (pct_change col) = List.length col.
Proof. destruct col; simpl; [reflexivity | now rewrite length_pct_change_from]. Qed.

Lemma nth_pct_change_from (col : list float) : forall prev i,
  (i < List.length col)%nat ->
  nth i (pct_change_from prev col) nan =
  (nth i col nan / nth i (prev :: col) nan - 1)%float.
Proof.
  induction col as [|x col IH]; simpl; intros prev i H; [lia|].
  destruct i as [|i]; [reflexivity|].
  rewrite IH by lia. reflexivity.
Qed.

Lemma nth_pct_change (col : list float) (i : nat) :
  (S i < List.length col)%nat ->
  nth (S i) (pct_change col) nan = (nth (S i) col nan / nth i col nan - 1)%float.
Proof.
  destruct col as [|x col]; simpl; intros H; [lia|].
  rewrite nth_pct_change_from by lia. reflexivity.
Qed.

Lemma nth_times100 (col : list float) (i : nat) :
  nth i (times100 col) nan = (nth i col nan * 100)%float.
Proof.
  unfold times100. change nan with ((fun x => x * 100)%float nan) at 1.
  apply map_nth.
Qed.

Lemma length_times100 (col : list float) :
  List.length (times100 col) = List.length col.
Proof. apply length_map. Qed.

Lemma length_daily_returns (l : list PriceRow) :
  List.length (daily_returns l) = List.length l.
Proof.
  unfold daily_returns. now rewrite length_times100, length_pct_change, length_map.
Qed.

Lemma length_volume_changes (l : list PriceRow) :
  List.length (volume_changes l) = List.length l.
Proof.
  unfold volume_changes. now rewrite length_times100, length_pct_change, length_map.
Qed.

(** The first row has no return; every later row has the percentage change
    from the row before it. *)
Lemma daily_returns_first (l : list PriceRow) :
  is_nan (nth 0 (daily_returns l) nan) = true.
Proof.
  unfold daily_returns. rewrite nth_times100.
  destruct l; reflexivity.
Qed.

Lemma daily_returns_later (l : list PriceRow) (i : nat) :
  (S i < List.length l)%nat ->
  nth (S i) (daily_returns l) nan =
  ((price_at l (S i) / price_at l i - 1) * 100)%float.
Proof.
  intros H. unfold daily_returns, price_at.
  rewrite nth_times100, nth_pct_change by (now rewrite length_map).
  reflexivity.
Qed.

Lemma volume_changes_later (l : list PriceRow) (i : nat) :
  (S i < List.length l)%nat ->
  nth (S i) (volume_changes l) nan =
  ((volume_at l (S i) / volume_at l i - 1) * 100)%float.
Proof.
  intros H. unfold volume_changes, volume_at.
  rewrite nth_times100, nth_pct_change by (now rewrite length_map).
  reflexivity.
Qed.

Lemma add_metric_columns_rows (l : list PriceRow) :
  add_metric_columns l = map (frame_row l) (seq 0 (List.length l)).
Proof. reflexivity. Qed.

Lemma asset_entries_rows (c : string) (l : list PriceRow) :
  asset_entries c l =
  map (fun i => (c, frame_row l i))
      (filter (fun i => notna (nth i (daily_returns l) nan))
              (seq 0 (List.length l))).
Proof.
  unfold asset_entries. rewrite add_metric_columns_rows, filter_map_comm, map_map.
  reflexivity.
Qed.

(** ** Sorting, distinct values and tagged rows *)

Lemma insert_by_perm {A} (leb : A -> A -> bool) (x : A) (l : list A) :
  Permutation (insert_by leb x l) (x :: l).
Proof.
  induction l as [|y l IH]; simpl; [reflexivity|].
  destruct (leb x y); [reflexivity|].
  rewrite IH. apply perm_swap.
Qed.

Lemma sort_by_perm {A} (leb : A -> A -> bool) (l : list A) :
  Permutation (sort_by leb l) l.
Proof.
  induction l as [|x l IH]; simpl; [reflexivity|].
  rewrite insert_by_perm. now constructor.
Qed.

Section SortTotal.
Context {A : Type} (leb : A -> A -> bool).
Hypothesis leb_total : forall a b, leb a b = true \/ leb b a = true.

Let le (a b : A) : Prop := leb a b = true.

Lemma insert_by_sorted (x : A) (l : list A) :
  Sorted le l -> Sorted le (insert_by leb x l).
Proof.
  induction l as [|y l IH]; simpl; intros Hs.
  - repeat constructor.
  - destruct (leb x y) eqn:E.
    + constructor; [exact Hs | constructor; exact E].
    + inversion Hs as [|? ? Hs' Hhd]; subst.
      constructor; [auto|].
      destruct l as [|z l]; simpl.
      * constructor. destruct (leb_total x y); [congruence | assumption].
      * destruct (leb x z); constructor.
        -- destruct (leb_total x y); [congruence | assumption].
        -- now inversion Hhd.
Qed.

Lemma sort_by_sorted (l : list A) : Sorted le (sort_by leb l).
Proof.
  induction l as [|x l IH]; simpl; [constructor | now apply insert_by_sorted].
Qed.
End SortTotal.

Lemma Permutation_filter {A} (p : A -> bool) (l l' : list A) :
  Permutation l l' -> Permutation (filter p l) (filter p l').
Proof.
  induction 1 as [|x l l' _ IH|x y l|l l' l'' _ IH1 _ IH2]; simpl.
  - reflexivity.
  - destruct (p x); [now constructor | assumption].
  - destruct (p x), (p y); try reflexivity. apply perm_swap.
  - now transitivity (filter p l').
Qed.

Lemma unique_In (l : list string) (x : string) : In x (unique l) <-> In x l.
Proof.
  induction l as [|a l IH]; simpl; [tauto|].
  rewrite filter_In, IH.
  destruct (String.eqb_spec a x) as [->|Hne]; simpl; intuition congruence.
Qed.

Lemma unique_NoDup (l : list string) : NoDup (unique l).
Proof.
  induction l as [|a l IH]; simpl; constructor.
  - rewrite filter_In, String.eqb_refl. simpl. intros [_ H]. discriminate.
  - now apply NoDup_filter.
Qed.

Lemma map_nth_all {A} (l : list A) (d : A) :
  map (fun i => nth i l d) (seq 0 (List.length l)) = l.
Proof.
  induction l as [|a l IH]; simpl; [reflexivity|].
  f_equal. rewrite <- seq_shift, map_map. exact IH.
Qed.

Lemma NoDup_map_filter {A B} (g : A -> B) (keep : A -> bool) (rows : list A)
  (Hrows : NoDup (map g rows)) :
  NoDup (map g (filter keep rows)).
Proof.
  induction rows as [|a rows IH]; simpl; [constructor|].
  simpl in Hrows. inversion Hrows as [|? ? Hn H']; subst.
  destruct (keep a); simpl; [|auto].
  constructor; [|auto].
  intros Hin. apply Hn. apply in_map_iff in Hin. destruct Hin as [x [Hx Hin]].
  apply filter_In in Hin. rewrite <- Hx. apply in_map. tauto.
Qed.

(** Rows tagged with distinct assets, each asset's dates distinct, have
    distinct keys. *)
Lemma NoDup_tagged (h : string -> list date) (ids : list string) :
  NoDup ids -> (forall c, NoDup (h c)) ->
  NoDup (flat_map (fun c => map (pair c) (h c)) ids).
Proof.
  induction ids as [|c ids IH]; simpl; intros Hn Hh; [constructor|].
  inversion Hn as [|? ? Hc Hn']; subst.
  apply NoDup_app.
  - apply Finite.Injective_map_NoDup; [|apply Hh].
    intros x y E. now inversion E.
  - now apply IH.
  - intros [c' d] H1 H2. apply in_map_iff in H1. destruct H1 as [x [E _]].
    inversion E; subst. apply in_flat_map in H2. destruct H2 as [c2 [Hc2 H2]].
    apply in_map_iff in H2. destruct H2 as [y [E2 _]]. inversion E2; subst.
    contradiction.
Qed.

Lemma filter_same_tag {B} (c : string) (l : list (string * B)) :
  Forall (fun e => fst e = c) l ->
  filter (fun e => String.eqb (fst e) c) l = l.
Proof.
  induction 1 as [|e l He _ IH]; simpl; [reflexivity|].
  rewrite He, String.eqb_refl. f_equal. exact IH.
Qed.

Lemma filter_other_tag {B} (a c : string) (l : list (string * B)) :
  Forall (fun e => fst e = a) l -> a <> c ->
  filter (fun e => String.eqb (fst e) c) l = [].
Proof.
  intros H Hne. induction H as [|e l He _ IH]; simpl; [reflexivity|].
  destruct (String.eqb_spec (fst e) c); [congruence | exact IH].
Qed.

Lemma filter_tag_notin {B} (g : string -> list (string * B)) (c : string)
  (ids : list string) :
  (forall c', Forall (fun e => fst e = c') (g c')) ->
  ~ In c ids ->
  filter (fun e => String.eqb (fst e) c) (flat_map g ids) = [].
Proof.
  intros Hg. induction ids as [|a ids IH]; simpl; intros Hn; [reflexivity|].
  rewrite filter_app, IH by tauto. rewrite app_nil_r.
  apply filter_other_tag with (a := a); [apply Hg | tauto].
Qed.

Lemma filter_tag_in {B} (g : string -> list (string * B)) (c : string)
  (ids : list string) :
  (forall c', Forall (fun e => fst e = c') (g c')) ->
  NoDup ids -> In c ids ->
  filter (fun e => String.eqb (fst e) c) (flat_map g ids) = g c.
Proof.
  intros Hg. induction ids as [|a ids IH]; simpl; intros Hn Hin; [tauto|].
  inversion Hn as [|? ? Ha Hn']; subst. rewrite filter_app.
  destruct (String.eqb_spec a c) as [->|Hne].
  - rewrite filter_tag_notin by assumption. rewrite app_nil_r.
    apply filter_same_tag, Hg.
  - destruct Hin as [Hin|Hin]; [contradiction|].
    rewrite IH by assumption.
    rewrite (filter_other_tag a c) by (auto using Hg). reflexivity.
Qed.

(** ** The series of an asset and what calculate_metrics stores *)

Lemma asset_series_perm (s : Store) (c : string) :
  Permutation (asset_series s c)
              (filter (fun r => String.eqb (ph_crypto_id r) c) (price_history s)).
Proof.
  unfold asset_series, df_crypto, read_price_history.
  rewrite sort_by_perm. apply Permutation_filter, sort_by_perm.
Qed.

Lemma asset_series_sorted (s : Store) (c : string) :
  StronglySorted (fun a b => (ph_date a <= ph_date b)%Z) (asset_series s c).
Proof.
  apply Sorted_StronglySorted.
  - intros x y z Hxy Hyz. lia.
  - unfold asset_series, df_crypto.
    eapply Sorted_ind with
      (P := fun l => Sorted (fun a b => (ph_date a <= ph_date b)%Z) l);
      [constructor| |apply (sort_by_sorted (fun a b => Z.leb (ph_date a) (ph_date b)))].
    + intros a l _ IH Hhd. constructor; [exact IH|].
      destruct Hhd as [|b l' Hab]; constructor. now apply Z.leb_le.
    + intros a b. rewrite !Z.leb_le. lia.
Qed.

Lemma asset_dates_NoDup (rows : list PriceRow) (c : string) :
  NoDup (map price_key rows) ->
  NoDup (map ph_date (filter (fun r => String.eqb (ph_crypto_id r) c) rows)).
Proof.
  induction rows as [|a rows IH]; simpl; intros H; [constructor|].
  inversion H as [|? ? Hn H']; subst.
  destruct (String.eqb_spec (ph_crypto_id a) c) as [E|E]; simpl; [|auto].
  constructor; [|auto].
  intros Hin. apply Hn. apply in_map_iff in Hin. destruct Hin as [x [Hx Hin]].
  apply filter_In in Hin. destruct Hin as [Hin Hc].
  apply String.eqb_eq in Hc. apply in_map_iff. exists x. split; [|exact Hin].
  unfold price_key. congruence.
Qed.

Lemma asset_series_dates_NoDup (s : Store) (c : string) :
  NoDup (map price_key (price_history s)) ->
  NoDup (map ph_date (asset_series s c)).
Proof.
  intros H. eapply Permutation_NoDup.
  - apply Permutation_map. symmetry. apply asset_series_perm.
  - now apply asset_dates_NoDup.
Qed.

Lemma asset_series_absent (s : Store) (c : string) :
  ~ In c (map ph_crypto_id (read_price_history s)) -> asset_series s c = [].
Proof.
  intros H. unfold asset_series, df_crypto.
  replace (filter _ (read_price_history s)) with (@nil PriceRow); [reflexivity|].
  symmetry. induction (read_price_history s) as [|a l IH]; simpl in *; [reflexivity|].
  destruct (String.eqb_spec (ph_crypto_id a) c); [tauto|]. apply IH. tauto.
Qed.

Lemma map_flat_map {A B C} (f : B -> C) (g : A -> list B) (l : list A) :
  map f (flat_map g l) = flat_map (fun x => map f (g x)) l.
Proof.
  induction l as [|a l IH]; simpl; [reflexivity|].
  now rewrite map_app, IH.
Qed.

Lemma asset_entries_tagged (c : string) (l : list PriceRow) :
  Forall (fun e => fst e = c) (asset_entries c l).
Proof.
  unfold asset_entries. apply Forall_forall. intros e H.
  apply in_map_iff in H. destruct H as [x [<- _]]. reflexivity.
Qed.

Lemma metric_keys_NoDup (s : Store) :
  NoDup (map price_key (price_history s)) ->
  NoDup (map metric_key (df_metrics s)).
Proof.
  intros H. unfold df_metrics, metrics_list.
  rewrite map_map, map_flat_map.
  erewrite flat_map_ext.
  - apply (NoDup_tagged
             (fun c => map (date_at (asset_series s c))
                         (filter (fun i => notna (nth i (daily_returns (asset_series s c)) nan))
                                 (seq 0 (List.length (asset_series s c)))))).
    + apply unique_NoDup.
    + intros c. apply NoDup_map_filter.
      unfold date_at.
      rewrite <- (length_map ph_date), map_nth_all.
      now apply asset_series_dates_NoDup.
  - intros c. fold (asset_series s c).
    rewrite asset_entries_rows, !map_map. reflexivity.
Qed.

Lemma calculate_metrics_fresh (s : Store) :
  NoDup (map price_key (price_history s)) -> metrics s = [] ->
  calculate_metrics s =
    (Ok tt, {| cryptocurrencies := cryptocurrencies s;
               price_history := price_history s;
               metrics := df_metrics s |}).
Proof.
  intros Hk Hm. unfold calculate_metrics, to_sql_metrics. rewrite Hm.
  pose proof (proj1 (insert_rows_nodup metric_key (df_metrics s) []
                       (NoDup_nil _)) (metric_keys_NoDup s Hk)) as Hi.
  simpl in Hi. unfold same_metric_key. rewrite Hi. reflexivity.
Qed.

Lemma stored_asset_metrics_fresh (s : Store) (c : string) :
  NoDup (map price_key (price_history s)) -> metrics s = [] ->
  stored_asset_metrics s c =
  map where_notna (asset_entries c (asset_series s c)).
Proof.
  intros Hk Hm. unfold stored_asset_metrics.
  rewrite (calculate_metrics_fresh s Hk Hm). simpl.
  unfold df_metrics, metrics_list.
  rewrite filter_map_comm. simpl. f_equal.
  set (df := read_price_history s).
  set (g := fun c0 => asset_entries c0 (df_crypto c0 df)).
  destruct (in_dec string_dec c (unique (map ph_crypto_id df))) as [Hin|Hout].
  - apply (filter_tag_in g); auto using unique_NoDup.
    intros c'. apply asset_entries_tagged.
  - rewrite (filter_tag_notin g); auto.
    + rewrite asset_series_absent; [reflexivity|].
      intros Hc. apply Hout. now apply unique_In.
    + intros c'. apply asset_entries_tagged.
Qed.

Lemma sorted_dates_strict (l : list PriceRow) :
  StronglySorted (fun a b => (ph_date a <= ph_date b)%Z) l ->
  NoDup (map ph_date l) ->
  StronglySorted (fun a b => (ph_date a < ph_date b)%Z) l.
Proof.
  induction 1 as [|a l Hs IH Hall]; simpl; intros Hn; constructor;
    inversion Hn as [|? ? Hna Hn']; subst; [auto|].
  rewrite Forall_forall in *. intros b Hb.
  specialize (Hall b Hb).
  assert (ph_date a <> ph_date b).
  { intros E. apply Hna. rewrite E. now apply in_map. }
  lia.
Qed.

(** When every row after the first has a return, each of them is kept. *)
Lemma asset_entries_returns (c : string) (l : list PriceRow) :
  (forall i, (S i < List.length l)%nat ->
             is_nan (nth (S i) (daily_returns l) nan) = false) ->
  asset_entries c l =
  map (fun i => (c, frame_row l (S i))) (seq 0 (List.length l - 1)).
Proof.
  intros Hnum. rewrite asset_entries_rows.
  destruct (List.length l) as [|n] eqn:En; [reflexivity|].
  rewrite <- cons_seq. simpl filter.
  unfold notna at 1. rewrite daily_returns_first. simpl negb. cbv iota.
  rewrite filter_seq_all.
  - rewrite <- seq_shift, map_map. now replace (S n - 1)%nat with n by lia.
  - intros i Hi. destruct i as [|i]; [lia|].
    unfold notna. rewrite Hnum by lia. reflexivity.
Qed.

(** That is the case when every price is finite and every price but the
    last is not zero. *)
Lemma prices_give_returns (l : list PriceRow) :
  (forall i, (i < List.length l)%nat -> is_finite (price_at l i) = true) ->
  (forall i, (S i < List.length l)%nat -> is_zero (price_at l i) = false) ->
  forall i, (S i < List.length l)%nat ->
            is_nan (nth (S i) (daily_returns l) nan) = false.
Proof.
  intros Hfin Hnz i Hi. rewrite daily_returns_later by lia.
  apply Binary64.pct_not_nan; [apply Hfin | apply Hnz | apply Hfin]; lia.
Qed.

(** ** Daily returns *)

(** C1, as stated, fails on the example of the specification: for prices
    100, 110, 99 the stored returns are (110/100 - 1) * 100 and
    (99/110 - 1) * 100 in binary64, which are neither 10.0 and -10.0 nor
    the values of (p[i] - p[i-1]) / p[i-1] * 100. *)
Lemma daily_return_example_inexact :
  map daily_return (stored_metrics (world_of example_rows))
    = [ Some 0x1.4000000000005p+3%float; Some (-0x1.3ffffffffffffp+3)%float ] /\
  map daily_return (stored_metrics (world_of example_rows))
    <> [ Some 10%float; Some (-10)%float ] /\
  [ ((110 - 100) / 100 * 100)%float; ((99 - 110) / 110 * 100)%float ]
    = [ 10%float; (-10)%float ].
Proof.
  split; [vm_compute; reflexivity|]. split; [|vm_compute; reflexivity].
  intros H.
  apply (f_equal (fun l => match l with
                           | Some x :: _ => PrimFloat.eqb x 10
                           | _ => true
                           end)) in H.
  vm_compute in H. discriminate.
Qed.

(** C1, amended: for an asset whose prices are finite, each but the last
    non-zero, the metrics stage takes the asset's observations by strictly
    ascending date and stores one row for every observation but the first,
    the row of observation i+1 holding the binary64 value of
    (price[i+1] / price[i] - 1) * 100. *)
Theorem daily_return_rows (s : Store) (c : string) :
  NoDup (map price_key (price_history s)) ->
  metrics s = [] ->
  (forall i, (i < List.length (asset_series s c))%nat ->
             is_finite (price_at (asset_series s c) i) = true) ->
  (forall i, (S i < List.length (asset_series s c))%nat ->
             is_zero (price_at (asset_series s c) i) = false) ->
  Permutation (asset_series s c)
              (filter (fun r => String.eqb (ph_crypto_id r) c) (price_history s)) /\
  StronglySorted (fun a b => (ph_date a < ph_date b)%Z) (asset_series s c) /\
  fst (calculate_metrics s) = Ok tt /\
  map (fun r => (m_date r, daily_return r)) (stored_asset_metrics s c) =
  map (fun i =>
         (date_at (asset_series s c) (S i),
          Some ((price_at (asset_series s c) (S i)
                 / price_at (asset_series s c) i - 1) * 100)%float))
      (seq 0 (List.length (asset_series s c) - 1)).
Proof.
  intros Hk Hm Hfin Hnz.
  split; [apply asset_series_perm|].
  split; [apply sorted_dates_strict;
          [apply asset_series_sorted | now apply asset_series_dates_NoDup]|].
  split; [now rewrite calculate_metrics_fresh|].
  rewrite (stored_asset_metrics_fresh s c Hk Hm).
  pose proof (prices_give_returns _ Hfin Hnz) as Hret.
  rewrite (asset_entries_returns c _ Hret), !map_map.
  apply map_ext_in. intros i Hi. apply in_seq in Hi.
  unfold where_notna. simpl. f_equal.
  unfold nan_to_none. rewrite Hret by lia.
  now rewrite daily_returns_later by lia.
Qed.

Lemma daily_return_rows_witness :
  map (fun r => (m_date r, daily_return r))
      (stored_asset_metrics example_store "bitcoin")
  = [ (2%Z, Some 0x1.4000000000005p+3%float);
      (3%Z, Some (-0x1.3ffffffffffffp+3)%float) ].
Proof.
  assert (Hk : NoDup (map price_key (price_history example_store))).
  { distinct_keys. }
  assert (Hfin : forall i, (i < List.length (asset_series example_store "bitcoin"))%nat ->
                           is_finite (price_at (asset_series example_store "bitcoin") i) = true).
  { intros i Hi. do 3 (destruct i as [|i]; [reflexivity|]). vm_compute in Hi. lia. }
  assert (Hnz : forall i, (S i < List.length (asset_series example_store "bitcoin"))%nat ->
                          is_zero (price_at (asset_series example_store "bitcoin") i) = false).
  { intros i Hi. do 2 (destruct i as [|i]; [reflexivity|]). vm_compute in Hi. lia. }
  destruct (daily_return_rows example_store "bitcoin" Hk eq_refl Hfin Hnz)
    as [_ [_ [_ H]]].
  rewrite H. reflexivity.
Defined.

(** ** Rolling windows *)

Lemma finite_notna (x : float) : is_finite x = true -> notna x = true.
Proof.
  unfold is_finite, notna. destruct (is_nan x); simpl; [discriminate | reflexivity].
Qed.

(** *** Windows, one position after the other *)

Lemma firstn_snoc {A} (d : A) (l : list A) : forall n,
  (n < List.length l)%nat -> firstn (S n) l = firstn n l ++ [nth n l d].
Proof.
  induction l as [|x l IH]; intros n Hn; simpl in Hn; [lia|].
  destruct n as [|n]; [reflexivity|].
  change (firstn (S (S n)) (x :: l)) with (x :: firstn (S n) l).
  rewrite IH by lia. reflexivity.
Qed.

Lemma skipn_S_tl {A} (l : list A) : forall k, skipn (S k) l = tl (skipn k l).
Proof.
  induction l as [|x l IH]; intros k.
  - now rewrite !skipn_nil.
  - destruct k as [|k]; [reflexivity|]. apply IH.
Qed.

Lemma skipn_head {A} (d : A) (l : list A) : forall k,
  (k < List.length l)%nat -> skipn k l = nth k l d :: tl (skipn k l).
Proof.
  induction l as [|x l IH]; intros k Hk; simpl in Hk; [lia|].
  destruct k as [|k]; [reflexivity|]. apply IH. lia.
Qed.

Lemma window_first {A} (d : A) (w : nat) (col : list A) :
  (1 <= w)%nat -> (1 <= List.length col)%nat -> window w col 0 = [nth 0 col d].
Proof.
  intros Hw Hl. unfold window. replace (1 - w)%nat with 0%nat by lia.
  destruct col; [simpl in Hl; lia | reflexivity].
Qed.

Lemma window_next {A} (d : A) (w : nat) (col : list A) (i : nat) :
  (1 <= w)%nat -> (S i < List.length col)%nat ->
  window w col (S i)
  = (if (w <=? S i)%nat then tl (window w col i) else window w col i)
      ++ [nth (S i) col d].
Proof.
  intros Hw Hi. unfold window.
  rewrite (firstn_snoc d col (S i)) by lia.
  rewrite skipn_app, length_firstn.
  replace (S (S i) - w - Nat.min (S i) (List.length col))%nat with 0%nat by lia.
  simpl skipn at 2. f_equal.
  destruct (Nat.leb_spec w (S i)).
  - replace (S (S i) - w)%nat with (S (S i - w)) by lia. apply skipn_S_tl.
  - now replace (S (S i) - w)%nat with (S i - w)%nat by lia.
Qed.

Lemma window_head {A} (d : A) (w : nat) (col : list A) (i : nat) :
  (1 <= w)%nat -> (w <= S i)%nat -> (i < List.length col)%nat ->
  window w col i = nth (S i - w) col d :: tl (window w col i).
Proof.
  intros Hw Hwi Hi. unfold window.
  rewrite (skipn_head d) at 1 by (rewrite length_firstn; lia).
  f_equal. rewrite nth_firstn.
  destruct (Nat.ltb_spec (S i - w) (S i)); [reflexivity | lia].
Qed.


Lemma window_map {A B} (f : A -> B) (w : nat) (col : list A) (i : nat) :
  window w (map f col) i = map f (window w col i).
Proof. unfold window. now rewrite firstn_map, skipn_map. Qed.

(** *** The loop of [roll_var] *)

Section RollVarFacts.
Context {F : Type} {arith : Arith F}.

Lemma fold_left_seq_S {A} (f : A -> nat -> A) (a : A) (n : nat) :
  fold_left f (seq 0 (S n)) a = f (fold_left f (seq 0 n) a) n.
Proof. rewrite seq_S, fold_left_app. reflexivity. Qed.

Lemma state_after_S (w : nat) (values : list F) (n : nat) :
  state_after w values (S n) = next_state w values (state_after w values n) n.
Proof. apply fold_left_seq_S. Qed.

Lemma roll_var_fold (w minp ddof : nat) (values : list F) (n : nat) :
  fold_left (roll_var_step w minp ddof values) (seq 0 n) (initial a_nan, [])
  = (state_after w values n,
     map (fun i => calc_var minp ddof (state_after w values (S i))) (seq 0 n)).
Proof.
  induction n as [|n IH]; [reflexivity|].
  rewrite fold_left_seq_S, IH. unfold roll_var_step. cbn [fst snd].
  rewrite seq_S, map_app, <- state_after_S. reflexivity.
Qed.

Lemma nth_roll_var (w minp ddof : nat) (values : list F) (i : nat) (d : F) :
  (i < List.length values)%nat ->
  nth i (roll_var w minp ddof values) d
  = calc_var (Nat.max minp 1) ddof (state_after w values (S i)).
Proof.
  intros Hi. unfold roll_var. rewrite roll_var_fold. cbn [snd].
  exact (nth_map_seq
           (fun j => calc_var (Nat.max minp 1) ddof (state_after w values (S j)))
           _ _ d Hi).
Qed.

(** With a window of two rows or more, every window but the first comes
    from the one before it: at most one value leaves, one comes in. *)
Lemma next_state_first (w : nat) (values : list F) (st : VarState F) :
  (1 <= w)%nat ->
  next_state w values st 0
  = add_var (nth 0 values a_nan) (initial (nth 0 values a_nan)).
Proof.
  intros Hw. unfold next_state, window_start, window_end, positions.
  replace (1 - w)%nat with 0%nat by lia. reflexivity.
Qed.

Lemma next_state_later (w : nat) (values : list F) (st : VarState F) (i : nat) :
  (2 <= w)%nat ->
  next_state w values st (S i)
  = add_var (nth (S i) values a_nan)
            (if (w <=? S i)%nat
             then remove_var (nth (S i - w) values a_nan) st
             else st).
Proof.
  intros Hw. unfold next_state, window_start, window_end, positions.
  replace (S i - 1)%nat with i by lia.
  replace ((S i =? 0)%nat || (S i <=? S (S i) - w)%nat) with false
    by (symmetry; apply orb_false_iff; split;
        [reflexivity | apply Nat.leb_gt; lia]).
  replace (S (S i) - S i)%nat with 1%nat by lia.
  destruct (Nat.leb_spec w (S i)).
  - replace (S (S i) - w - (S i - w))%nat with 1%nat by lia. reflexivity.
  - replace (S (S i) - w - (S i - w))%nat with 0%nat by lia. reflexivity.
Qed.

(** What holds of the empty state and is kept when a value of the column
    comes in at the end or leaves at the front holds of every window. *)
Lemma state_after_window (P : VarState F -> list F -> Prop)
  (w : nat) (values : list F) :
  (2 <= w)%nat ->
  (forall v, P (initial v) []) ->
  (forall st q x, In x values -> P st q -> P (add_var x st) (q ++ [x])) ->
  (forall st q x, P st (x :: q) -> P (remove_var x st) q) ->
  forall i, (i < List.length values)%nat ->
            P (state_after w values (S i)) (window w values i).
Proof.
  intros Hw Hinit Hadd Hrem. induction i as [|i IH]; intros Hi.
  - rewrite state_after_S, next_state_first by lia.
    rewrite (window_first a_nan w values) by lia.
    apply (Hadd _ [] _); [apply nth_In; lia | apply Hinit].
  - rewrite state_after_S, next_state_later by lia.
    rewrite (window_next a_nan w values i) by lia.
    specialize (IH ltac:(lia)).
    apply Hadd; [apply nth_In; lia|].
    destruct (Nat.leb_spec w (S i)); [|exact IH].
    rewrite (window_head a_nan w values i) in IH by lia.
    apply Hrem in IH. exact IH.
Qed.

(** [nobs] counts the values of the window that are not NaN. *)
Lemma nobs_window (w : nat) (values : list F) (i : nat) :
  (2 <= w)%nat -> (i < List.length values)%nat ->
  nobs (state_after w values (S i))
  = List.length (filter (fun x => negb (a_is_nan x)) (window w values i)).
Proof.
  intros Hw.
  apply (state_after_window
           (fun st q => nobs st
                        = List.length (filter (fun x => negb (a_is_nan x)) q)));
    [exact Hw | reflexivity | |].
  - intros st q x _ H. unfold add_var. rewrite filter_app, length_app. simpl.
    destruct (a_is_nan x); simpl; lia.
  - intros st q x H. simpl in H. unfold remove_var.
    destruct (a_is_nan x); simpl in *; [exact H|].
    destruct (nobs st - 1 =? 0)%nat; simpl; lia.
Qed.

End RollVarFacts.

(** *** On binary64 *)

Lemma is_nan_inf_to_nan (x : float) :
  is_nan (inf_to_nan x) = negb (is_finite x).
Proof.
  unfold inf_to_nan, is_finite. destruct (is_infinity x).
  - now rewrite orb_true_r.
  - now rewrite orb_false_r, negb_involutive.
Qed.

Lemma valid_inf_to_nan (l : list float) :
  List.length (filter (fun x => negb (is_nan x)) (map inf_to_nan l))
  = List.length (filter is_finite l).
Proof.
  induction l as [|x l IH]; simpl; [reflexivity|].
  rewrite is_nan_inf_to_nan, negb_involutive.
  destruct (is_finite x); simpl; now rewrite IH.
Qed.

Lemma zsqrt_nan : zsqrt nan = nan.
Proof. reflexivity. Qed.

(** The rolling deviation at a position, from the state of its window. *)
Lemma nth_rolling_std (w : nat) (col : list float) (i : nat) :
  (1 <= w)%nat -> (i < List.length col)%nat ->
  nth i (rolling_std w col) nan
  = zsqrt (calc_var w 1 (state_after w (map inf_to_nan col) (S i))).
Proof.
  intros Hw Hi. unfold rolling_std.
  rewrite <- zsqrt_nan at 1. rewrite map_nth.
  rewrite nth_roll_var by (now rewrite length_map).
  now replace (Nat.max w 1) with w by lia.
Qed.

Lemma rolling_nobs (w : nat) (col : list float) (i : nat) :
  (2 <= w)%nat -> (i < List.length col)%nat ->
  nobs (state_after w (map inf_to_nan col) (S i))
  = List.length (filter is_finite (window w col i)).
Proof.
  intros Hw Hi. rewrite nobs_window by (rewrite ?length_map; lia).
  rewrite window_map. apply valid_inf_to_nan.
Qed.

(** A window with fewer than [w] finite values: the rolling deviation is
    NaN. *)
Lemma rolling_std_short (w : nat) (col : list float) (i : nat) :
  (2 <= w)%nat -> (i < List.length col)%nat ->
  (List.length (filter is_finite (window w col i)) < w)%nat ->
  nth i (rolling_std w col) nan = nan.
Proof.
  intros Hw Hi Hc. rewrite nth_rolling_std by lia.
  unfold calc_var. rewrite (rolling_nobs w col i Hw Hi).
  destruct (Nat.leb_spec w (List.length (filter is_finite (window w col i))));
    [lia | reflexivity].
Qed.

Lemma firstn_map_nth {A} (d : A) (l : list A) : forall m,
  (m <= List.length l)%nat ->
  firstn m l = map (fun j => nth j l d) (seq 0 m).
Proof.
  induction l as [|a l IH]; intros m Hm; simpl in Hm.
  - replace m with 0%nat by lia. reflexivity.
  - destruct m as [|m]; [reflexivity|].
    simpl. f_equal. rewrite <- seq_shift, map_map. apply IH. lia.
Qed.

Lemma filter_skipn_le {A} (p : A -> bool) (a : nat) (l : list A) :
  (List.length (filter p (skipn a l)) <= List.length (filter p l))%nat.
Proof.
  rewrite <- (firstn_skipn a l) at 2. rewrite filter_app, length_app. lia.
Qed.

Lemma filter_length_mono {A} (p q : A -> bool) (l : list A) :
  (forall x, p x = true -> q x = true) ->
  (List.length (filter p l) <= List.length (filter q l))%nat.
Proof.
  intros Hpq. induction l as [|x l IH]; simpl; [lia|].
  destruct (p x) eqn:Ep.
  - rewrite (Hpq x Ep). simpl. lia.
  - destruct (q x); simpl; lia.
Qed.

(** The number of finite values in the window ending at [i] is at most the
    number of values at positions up to [i] that are not NaN. *)
Lemma window_valid_le (w : nat) (col : list float) (i : nat) :
  (i < List.length col)%nat ->
  (List.length (filter is_finite (window w col i))
   <= List.length (filter (fun j => notna (nth j col nan)) (seq 0 (S i))))%nat.
Proof.
  intros Hi. unfold window.
  etransitivity; [apply filter_skipn_le|].
  rewrite (firstn_map_nth nan) by lia.
  rewrite filter_map_comm, length_map.
  apply filter_length_mono. intros j. apply finite_notna.
Qed.


(** Too few values: the rolling deviation is NaN. *)
Lemma rolling_std_few (w : nat) (col : list float) (i : nat) :
  (2 <= w)%nat ->
  (i < List.length col)%nat ->
  (List.length (filter (fun j => notna (nth j col nan)) (seq 0 (S i))) < w)%nat ->
  nth i (rolling_std w col) nan = nan.
Proof.
  intros Hw Hi Hc. apply rolling_std_short; [exact Hw | exact Hi|].
  pose proof (window_valid_le w col i Hi) as Hle. lia.
Qed.

Lemma Forall_skipn_nth {A} (P : A -> Prop) (d : A) (l : list A) : forall a,
  (forall j, (a <= j < List.length l)%nat -> P (nth j l d)) ->
  Forall P (skipn a l).
Proof.
  induction l as [|x l IH]; intros a H.
  - rewrite skipn_nil. constructor.
  - destruct a as [|a]; simpl.
    + constructor.
      * apply (H 0%nat). simpl. lia.
      * apply (IH 0%nat). intros j Hj. apply (H (S j)). simpl. lia.
    + apply IH. intros j Hj. apply (H (S j)). simpl. lia.
Qed.

Lemma Forall_firstn_of {A} (P : A -> Prop) (l : list A) (m : nat) :
  Forall P l -> Forall P (firstn m l).
Proof.
  intros H. revert m. induction H as [|x l Hx _ IH]; intros [|m]; simpl;
    constructor; auto.
Qed.

Lemma valid_upto_le (l : list PriceRow) (i : nat) :
  (List.length
     (filter (fun j => notna (nth j (daily_returns l) nan)) (seq 0 (S i)))
   <= i)%nat.
Proof.
  rewrite <- cons_seq. simpl filter.
  unfold notna at 1. rewrite daily_returns_first. simpl negb. cbv iota.
  etransitivity; [apply filter_length_le|]. now rewrite length_seq.
Qed.

(** ** Rolling volatility *)


(** *** In exact arithmetic *)














(** Every stored row of an asset comes from a position with a return. *)
Lemma stored_row_position (c : string) (l : list PriceRow) (row : MetricRow) :
  In row (map where_notna (asset_entries c l)) ->
  exists j, (j < List.length l)%nat /\
            is_nan (nth j (daily_returns l) nan) = false /\
            row = where_notna (c, frame_row l j).
Proof.
  rewrite asset_entries_rows, map_map. intros H.
  apply in_map_iff in H. destruct H as [j [<- Hj]].
  apply filter_In in Hj. destruct Hj as [Hj Hq]. apply in_seq in Hj.
  exists j. repeat split; [lia|].
  unfold notna in Hq. now destruct (is_nan _).
Qed.



(** ** Zero and positive divisors *)

Lemma positive_finite_nonzero (x : float) :
  positive_finite x = true -> is_finite x = true /\ is_zero x = false.
Proof.
  unfold positive_finite. rewrite andb_true_iff. intros [Hf Hp].
  split; [exact Hf|].
  revert Hp. unfold is_zero. rewrite ltb_spec, eqb_spec.
  change (Prim2SF 0) with (S754_zero false).
  unfold SFltb, SFeqb.
  destruct (Prim2SF x) as [sx|sx| |sx m e]; simpl; try discriminate;
    destruct sx; simpl; auto; discriminate.
Qed.

Lemma date_at_inj (l : list PriceRow) (j k : nat) :
  NoDup (map ph_date l) ->
  (j < List.length l)%nat -> (k < List.length l)%nat ->
  date_at l j = date_at l k -> j = k.
Proof.
  intros Hn Hj Hk E. unfold date_at in E.
  eapply (proj1 (NoDup_nth (map ph_date l) 0%Z) Hn); rewrite ?length_map; auto.
Qed.

(** C9, as stated, fails in its last part: two finite, strictly positive
    prices whose quotient overflows give a stored daily_return of +infinity,
    which is not finite. *)
Lemma positive_prices_infinite_return :
  forallb (fun r => positive_finite (price r) && positive_finite (volume r))
          overflow_rows = true /\
  map daily_return (stored_metrics (world_of overflow_rows)) = [ Some infinity ] /\
  is_finite infinity = false.
Proof. repeat split; vm_compute; reflexivity. Qed.

(** C9, amended: two consecutive zero prices leave the later date without a
    metric row; two consecutive zero volumes leave the later date's row, if
    stored, with a null volume_change_24h; and when all prices and volumes of
    the asset are finite and strictly positive, no divisor is zero and every
    observation after the first has a row whose daily_return and
    volume_change_24h are numbers, not null (finite unless the binary64
    computation overflows). *)
Theorem zero_divisors (s : Store) (c : string) :
  NoDup (map price_key (price_history s)) ->
  metrics s = [] ->
  (forall i, (S i < List.length (asset_series s c))%nat ->
             is_zero (price_at (asset_series s c) i) = true ->
             is_zero (price_at (asset_series s c) (S i)) = true ->
             ~ In (date_at (asset_series s c) (S i))
                  (map m_date (stored_asset_metrics s c))) /\
  (forall i row, (S i < List.length (asset_series s c))%nat ->
                 is_zero (volume_at (asset_series s c) i) = true ->
                 is_zero (volume_at (asset_series s c) (S i)) = true ->
                 In row (stored_asset_metrics s c) ->
                 m_date row = date_at (asset_series s c) (S i) ->
                 volume_change_24h row = None) /\
  ((forall i, (i < List.length (asset_series s c))%nat ->
              positive_finite (price_at (asset_series s c) i) = true /\
              positive_finite (volume_at (asset_series s c) i) = true) ->
   (forall i, (i < List.length (asset_series s c))%nat ->
              is_zero (price_at (asset_series s c) i) = false /\
              is_zero (volume_at (asset_series s c) i) = false) /\
   map (fun r => (m_date r, daily_return r, volume_change_24h r))
       (stored_asset_metrics s c) =
   map (fun i =>
          (date_at (asset_series s c) (S i),
           Some ((price_at (asset_series s c) (S i)
                  / price_at (asset_series s c) i - 1) * 100)%float,
           Some ((volume_at (asset_series s c) (S i)
                  / volume_at (asset_series s c) i - 1) * 100)%float))
       (seq 0 (List.length (asset_series s c) - 1))).
Proof.
  intros Hk Hm. rewrite (stored_asset_metrics_fresh s c Hk Hm).
  pose proof (asset_series_dates_NoDup s c Hk) as Hd.
  set (l := asset_series s c) in *.
  split; [|split].
  - intros i Hi Hz0 Hz1 Hin.
    apply in_map_iff in Hin. destruct Hin as [row [Hdate Hrow]].
    apply stored_row_position in Hrow. destruct Hrow as [j [Hj [Hnum ->]]].
    simpl in Hdate. apply date_at_inj in Hdate; auto. subst j.
    rewrite daily_returns_later, Binary64.pct_zero_zero in Hnum by auto.
    discriminate.
  - intros i row Hi Hz0 Hz1 Hrow Hdate.
    apply stored_row_position in Hrow. destruct Hrow as [j [Hj [_ ->]]].
    simpl in Hdate. apply date_at_inj in Hdate; auto. subst j.
    unfold where_notna. simpl. unfold nan_to_none.
    now rewrite volume_changes_later, Binary64.pct_zero_zero by auto.
  - intros Hpos.
    assert (Hp : forall i, (i < List.length l)%nat ->
                 is_finite (price_at l i) = true /\ is_zero (price_at l i) = false).
    { intros i Hi. apply positive_finite_nonzero, Hpos, Hi. }
    assert (Hv : forall i, (i < List.length l)%nat ->
                 is_finite (volume_at l i) = true /\ is_zero (volume_at l i) = false).
    { intros i Hi. apply positive_finite_nonzero, Hpos, Hi. }
    split; [intros i Hi; split; [apply Hp | apply Hv]; exact Hi|].
    assert (Hret : forall i, (S i < List.length l)%nat ->
                   is_nan (nth (S i) (daily_returns l) nan) = false).
    { apply prices_give_returns; intros i Hi; apply Hp; lia. }
    rewrite (asset_entries_returns c l Hret), !map_map.
    apply map_ext_in. intros i Hi. apply in_seq in Hi.
    unfold where_notna. simpl. unfold nan_to_none.
    rewrite Hret by lia.
    rewrite daily_returns_later, volume_changes_later by lia.
    rewrite (Binary64.pct_not_nan (volume_at l i)); [reflexivity | | |];
      apply Hv; lia.
Qed.

Lemma zero_divisors_witness :
  forallb (fun row => implb (Z.eqb (m_date row) 3)
                            (negb (is_some (volume_change_24h row))))
          (stored_asset_metrics zero_volume_store "bitcoin") = true /\
  map (fun r => (m_date r, is_some (daily_return r), is_some (volume_change_24h r)))
      (stored_asset_metrics example_store "bitcoin")
  = [ (2%Z, true, true); (3%Z, true, true) ].
Proof.
  split.
  - assert (Hk : NoDup (map price_key (price_history zero_volume_store))).
    { distinct_keys. }
    destruct (zero_divisors zero_volume_store "bitcoin" Hk eq_refl) as [_ [H _]].
    apply forallb_forall. intros row Hrow.
    destruct (Z.eqb_spec (m_date row) 3) as [Hdate|_]; [|reflexivity].
    rewrite (H 1%nat row); auto; vm_compute; auto.
  - assert (Hk : NoDup (map price_key (price_history example_store))).
    { distinct_keys. }
    destruct (zero_divisors example_store "bitcoin" Hk eq_refl) as [_ [_ H]].
    destruct H as [_ H].
    { intros i Hi. do 3 (destruct i as [|i]; [split; reflexivity|]).
      vm_compute in Hi. lia. }
    transitivity
      (map (fun t : date * option float * option float =>
              (fst (fst t), is_some (snd (fst t)), is_some (snd t)))
           (map (fun r => (m_date r, daily_return r, volume_change_24h r))
                (stored_asset_metrics example_store "bitcoin"))).
    + rewrite map_map. reflexivity.
    + rewrite H. vm_compute. reflexivity.
Defined.

(** ** The uniqueness invariants along the whole run *)

Lemma bind_preserves {A B} (m : DB A) (k : A -> DB B) :
  preserves m -> (forall a, preserves (k a)) -> preserves (bind m k).
Proof.
  intros Hm Hk s Hs. unfold bind. specialize (Hm s Hs).
  destruct (m s) as [[a|e] s']; simpl in *; [now apply Hk | exact Hm].
Qed.

Lemma ret_preserves {A} (a : A) : preserves (ret a).
Proof. intros s Hs. exact Hs. Qed.

Lemma lift_preserves {A} (r : result A) : preserves (lift r).
Proof. intros s Hs. exact Hs. Qed.

Lemma to_sql_cryptocurrencies_preserves (rows : list Cryptocurrency) :
  preserves (to_sql_cryptocurrencies rows).
Proof.
  intros s Hs. unfold to_sql_cryptocurrencies.
  destruct (insert_rows same_crypto _ _); exact Hs.
Qed.

Lemma to_sql_price_history_preserves (rows : list PriceRow) :
  preserves (to_sql_price_history rows).
Proof.
  intros s [Hp Hm]. unfold to_sql_price_history.
  destruct (insert_rows same_price_key _ _) as [t|] eqn:E; simpl; [|now split].
  split; [exact (insert_rows_keeps_nodup price_key _ _ _ Hp E) | exact Hm].
Qed.

Lemma calculate_metrics_preserves : preserves calculate_metrics.
Proof.
  intros s [Hp Hm]. unfold calculate_metrics, to_sql_metrics.
  destruct (insert_rows same_metric_key _ _) as [t|] eqn:E; simpl; [|now split].
  split; [exact Hp | exact (insert_rows_keeps_nodup metric_key _ _ _ Hm E)].
Qed.

Lemma stages_preserves (w : World) : preserves (stages w).
Proof.
  unfold stages, import_cryptocurrencies, import_price_history.
  repeat (apply bind_preserves; [|intros ?]);
    auto using ret_preserves, lift_preserves, to_sql_cryptocurrencies_preserves,
      to_sql_price_history_preserves, calculate_metrics_preserves.
  - intros s Hs. exact Hs.
  - apply ret_preserves.
Qed.

(** X1: whatever the files hold and however the run ends, the database
    that [main] leaves has no two observations and no two metric rows with
    the same (crypto_id, date). *)
Theorem main_keeps_keys_unique (w : World) :
  match db_file (final (main w)) with
  | Some s => keys_unique s
  | None => True
  end.
Proof.
  unfold main, create_database.
  destruct (schema_sql w); simpl; [|exact I].
  pose proof (stages_preserves w empty_store) as H.
  destruct (stages w empty_store) as [[r|e] s]; simpl in *;
    apply H; split; constructor.
Qed.

(** ** A flat series *)

Lemma all_equal_repeat {A} (x : A) (l : list A) :
  Forall (eq x) l -> l = repeat x (List.length l).
Proof. induction 1 as [|y l <- _ IH]; simpl; [reflexivity | now f_equal]. Qed.

Lemma flat_window (w : nat) (col : list float) (a : nat) :
  (forall j, (1 <= j < List.length col)%nat -> nth j col nan = 0%float) ->
  (1 <= a)%nat -> (a + w <= List.length col)%nat ->
  firstn w (skipn a col) = repeat 0%float w.
Proof.
  intros Hz Ha Hlen.
  assert (Hall : Forall (eq 0%float) (firstn w (skipn a col))).
  { apply Forall_firstn_of, (Forall_skipn_nth _ nan).
    intros j Hj. symmetry. apply Hz. lia. }
  rewrite (all_equal_repeat _ _ Hall), length_firstn, length_skipn.
  f_equal. lia.
Qed.

(** While every value that is not NaN is zero, the window holds
    repetitions of one value only. *)
Lemma zeros_same_value (w : nat) (values : list float) (i : nat) :
  (2 <= w)%nat ->
  Forall (fun x => is_nan x = true \/ x = 0%float) values ->
  (i < List.length values)%nat ->
  (nobs (state_after w values (S i))
   <= num_consecutive_same_value (state_after w values (S i)))%nat.
Proof.
  intros Hw Hall Hi.
  apply (state_after_window
           (fun st (_ : list float) =>
              (nobs st <= num_consecutive_same_value st)%nat /\
              (num_consecutive_same_value st = 0%nat \/ prev_value st = 0%float))
           w values Hw); [| | |exact Hi].
  - intros v. simpl. auto.
  - intros st q x Hx [Hle Hprev].
    rewrite Forall_forall in Hall. unfold add_var.
    destruct (Hall x Hx) as [Hnan| ->].
    + cbn [a_is_nan binary64]. rewrite Hnan. auto.
    + cbn [a_is_nan a_eqb binary64].
      change (is_nan 0) with false. cbv iota.
      cbn [nobs num_consecutive_same_value prev_value].
      destruct (PrimFloat.eqb 0 (prev_value st)) eqn:E.
      * split; [lia | now right].
      * split; [|now right].
        destruct Hprev as [Hz|Hz]; [lia|].
        rewrite Hz in E. discriminate.
  - intros st q x [Hle Hprev]. unfold remove_var.
    destruct (a_is_nan x); [auto|].
    destruct (nobs st - 1 =? 0)%nat; simpl; split; auto; lia.
Qed.

(** The rolling deviation over a full window of zeros is zero. *)
Lemma rolling_std_zeros (w : nat) (col : list float) (i : nat) :
  (2 <= w)%nat ->
  (forall j, (1 <= j < List.length col)%nat -> nth j col nan = 0%float) ->
  is_nan (nth 0 col nan) = true ->
  (w <= i)%nat -> (i < List.length col)%nat ->
  nth i (rolling_std w col) nan = 0%float.
Proof.
  intros Hw Hz H0 Hwi Hi. rewrite nth_rolling_std by lia.
  assert (Hwin : window w col i = repeat 0%float w).
  { unfold window. rewrite skipn_firstn_comm.
    replace (S i - (S i - w))%nat with w by lia.
    apply flat_window; [exact Hz | lia | lia]. }
  assert (Hall : Forall (fun x => is_nan x = true \/ x = 0%float)
                        (map inf_to_nan col)).
  { apply Forall_forall. intros y Hy. apply in_map_iff in Hy.
    destruct Hy as [x [<- Hx]]. apply (In_nth _ _ nan) in Hx.
    destruct Hx as [j [Hj <-]]. destruct j as [|j].
    - left. rewrite is_nan_inf_to_nan. unfold is_finite. now rewrite H0.
    - right. rewrite Hz by lia. reflexivity. }
  pose proof (zeros_same_value w (map inf_to_nan col) i Hw Hall
                ltac:(rewrite length_map; lia)) as Hsame.
  unfold calc_var. rewrite (rolling_nobs w col i Hw Hi) in *.
  rewrite Hwin in *.
  assert (Hlen : List.length (filter is_finite (repeat 0%float w)) = w).
  { clear. induction w as [|w IH]; simpl; [reflexivity | now rewrite IH]. }
  rewrite Hlen in *.
  rewrite Nat.leb_refl.
  replace (1 <? w)%nat with true by (symmetry; apply Nat.ltb_lt; lia).
  replace (w <=? num_consecutive_same_value
                   (state_after w (map inf_to_nan col) (S i)))%nat
    with true by (symmetry; apply Nat.leb_le; exact Hsame).
  rewrite orb_true_r. reflexivity.
Qed.

(** X2: for an asset whose observations all have the same finite non-zero
    price and the same finite non-zero volume, every stored row has
    daily_return 0.0 and volume_change_24h 0.0, and every volatility that is
    defined is 0.0. *)
Theorem flat_series_metrics (s : Store) (c : string) (p v : float) :
  NoDup (map price_key (price_history s)) ->
  metrics s = [] ->
  is_finite p = true -> is_zero p = false ->
  is_finite v = true -> is_zero v = false ->
  (forall i, (i < List.length (asset_series s c))%nat ->
             price_at (asset_series s c) i = p /\
             volume_at (asset_series s c) i = v) ->
  map (fun r => (daily_return r, volatility_7d r, volatility_30d r,
                 volume_change_24h r))
      (stored_asset_metrics s c) =
  map (fun i => (Some 0%float,
                 if (i <? 6)%nat then None else Some 0%float,
                 if (i <? 29)%nat then None else Some 0%float,
                 Some 0%float))
      (seq 0 (List.length (asset_series s c) - 1)).
Proof.
  intros Hk Hm Hpf Hpz Hvf Hvz Hflat.
  rewrite (stored_asset_metrics_fresh s c Hk Hm).
  set (l := asset_series s c) in *.
  assert (Hret : forall i, (S i < List.length l)%nat ->
                           nth (S i) (daily_returns l) nan = 0%float).
  { intros i Hi. rewrite daily_returns_later by exact Hi.
    rewrite (proj1 (Hflat (S i) Hi)), (proj1 (Hflat i ltac:(lia))).
    now apply Binary64.pct_same. }
  assert (Hvol : forall i, (S i < List.length l)%nat ->
                           nth (S i) (volume_changes l) nan = 0%float).
  { intros i Hi. rewrite volume_changes_later by exact Hi.
    rewrite (proj2 (Hflat (S i) Hi)), (proj2 (Hflat i ltac:(lia))).
    now apply Binary64.pct_same. }
  assert (Hnum : forall i, (S i < List.length l)%nat ->
                           is_nan (nth (S i) (daily_returns l) nan) = false).
  { intros i Hi. now rewrite Hret. }
  assert (Hfin : forall i, (S i < List.length l)%nat ->
                           is_finite (nth (S i) (daily_returns l) nan) = true).
  { intros i Hi. now rewrite Hret. }
  assert (Hzero : forall j, (1 <= j < List.length (daily_returns l))%nat ->
                            nth j (daily_returns l) nan = 0%float).
  { intros [|j] Hj; [lia|]. apply Hret. rewrite length_daily_returns in Hj. lia. }
  rewrite (asset_entries_returns c l Hnum), !map_map.
  apply map_ext_in. intros i Hi. apply in_seq in Hi.
  unfold where_notna. simpl.
  assert (Hroll : forall w, (2 <= w)%nat ->
             nan_to_none (nth (S i) (rolling_std w (daily_returns l)) nan)
             = if (i <? w - 1)%nat then None else Some 0%float).
  { intros w Hw. destruct (Nat.ltb_spec i (w - 1)).
    - rewrite rolling_std_few;
        [reflexivity | exact Hw | rewrite length_daily_returns; lia |].
      pose proof (valid_upto_le l (S i)). lia.
    - rewrite rolling_std_zeros;
        [reflexivity | exact Hw | exact Hzero | apply daily_returns_first | lia
        | rewrite length_daily_returns; lia]. }
  rewrite (Hroll 7%nat), (Hroll 30%nat), Hret, Hvol by lia.
  reflexivity.
Qed.

Lemma flat_series_metrics_witness :
  map (fun r => (daily_return r, volatility_7d r, volatility_30d r,
                 volume_change_24h r))
      (stored_asset_metrics flat_store "bitcoin") =
  [ (Some 0%float, None, None, Some 0%float);
    (Some 0%float, None, None, Some 0%float);
    (Some 0%float, None, None, Some 0%float);
    (Some 0%float, None, None, Some 0%float);
    (Some 0%float, None, None, Some 0%float);
    (Some 0%float, None, None, Some 0%float);
    (Some 0%float, Some 0%float, None, Some 0%float);
    (Some 0%float, Some 0%float, None, Some 0%float) ].
Proof.
  assert (Hk : NoDup (map price_key (price_history flat_store))).
  { distinct_keys. }
  rewrite (flat_series_metrics flat_store "bitcoin" 100 5 Hk eq_refl
             eq_refl eq_refl eq_refl eq_refl).
  - reflexivity.
  - intros i Hi. do 9 (destruct i as [|i]; [split; reflexivity|]).
    vm_compute in Hi. lia.
Defined.

(** ** The asset import *)

Lemma insert_rows_ext {R} (f g : R -> R -> bool) (rows : list R) :
  (forall a b, f a b = g a b) ->
  forall table, insert_rows f table rows = insert_rows g table rows.
Proof.
  intros Hfg. induction rows as [|r rows IH]; intros table; simpl; [reflexivity|].
  replace (existsb (f r) table) with (existsb (g r) table).
  - now rewrite IH.
  - induction table as [|x table IHt]; simpl; [reflexivity|].
    now rewrite Hfg, IHt.
Qed.

Lemma same_crypto_key (a b : Cryptocurrency) :
  same_crypto a b = key_eqb (crypto_id a, 0%Z) (crypto_id b, 0%Z).
Proof. unfold same_crypto, key_eqb. simpl. now rewrite andb_true_r. Qed.

Lemma crypto_keys_NoDup (l : list Cryptocurrency) :
  NoDup (map (fun c => (crypto_id c, 0%Z)) l) <-> NoDup (map crypto_id l).
Proof.
  rewrite <- (map_map crypto_id (fun i => (i, 0%Z))). split.
  - apply NoDup_map_inv.
  - apply Finite.Injective_map_NoDup. intros x y E. now inversion E.
Qed.

Lemma import_cryptocurrencies_run (w : World) (rows : list CryptoInfo) (s : Store) :
  crypto_info_csv w = Table rows ->
  import_cryptocurrencies w s =
    match insert_rows same_crypto (cryptocurrencies s) (map to_cryptocurrency rows) with
    | Some t => (match texts (head 5 (map symbol rows)) with
                 | Some _ => Ok rows
                 | None => Raise TypeError
                 end,
                 {| cryptocurrencies := t;
                    price_history := price_history s;
                    metrics := metrics s |})
    | None => (Raise (IntegrityError "cryptocurrencies"), s)
    end.
Proof.
  intros H. unfold import_cryptocurrencies, bind, lift, to_sql_cryptocurrencies, ret.
  rewrite H. simpl. destruct (insert_rows same_crypto _ _); [|reflexivity].
  rewrite map_map. cbn [c_symbol to_cryptocurrency]. unfold join.
  destruct (texts _); reflexivity.
Qed.

(** Into an empty assets table. *)
Lemma import_cryptocurrencies_fresh (w : World) (infos : list CryptoInfo) (s : Store) :
  crypto_info_csv w = Table infos ->
  cryptocurrencies s = [] ->
  import_cryptocurrencies w s =
    if ListDec.NoDup_dec string_dec (map id infos)
    then (match texts (head 5 (map symbol infos)) with
          | Some _ => Ok infos
          | None => Raise TypeError
          end,
          {| cryptocurrencies := map to_cryptocurrency infos;
             price_history := price_history s;
             metrics := metrics s |})
    else (Raise (IntegrityError "cryptocurrencies"), s).
Proof.
  intros Hw Hs. rewrite (import_cryptocurrencies_run _ _ _ Hw), Hs.
  rewrite (insert_rows_ext _ _ _ same_crypto_key).
  pose proof (insert_rows_nodup (fun c => (crypto_id c, 0%Z))
                (map to_cryptocurrency infos) [] (NoDup_nil _)) as Hiff.
  change ([] ++ map to_cryptocurrency infos) with (map to_cryptocurrency infos) in Hiff.
  cbv beta in Hiff.
  rewrite crypto_keys_NoDup, map_map in Hiff.
  change (map (fun x => crypto_id (to_cryptocurrency x)) infos) with (map id infos) in Hiff.
  destruct (insert_rows _ [] (map to_cryptocurrency infos)) as [t|] eqn:E;
    destruct (ListDec.NoDup_dec string_dec (map id infos)) as [Hn|Hn].
  - pose proof (proj1 Hiff Hn) as Et. inversion Et. reflexivity.
  - exfalso. apply Hn, Hiff. f_equal.
    apply (insert_rows_app (fun c => (crypto_id c, 0%Z)) _ _ _ E).
  - pose proof (proj1 Hiff Hn) as Et. discriminate.
  - reflexivity.
Qed.

(** X3: the asset import has no de-duplication of its own, and it can fail
    after its rows are committed.  Into an empty assets table: when an id
    occurs twice it raises IntegrityError and stores nothing; when the ids
    are pairwise distinct the rows of the file are stored in file order,
    and the import returns them unless one of the first five symbols was
    not read as text, in which case the line that prints them raises
    TypeError with the rows already in the table. *)
Theorem import_cryptocurrencies_distinct_ids
  (w : World) (rows : list CryptoInfo) (s : Store) :
  crypto_info_csv w = Table rows ->
  cryptocurrencies s = [] ->
  (~ NoDup (map id rows) ->
   import_cryptocurrencies w s = (Raise (IntegrityError "cryptocurrencies"), s)) /\
  (NoDup (map id rows) ->
   texts (head 5 (map symbol rows)) <> None ->
   import_cryptocurrencies w s =
     (Ok rows, {| cryptocurrencies := map to_cryptocurrency rows;
                  price_history := price_history s;
                  metrics := metrics s |})) /\
  (NoDup (map id rows) ->
   texts (head 5 (map symbol rows)) = None ->
   import_cryptocurrencies w s =
     (Raise TypeError, {| cryptocurrencies := map to_cryptocurrency rows;
                          price_history := price_history s;
                          metrics := metrics s |})).
Proof.
  intros Hw Hs. rewrite (import_cryptocurrencies_fresh _ _ _ Hw Hs).
  destruct (ListDec.NoDup_dec string_dec (map id rows)) as [Hn|Hn];
    repeat split; intros; try contradiction; try reflexivity.
  - destruct (texts _); [reflexivity | congruence].
  - destruct (texts _); [discriminate | reflexivity].
Qed.

Lemma import_cryptocurrencies_distinct_ids_witness :
  import_cryptocurrencies duplicated_info_world empty_store
    = (Raise (IntegrityError "cryptocurrencies"), empty_store) /\
  import_cryptocurrencies missing_symbol_world empty_store
    = (Raise TypeError,
       {| cryptocurrencies :=
            [ {| crypto_id := "bitcoin"; c_symbol := Some "BTC"; c_name := Some "Bitcoin" |};
              {| crypto_id := "nano"; c_symbol := None; c_name := Some "Nano" |} ];
          price_history := []; metrics := [] |}).
Proof.
  split.
  - apply (import_cryptocurrencies_distinct_ids duplicated_info_world _ empty_store
             eq_refl eq_refl).
    simpl. intros H. inversion H as [|? ? Hn _]; subst. apply Hn. simpl. auto.
  - apply (import_cryptocurrencies_distinct_ids missing_symbol_world _ empty_store
             eq_refl eq_refl); [|reflexivity].
    repeat constructor; simpl; intuition discriminate.
Defined.

(** ** No update in place *)

Lemma insert_rows_conflict {R} (keyf : R -> key) (rows : list R) :
  forall table r,
    In r rows -> In (keyf r) (map keyf table) ->
    insert_rows (fun a b => key_eqb (keyf a) (keyf b)) table rows = None.
Proof.
  induction rows as [|x rows IH]; intros table r Hr Hk; simpl; [contradiction|].
  destruct (existsb _ table) eqn:E; [reflexivity|].
  destruct Hr as [->|Hr].
  - apply (existsb_conflict_In keyf) in Hk. simpl in Hk.
    rewrite Hk in E. discriminate.
  - apply (IH _ r Hr). rewrite map_app. apply in_or_app. now left.
Qed.

(** X4: the observation import never updates a stored observation: when
    the file holds a row whose (crypto_id, date) is already stored, the
    import raises IntegrityError and leaves the table as it was; so running
    it a second time on a file that is not empty fails. *)
Theorem import_price_history_no_update
  (w : World) (rows : list RawPrice) (s : Store) :
  price_history_csv w = Table rows ->
  (forall r, In r rows ->
             In (price_key (to_price_row r)) (map price_key (price_history s)) ->
             import_price_history w s = (Raise (IntegrityError "price_history"), s)) /\
  (price_history s = [] -> rows <> [] ->
   import_price_history w (snd (import_price_history w s))
   = (Raise (IntegrityError "price_history"), snd (import_price_history w s))).
Proof.
  intros Hw.
  assert (Hgen : forall s0 r, In r rows ->
             In (price_key (to_price_row r)) (map price_key (price_history s0)) ->
             import_price_history w s0 = (Raise (IntegrityError "price_history"), s0)).
  { intros s0 r Hr Hk. rewrite (import_price_history_run _ _ _ Hw).
    assert (Hin : In (price_key (to_price_row r))
                     (map price_key (drop_duplicates (map to_price_row rows)))).
    { apply drop_duplicates_keys. now apply in_map, in_map. }
    apply in_map_iff in Hin. destruct Hin as [x [Hx Hin]].
    unfold same_price_key.
    rewrite (insert_rows_conflict price_key _ _ x Hin); [reflexivity|].
    now rewrite Hx. }
  split; [apply Hgen|].
  intros Hs Hne. destruct rows as [|r rows]; [congruence|].
  apply (Hgen _ r); [now left|].
  rewrite (import_price_history_fresh _ _ _ Hw Hs). cbn [snd price_history].
  apply drop_duplicates_keys. apply in_map, in_map. now left.
Qed.

Lemma import_price_history_no_update_witness :
  import_price_history (world_of example_rows)
    (snd (import_price_history (world_of example_rows) empty_store))
  = (Raise (IntegrityError "price_history"),
     snd (import_price_history (world_of example_rows) empty_store)).
Proof.
  apply (import_price_history_no_update (world_of example_rows) example_rows
           empty_store eq_refl); [reflexivity | discriminate].
Defined.

Lemma df_metrics_same_observations (s1 s2 : Store) :
  price_history s1 = price_history s2 -> df_metrics s1 = df_metrics s2.
Proof.
  intros H. unfold df_metrics, metrics_list, read_price_history. now rewrite H.
Qed.

(** X5: the metrics stage never recomputes in place: after a run that
    stored at least one row, a second [calculate_metrics] raises
    IntegrityError and leaves every table as it was. *)
Theorem calculate_metrics_twice (s : Store) :
  NoDup (map price_key (price_history s)) ->
  metrics s = [] ->
  df_metrics s <> [] ->
  calculate_metrics (snd (calculate_metrics s))
  = (Raise (IntegrityError "metrics"), snd (calculate_metrics s)).
Proof.
  intros Hk Hm Hne. rewrite (calculate_metrics_fresh s Hk Hm). simpl.
  unfold calculate_metrics at 1, to_sql_metrics. simpl.
  rewrite (df_metrics_same_observations
             {| cryptocurrencies := cryptocurrencies s;
                price_history := price_history s;
                metrics := df_metrics s |} s eq_refl).
  destruct (df_metrics s) as [|r rows] eqn:E; [congruence|].
  unfold same_metric_key.
  rewrite (insert_rows_conflict metric_key (r :: rows) (r :: rows) r);
    [reflexivity | now left | simpl; now left].
Qed.

Lemma calculate_metrics_twice_witness :
  calculate_metrics (snd (calculate_metrics example_store))
  = (Raise (IntegrityError "metrics"), snd (calculate_metrics example_store)).
Proof.
  apply (calculate_metrics_twice example_store).
  - distinct_keys.
  - reflexivity.
  - vm_compute. discriminate.
Defined.

(** ** Each asset on its own *)

(** Two lists in strictly ascending date order with the same rows are the
    same list. *)
Lemma sorted_dates_unique (l1 : list PriceRow) : forall l2,
  StronglySorted (fun a b => (ph_date a < ph_date b)%Z) l1 ->
  StronglySorted (fun a b => (ph_date a < ph_date b)%Z) l2 ->
  Permutation l1 l2 -> l1 = l2.
Proof.
  induction l1 as [|a l1 IH]; intros l2 H1 H2 Hp.
  - apply Permutation_nil in Hp. now subst.
  - destruct l2 as [|b l2]; [symmetry in Hp; now apply Permutation_nil_cons in Hp|].
    inversion H1 as [|? ? H1' Ha]; inversion H2 as [|? ? H2' Hb]; subst.
    rewrite Forall_forall in Ha, Hb.
    assert (Eab : a = b).
    { assert (Hina : In a (b :: l2))
        by (eapply Permutation_in; [exact Hp | now left]).
      assert (Hinb : In b (a :: l1))
        by (eapply Permutation_in; [symmetry; exact Hp | now left]).
      destruct Hina as [E|Hina]; [now symmetry|].
      destruct Hinb as [E|Hinb]; [exact E|].
      specialize (Ha _ Hinb). specialize (Hb _ Hina). lia. }
    subst b. f_equal. apply IH; auto.
    now apply Permutation_cons_inv in Hp.
Qed.

Lemma asset_series_strict (s : Store) (c : string) :
  NoDup (map price_key (price_history s)) ->
  StronglySorted (fun a b => (ph_date a < ph_date b)%Z) (asset_series s c).
Proof.
  intros Hk. apply sorted_dates_strict;
    [apply asset_series_sorted | now apply asset_series_dates_NoDup].
Qed.

(** X6: the metric rows of an asset depend on that asset's observations
    only, and not on the order in which they were stored: two stores in
    which the asset has the same observations store the same rows for it. *)
Theorem asset_metrics_independent (s1 s2 : Store) (c : string) :
  NoDup (map price_key (price_history s1)) ->
  NoDup (map price_key (price_history s2)) ->
  metrics s1 = [] -> metrics s2 = [] ->
  Permutation
    (filter (fun r => String.eqb (ph_crypto_id r) c) (price_history s1))
    (filter (fun r => String.eqb (ph_crypto_id r) c) (price_history s2)) ->
  asset_series s1 c = asset_series s2 c /\
  stored_asset_metrics s1 c = stored_asset_metrics s2 c.
Proof.
  intros Hk1 Hk2 Hm1 Hm2 Hp.
  assert (E : asset_series s1 c = asset_series s2 c).
  { apply sorted_dates_unique; auto using asset_series_strict.
    rewrite (asset_series_perm s1 c), Hp. symmetry. apply asset_series_perm. }
  split; [exact E|].
  rewrite !stored_asset_metrics_fresh by assumption. now rewrite E.
Qed.

Lemma asset_metrics_independent_witness :
  stored_asset_metrics example_store "bitcoin"
  = stored_asset_metrics mixed_store "bitcoin".
Proof.
  apply (asset_metrics_independent example_store mixed_store "bitcoin");
    try reflexivity; try distinct_keys.
  vm_compute.
  apply perm_trans with
    (l' := [ to_price_row (observation "bitcoin" 1 100 5);
             to_price_row (observation "bitcoin" 3 99 5);
             to_price_row (observation "bitcoin" 2 110 5) ]).
  - apply perm_skip, perm_swap.
  - apply perm_swap.
Defined.

(** ** What a stored row is *)

Lemma sorted_first_least (l : list PriceRow) (i : nat) :
  StronglySorted (fun a b => (ph_date a < ph_date b)%Z) l ->
  (S i < List.length l)%nat ->
  (date_at l 0 < date_at l (S i))%Z.
Proof.
  intros Hs Hi. destruct l as [|a l]; [simpl in Hi; lia|].
  inversion Hs as [|? ? _ Ha]; subst. rewrite Forall_forall in Ha.
  unfold date_at. simpl. simpl in Hi.
  rewrite (nth_indep _ 0%Z (ph_date a)) by (rewrite length_map; lia).
  rewrite map_nth. apply Ha, nth_In. lia.
Qed.

Lemma series_key_stored (s : Store) (c : string) (i : nat) :
  (i < List.length (asset_series s c))%nat ->
  In (c, date_at (asset_series s c) i) (map price_key (price_history s)).
Proof.
  intros Hi. destruct (asset_series s c) as [|a l] eqn:E; [simpl in Hi; lia|].
  rewrite <- E in *. unfold date_at.
  rewrite (nth_indep _ 0%Z (ph_date a)) by (now rewrite length_map).
  rewrite map_nth.
  assert (Hin : In (nth i (asset_series s c) a) (asset_series s c))
    by now apply nth_In.
  apply (Permutation_in _ (asset_series_perm s c)) in Hin.
  apply filter_In in Hin. destruct Hin as [Hin Hc]. apply String.eqb_eq in Hc.
  apply in_map_iff. exists (nth i (asset_series s c) a).
  split; [|exact Hin]. unfold price_key. now rewrite Hc.
Qed.

(** X7: every metric row that [calculate_metrics] stores for an asset is
    the row of one of its observations after the earliest one: it has that
    observation's date, a daily_return that is never null and never NaN,
    namely (price / previous price - 1) * 100, and as volume_change_24h the
    same expression on volumes, null exactly when that is NaN. *)
Theorem stored_rows_are_later_observations
  (s : Store) (c : string) (row : MetricRow) :
  NoDup (map price_key (price_history s)) ->
  metrics s = [] ->
  In row (stored_asset_metrics s c) ->
  exists i,
    (S i < List.length (asset_series s c))%nat /\
    metric_key row = (c, date_at (asset_series s c) (S i)) /\
    In (metric_key row) (map price_key (price_history s)) /\
    (date_at (asset_series s c) 0 < m_date row)%Z /\
    daily_return row
      = Some ((price_at (asset_series s c) (S i)
               / price_at (asset_series s c) i - 1) * 100)%float /\
    is_nan ((price_at (asset_series s c) (S i)
             / price_at (asset_series s c) i - 1) * 100)%float = false /\
    volume_change_24h row
      = nan_to_none ((volume_at (asset_series s c) (S i)
                      / volume_at (asset_series s c) i - 1) * 100)%float.
Proof.
  intros Hk Hm Hrow. rewrite (stored_asset_metrics_fresh s c Hk Hm) in Hrow.
  apply stored_row_position in Hrow. destruct Hrow as [j [Hj [Hnum ->]]].
  destruct j as [|i].
  - rewrite daily_returns_first in Hnum. discriminate.
  - exists i. rewrite daily_returns_later in Hnum by exact Hj.
    unfold where_notna, metric_key. simpl.
    rewrite daily_returns_later, volume_changes_later by exact Hj.
    unfold nan_to_none at 1. rewrite Hnum.
    repeat split; auto.
    + now apply series_key_stored.
    + apply sorted_first_least; [now apply asset_series_strict | exact Hj].
Qed.

Lemma stored_rows_are_later_observations_witness :
  exists i,
    (S i < List.length (asset_series example_store "bitcoin"))%nat /\
    (3%Z <> date_at (asset_series example_store "bitcoin") 0) /\
    Some (-0x1.3ffffffffffffp+3)%float
      = Some ((price_at (asset_series example_store "bitcoin") (S i)
               / price_at (asset_series example_store "bitcoin") i - 1) * 100)%float.
Proof.
  destruct (stored_rows_are_later_observations example_store "bitcoin"
              {| m_crypto_id := "bitcoin"; m_date := 3%Z;
                 daily_return := Some (-0x1.3ffffffffffffp+3)%float;
                 volatility_7d := None; volatility_30d := None;
                 volume_change_24h := Some 0%float |})
    as [i [Hi [_ [_ [Hlt [Hret _]]]]]].
  - distinct_keys.
  - reflexivity.
  - vm_compute. right. left. reflexivity.
  - exists i. repeat split; [exact Hi | simpl in Hlt; lia | exact Hret].
Defined.

(** ** The collector: one asset's history *)

Lemma frame_rows_columns (c : string) (ts : list Z) : forall ps ms vs : list float,
  List.length ts = List.length ps ->
  List.length ts = List.length ms ->
  List.length ts = List.length vs ->
  map r_date (DataCollection.frame_rows c ts ps ms vs)
    = map DataCollection.date_of_ms ts /\
  map price (DataCollection.frame_rows c ts ps ms vs) = ps /\
  map r_market_cap (DataCollection.frame_rows c ts ps ms vs) = ms /\
  map volume (DataCollection.frame_rows c ts ps ms vs) = vs /\
  Forall (fun r => r_crypto_id r = c) (DataCollection.frame_rows c ts ps ms vs).
Proof.
  induction ts as [|t ts IH]; intros [|p ps] [|m ms] [|v vs] Hp Hm Hv;
    try discriminate; simpl.
  - repeat split; constructor.
  - injection Hp as Hp. injection Hm as Hm. injection Hv as Hv.
    destruct (IH ps ms vs Hp Hm Hv) as [Hd [Hpr [Hc [Hvo Hid]]]].
    rewrite Hd, Hpr, Hc, Hvo. repeat split. constructor; [reflexivity | exact Hid].
Qed.

Lemma get_historical_prices_body (api : DataCollection.Api) (c : string)
  (days : nat) (data : DataCollection.ChartJson)
  (pts caps vols : list (Z * float)) :
  DataCollection.market_chart api c days = DataCollection.Body data ->
  DataCollection.prices data = Some pts ->
  DataCollection.market_caps data = Some caps ->
  DataCollection.total_volumes data = Some vols ->
  DataCollection.get_historical_prices api c days =
    if Nat.eqb (List.length pts) (List.length caps)
       && Nat.eqb (List.length pts) (List.length vols)
    then DataCollection.Done
           (DataCollection.frame_rows c (map fst pts) (map snd pts)
              (map snd caps) (map snd vols))
    else DataCollection.Raised DataCollection.ValueError.
Proof.
  intros Hb Hp Hm Hv. unfold DataCollection.get_historical_prices.
  rewrite Hb, Hp, Hm, Hv. reflexivity.
Qed.

(** X8: [get_historical_prices] swallows a failed request, returning no
    row, but not a malformed answer: with three series of one length it
    returns one row per price point, dated by the day of the price
    timestamp (the timestamps of the two other series are not read), the
    values paired by position; with series of different lengths it raises
    ValueError. *)
Theorem get_historical_prices_rows (api : DataCollection.Api) (c : string)
  (days : nat) (data : DataCollection.ChartJson)
  (pts caps vols : list (Z * float)) :
  DataCollection.market_chart api c days = DataCollection.Body data ->
  DataCollection.prices data = Some pts ->
  DataCollection.market_caps data = Some caps ->
  DataCollection.total_volumes data = Some vols ->
  (List.length pts = List.length caps /\ List.length pts = List.length vols ->
   exists rows,
     DataCollection.get_historical_prices api c days = DataCollection.Done rows /\
     map r_date rows = map (fun pt => (fst pt / 86400000)%Z) pts /\
     map price rows = map snd pts /\
     map r_market_cap rows = map snd caps /\
     map volume rows = map snd vols /\
     Forall (fun r => r_crypto_id r = c) rows) /\
  (~ (List.length pts = List.length caps /\ List.length pts = List.length vols) ->
   DataCollection.get_historical_prices api c days
   = DataCollection.Raised DataCollection.ValueError).
Proof.
  intros Hb Hp Hm Hv.
  rewrite (get_historical_prices_body _ _ _ _ _ _ _ Hb Hp Hm Hv).
  split.
  - intros [H1 H2]. rewrite <- H1, <- H2, !Nat.eqb_refl. simpl.
    eexists. split; [reflexivity|].
    destruct (frame_rows_columns c (map fst pts) (map snd pts) (map snd caps)
                (map snd vols)) as [Hd [Hpr [Hc [Hvo Hid]]]];
      rewrite ?length_map; auto.
    rewrite Hd, map_map. repeat split; auto.
  - intros Hne.
    destruct (Nat.eqb_spec (List.length pts) (List.length caps));
      destruct (Nat.eqb_spec (List.length pts) (List.length vols)); simpl;
      try reflexivity.
    exfalso. apply Hne. split; assumption.
Qed.

Lemma get_historical_prices_rows_witness :
  exists rows,
    DataCollection.get_historical_prices DataCollection.api_bitcoin "bitcoin" 90
      = DataCollection.Done rows /\
    map r_date rows = [1; 2; 2]%Z /\
    map price rows = [100; 110; 111]%float.
Proof.
  destruct (get_historical_prices_rows DataCollection.api_bitcoin "bitcoin" 90
              DataCollection.bitcoin_chart _ _ _ eq_refl eq_refl eq_refl eq_refl)
    as [H _].
  destruct (H (conj eq_refl eq_refl)) as [rows [Hr [Hd [Hp _]]]].
  exists rows. repeat split; assumption.
Defined.

(** ** From the collector to the store *)

Lemma Subseq_In {A} (l1 l2 : list A) (x : A) :
  Subseq l1 l2 -> In x l1 -> In x l2.
Proof.
  induction 1 as [|y l1 l2 _ IH|y l1 l2 _ IH]; simpl; intros H; auto.
  destruct H as [->|H]; auto.
Qed.

Lemma Subseq_StronglySorted {A} (R : A -> A -> Prop) (l1 l2 : list A) :
  Subseq l1 l2 -> StronglySorted R l2 -> StronglySorted R l1.
Proof.
  induction 1 as [|y l1 l2 Hs IH|y l1 l2 Hs IH]; intros H2; auto;
    inversion H2 as [|? ? H2' Hall]; subst; auto.
  constructor; [auto|].
  rewrite Forall_forall in *. intros x Hx. apply Hall.
  eapply Subseq_In; eassumption.
Qed.

Lemma StronglySorted_map {A B} (R : B -> B -> Prop) (f : A -> B) (l : list A) :
  StronglySorted R (map f l) <-> StronglySorted (fun a b => R (f a) (f b)) l.
Proof.
  induction l as [|a l IH]; simpl; split; intros H; try constructor;
    inversion H as [|? ? H' Hall]; subst.
  - now apply IH.
  - rewrite Forall_forall in *. intros x Hx. apply Hall. now apply in_map.
  - now apply IH.
  - rewrite Forall_forall in *. intros y Hy. apply in_map_iff in Hy.
    destruct Hy as [x [<- Hx]]. auto.
Qed.

Lemma days_ascending (ts : list Z) :
  StronglySorted Z.le ts ->
  StronglySorted Z.le (map DataCollection.date_of_ms ts).
Proof.
  induction 1 as [|t ts _ IH Hall]; simpl; constructor; [exact IH|].
  rewrite Forall_forall in *. intros d Hd. apply in_map_iff in Hd.
  destruct Hd as [x [<- Hx]]. unfold DataCollection.date_of_ms.
  apply Z.div_le_mono; [reflexivity | auto].
Qed.

Lemma one_asset_dates_NoDup (c : string) (l : list PriceRow) :
  Forall (fun r => ph_crypto_id r = c) l ->
  NoDup (map price_key l) -> NoDup (map ph_date l).
Proof.
  intros Hc Hn. apply (NoDup_map_inv (pair c)).
  rewrite map_map. erewrite map_ext_in; [exact Hn|].
  intros r Hr. rewrite Forall_forall in Hc. unfold price_key.
  now rewrite (Hc r Hr).
Qed.

(** X9: when the history file holds what [get_historical_prices] returned
    for one asset from price points in ascending time order, the import
    into an empty table stores that asset's observations in strictly
    ascending date order, one for every day that has a point, each holding
    the values of the day's last point. *)
Theorem collected_history_import
  (api : DataCollection.Api) (c : string) (days : nat)
  (data : DataCollection.ChartJson) (pts : list (Z * float))
  (rows : list RawPrice) (w : World) (s : Store) :
  DataCollection.market_chart api c days = DataCollection.Body data ->
  DataCollection.prices data = Some pts ->
  StronglySorted Z.le (map fst pts) ->
  DataCollection.get_historical_prices api c days = DataCollection.Done rows ->
  price_history_csv w = Table rows ->
  price_history s = [] ->
  exists s',
    import_price_history w s = (Ok (price_history s'), s') /\
    StronglySorted Z.lt (map ph_date (price_history s')) /\
    Forall (fun r => ph_crypto_id r = c) (price_history s') /\
    (forall d, In d (map ph_date (price_history s')) <->
               In d (map (fun pt => (fst pt / 86400000)%Z) pts)) /\
    (forall row, In row (price_history s') ->
                 last_with_key (price_key row) (map to_price_row rows) = Some row).
Proof.
  intros Hb Hp Hts Hrows Hw Hs.
  unfold DataCollection.get_historical_prices in Hrows. rewrite Hb, Hp in Hrows.
  simpl in Hrows.
  destruct (DataCollection.market_caps data) as [caps|]; [|discriminate].
  destruct (DataCollection.total_volumes data) as [vols|]; [|discriminate].
  simpl in Hrows.
  destruct (Nat.eqb_spec (List.length pts) (List.length caps)) as [H1|];
    [|discriminate].
  destruct (Nat.eqb_spec (List.length pts) (List.length vols)) as [H2|];
    [|discriminate].
  simpl in Hrows. injection Hrows as <-.
  destruct (frame_rows_columns c (map fst pts) (map snd pts) (map snd caps)
              (map snd vols)) as [Hd [_ [_ [_ Hid]]]];
    rewrite ?length_map; auto.
  set (rows := DataCollection.frame_rows c _ _ _ _) in *.
  set (stored := drop_duplicates (map to_price_row rows)).
  assert (Hdates : map ph_date (map to_price_row rows)
                   = map DataCollection.date_of_ms (map fst pts)).
  { rewrite map_map. exact Hd. }
  assert (Hsub : Subseq stored (map to_price_row rows))
    by apply drop_duplicates_Subseq.
  assert (Hall : Forall (fun r => ph_crypto_id r = c) stored).
  { apply Forall_forall. intros r Hr. apply (Subseq_In _ _ _ Hsub) in Hr.
    apply in_map_iff in Hr. destruct Hr as [x [<- Hx]].
    rewrite Forall_forall in Hid. exact (Hid x Hx). }
  assert (Hle : StronglySorted (fun a b => (ph_date a <= ph_date b)%Z) stored).
  { apply (Subseq_StronglySorted _ _ _ Hsub).
    apply (proj1 (StronglySorted_map Z.le ph_date (map to_price_row rows))).
    pose proof (days_ascending _ Hts) as Hasc.
    unfold date in *. rewrite Hdates. exact Hasc. }
  exists {| cryptocurrencies := cryptocurrencies s;
            price_history := stored;
            metrics := metrics s |}.
  split; [now apply import_price_history_fresh|]. simpl.
  split; [|split; [exact Hall|split]].
  - apply (proj2 (StronglySorted_map Z.lt ph_date stored)).
    apply sorted_dates_strict; [exact Hle|].
    apply (one_asset_dates_NoDup c _ Hall), drop_duplicates_NoDup.
  - intros d. rewrite <- (map_map fst (fun t => (t / 86400000)%Z)).
    change (map (fun t => (t / 86400000)%Z) (map fst pts))
      with (map DataCollection.date_of_ms (map fst pts)).
    unfold date in *. rewrite <- Hdates. split; intros Hin.
    + apply in_map_iff in Hin. destruct Hin as [r [<- Hr]].
      apply in_map. eapply Subseq_In; eassumption.
    + apply in_map_iff in Hin. destruct Hin as [r [<- Hr]].
      assert (Hk : In (price_key r) (map price_key stored))
        by (apply drop_duplicates_keys; now apply in_map).
      apply in_map_iff in Hk. destruct Hk as [r' [Hk Hr']].
      apply in_map_iff. exists r'. split; [|exact Hr'].
      unfold price_key in Hk. now inversion Hk.
  - intros row Hrow. now apply drop_duplicates_last.
Qed.

Lemma collected_history_import_witness :
  exists s',
    import_price_history collected_world empty_store = (Ok (price_history s'), s') /\
    StronglySorted Z.lt (map ph_date (price_history s')) /\
    (forall d, In d (map ph_date (price_history s')) <-> In d [1; 2; 2]%Z).
Proof.
  destruct (collected_history_import DataCollection.api_bitcoin "bitcoin" 90
              DataCollection.bitcoin_chart _
              (DataCollection.fetched_history DataCollection.api_bitcoin "bitcoin")
              collected_world empty_store eq_refl eq_refl)
    as [s' [Hi [Hs [_ [Hd _]]]]]; try reflexivity.
  - simpl. repeat constructor; lia.
  - exists s'. repeat split; try assumption; apply Hd.
Defined.

(** ** The collector: the whole collection *)

Lemma concat_nonempty {A} (l : list (list A)) :
  List.concat (filter (fun h => negb (DataCollection.is_empty h)) l)
  = List.concat l.
Proof.
  induction l as [|h l IH]; simpl; [reflexivity|].
  destruct h; simpl; [exact IH | now rewrite IH].
Qed.

Lemma is_empty_concat {A} (l : list (list A)) :
  Forall (fun h => DataCollection.is_empty h = false) l ->
  DataCollection.is_empty l = DataCollection.is_empty (List.concat l).
Proof.
  intros H. destruct H as [|h l Hh _]; [reflexivity|].
  destruct h; [discriminate | reflexivity].
Qed.

(** The loop, when no answer is malformed: the accumulators grow by what
    each asset gave, in order. *)
Lemma collect_loop_closed (api : DataCollection.Api) (ids : list string) :
  DataCollection.well_formed api ids ->
  forall infos hists,
    DataCollection.collect_loop api ids infos hists =
    DataCollection.Done
      (infos ++ flat_map (DataCollection.fetched_info api) ids,
       hists ++ filter (fun h => negb (DataCollection.is_empty h))
                       (map (DataCollection.fetched_history api) ids)).
Proof.
  induction ids as [|c ids IH]; intros Hwf infos hists; simpl.
  - now rewrite !app_nil_r.
  - destruct (Hwf c (or_introl eq_refl)) as [[info Hi] [rows Hr]].
    unfold DataCollection.fetched_info, DataCollection.fetched_history.
    rewrite Hi, Hr. simpl.
    rewrite IH by (intros c' Hc'; apply Hwf; now right).
    destruct info as [i|], rows as [|r rows]; simpl;
      rewrite <- ?app_assoc; reflexivity.
Qed.

(** X10: when no answer is malformed, [collect_all_data] tolerates failed
    requests: it writes the infos and the history rows that were fetched,
    in the order of [TOP_CRYPTOS], and metadata with their counts.  A kind
    of data for which nothing was fetched leaves its file as it was, and
    then the function ends with UnboundLocalError instead of returning. *)
Theorem collect_all_data_closed
  (api : DataCollection.Api) (now : string) (files : DataCollection.Files) :
  DataCollection.well_formed api DataCollection.TOP_CRYPTOS ->
  let infos :=
    flat_map (DataCollection.fetched_info api) DataCollection.TOP_CRYPTOS in
  let rows :=
    flat_map (DataCollection.fetched_history api) DataCollection.TOP_CRYPTOS in
  DataCollection.collect_all_data api now files =
  (match infos, rows with
   | [], _ => DataCollection.Raised (DataCollection.UnboundLocalError "df_info")
   | _ :: _, [] =>
       DataCollection.Raised (DataCollection.UnboundLocalError "df_historical")
   | _ :: _, _ :: _ => DataCollection.Done (infos, rows)
   end,
   {| DataCollection.crypto_info_csv :=
        match infos with
        | [] => DataCollection.crypto_info_csv files
        | _ :: _ => Some infos
        end;
      DataCollection.price_history_csv :=
        match rows with
        | [] => DataCollection.price_history_csv files
        | _ :: _ => Some rows
        end;
      DataCollection.metadata_json :=
        Some {| DataCollection.collection_date := now;
                DataCollection.cryptos_count := List.length infos;
                DataCollection.days_of_history := DataCollection.DAYS_OF_HISTORY;
                DataCollection.data_points := List.length rows;
                DataCollection.cryptos := DataCollection.TOP_CRYPTOS |} |}).
Proof.
  intros Hwf infos rows. unfold DataCollection.collect_all_data.
  rewrite (collect_loop_closed api _ Hwf [] []).
  cbn [app]. fold infos.
  set (hists := filter _ (map (DataCollection.fetched_history api)
                              DataCollection.TOP_CRYPTOS)).
  assert (Hrows : List.concat hists = rows).
  { unfold hists, rows. now rewrite concat_nonempty, flat_map_concat_map. }
  assert (Hemp : DataCollection.is_empty hists = DataCollection.is_empty rows).
  { rewrite <- Hrows. apply is_empty_concat, Forall_forall.
    intros h Hh. apply filter_In in Hh. destruct Hh as [_ Hh].
    now destruct (DataCollection.is_empty h). }
  rewrite Hemp, Hrows.
  destruct infos as [|i infos'], rows as [|r rows']; reflexivity.
Qed.

Lemma collect_all_data_closed_witness :
  fst (DataCollection.collect_all_data DataCollection.api_down "now"
         DataCollection.no_files)
  = DataCollection.Raised (DataCollection.UnboundLocalError "df_info") /\
  option_map DataCollection.data_points
    (DataCollection.metadata_json
       (snd (DataCollection.collect_all_data DataCollection.api_bitcoin "now"
               DataCollection.no_files)))
  = Some 3%nat.
Proof.
  split.
  - rewrite (collect_all_data_closed DataCollection.api_down "now"
               DataCollection.no_files); [reflexivity|].
    intros c _. split; eexists; reflexivity.
  - rewrite (collect_all_data_closed DataCollection.api_bitcoin "now"
               DataCollection.no_files); [reflexivity|].
    intros c Hc. simpl in Hc.
    repeat (destruct Hc as [<-|Hc]; [split; eexists; reflexivity|]).
    contradiction.
Defined.

(** X11: a malformed answer is not tolerated: when for one asset of
    [TOP_CRYPTOS] the answer has no market data, or its chart lacks the
    price series, the collection and [main] end with an exception whatever
    the other answers are, and no file is written. *)
Theorem malformed_answer_aborts
  (api : DataCollection.Api) (now : string) (files : DataCollection.Files)
  (c : string) :
  In c DataCollection.TOP_CRYPTOS ->
  (exists data, DataCollection.coin api c = DataCollection.Body data /\
                DataCollection.j_market_data data = None) \/
  (exists chart, DataCollection.market_chart api c DataCollection.DAYS_OF_HISTORY
                 = DataCollection.Body chart /\
                 DataCollection.prices chart = None) ->
  exists e, DataCollection.main api now files = (DataCollection.Raised e, files).
Proof.
  intros Hc Hbad.
  assert (Hraise : (exists e, DataCollection.get_crypto_info api c
                              = DataCollection.Raised e) \/
                   (exists e, DataCollection.get_historical_prices api c
                                DataCollection.DAYS_OF_HISTORY
                              = DataCollection.Raised e)).
  { destruct Hbad as [[data [Hb Hm]]|[chart [Hb Hp]]]; [left|right].
    - unfold DataCollection.get_crypto_info. rewrite Hb, Hm.
      destruct (DataCollection.j_id data), (DataCollection.j_symbol data),
        (DataCollection.j_name data); simpl; eexists; reflexivity.
    - unfold DataCollection.get_historical_prices. rewrite Hb, Hp.
      simpl. eexists; reflexivity. }
  assert (Hloop : forall ids, In c ids -> forall infos hists,
            exists e, DataCollection.collect_loop api ids infos hists
                      = DataCollection.Raised e).
  { induction ids as [|x ids IH]; intros Hin infos hists; [contradiction|].
    simpl.
    destruct (DataCollection.get_crypto_info api x) as [info|e] eqn:Ei;
      [|eexists; reflexivity].
    simpl.
    destruct (DataCollection.get_historical_prices api x _) as [h|e] eqn:Eh;
      [|eexists; reflexivity].
    simpl. destruct Hin as [->|Hin]; [|now apply IH].
    destruct Hraise as [[e He]|[e He]]; congruence. }
  destruct (Hloop _ Hc [] []) as [e He].
  exists e. unfold DataCollection.main, DataCollection.collect_all_data.
  now rewrite He.
Qed.

Lemma malformed_answer_aborts_witness :
  exists e,
    DataCollection.main DataCollection.api_broken "now" DataCollection.no_files
    = (DataCollection.Raised e, DataCollection.no_files).
Proof.
  apply (malformed_answer_aborts DataCollection.api_broken "now"
           DataCollection.no_files "cosmos").
  - simpl. tauto.
  - left. eexists. split; reflexivity.
Defined.

(** ** The price chart: base 100 *)

Lemma div_same (x : float) :
  is_finite x = true -> is_zero x = false -> (x / x)%float = 1%float.
Proof.
  intros Hf Hz. pose proof (Binary64.is_zero_false_pos x Hf Hz) as Hp.
  apply Prim2SF_inj. rewrite div_spec.
  destruct (Prim2SF x) as [| | |s m e]; try contradiction.
  apply Binary64.SFdiv_self.
Qed.

Lemma assign_normalized_step (full : list Analysis.SymbolPrice) (x : string)
  (seen : list string) (l : list Analysis.SymbolPrice) :
  Analysis.assign_normalized (Analysis.first_price x full) x l
    (map (fun r => if existsb (String.eqb (Analysis.sp_symbol r)) seen
                   then (Analysis.sp_price_usd r
                         / Analysis.first_price (Analysis.sp_symbol r) full * 100)%float
                   else nan) l)
  = map (fun r => if existsb (String.eqb (Analysis.sp_symbol r)) (seen ++ [x])
                  then (Analysis.sp_price_usd r
                        / Analysis.first_price (Analysis.sp_symbol r) full * 100)%float
                  else nan) l.
Proof.
  induction l as [|r l IH]; simpl; [reflexivity|].
  rewrite IH. f_equal. rewrite existsb_app. simpl. rewrite orb_false_r.
  destruct (String.eqb_spec (Analysis.sp_symbol r) x) as [->|Hne].
  - now rewrite orb_true_r.
  - now rewrite orb_false_r.
Qed.

Lemma assign_normalized_all (full : list Analysis.SymbolPrice)
  (symbols : list string) : forall seen,
  fold_left
    (fun column symbol =>
       Analysis.assign_normalized (Analysis.first_price symbol full) symbol full column)
    symbols
    (map (fun r => if existsb (String.eqb (Analysis.sp_symbol r)) seen
                   then (Analysis.sp_price_usd r
                         / Analysis.first_price (Analysis.sp_symbol r) full * 100)%float
                   else nan) full)
  = map (fun r => if existsb (String.eqb (Analysis.sp_symbol r)) (seen ++ symbols)
                  then (Analysis.sp_price_usd r
                        / Analysis.first_price (Analysis.sp_symbol r) full * 100)%float
                  else nan) full.
Proof.
  induction symbols as [|x symbols IH]; intros seen; simpl.
  - now rewrite app_nil_r.
  - rewrite assign_normalized_step, IH, <- app_assoc. reflexivity.
Qed.

Lemma price_normalized_closed (df : list Analysis.SymbolPrice) :
  Analysis.price_normalized df =
  map (fun r => (Analysis.sp_price_usd r
                 / Analysis.first_price (Analysis.sp_symbol r) df * 100)%float) df.
Proof.
  unfold Analysis.price_normalized.
  rewrite (assign_normalized_all df _ []). simpl.
  apply map_ext_in. intros r Hr.
  replace (existsb _ _) with true; [reflexivity|].
  symmetry. apply existsb_exists. exists (Analysis.sp_symbol r).
  split; [|apply String.eqb_refl].
  apply unique_In. now apply in_map.
Qed.

Lemma symbol_compare_antisym (a b : option string) :
  Analysis.symbol_compare a b = CompOpp (Analysis.symbol_compare b a).
Proof.
  destruct a as [x|], b as [y|]; simpl; try reflexivity.
  apply String.compare_antisym.
Qed.

Lemma date_symbol_leb_total (a b : Analysis.QueryRow) :
  Analysis.date_symbol_leb a b = true \/ Analysis.date_symbol_leb b a = true.
Proof.
  unfold Analysis.date_symbol_leb.
  rewrite (Z.compare_antisym (Analysis.q_date a) (Analysis.q_date b)).
  rewrite (symbol_compare_antisym (Analysis.q_symbol b) (Analysis.q_symbol a)).
  destruct (Z.compare (Analysis.q_date a) (Analysis.q_date b)),
    (Analysis.symbol_compare (Analysis.q_symbol a) (Analysis.q_symbol b));
    simpl; auto.
Qed.

Lemma price_query_ordered (s : Store) :
  Analysis.ordered_result Analysis.date_symbol_leb s (Analysis.price_query s).
Proof.
  split; [apply sort_by_perm|].
  apply (sort_by_sorted Analysis.date_symbol_leb date_symbol_leb_total).
Qed.

Lemma text_frame_rows (rows : list Analysis.QueryRow) :
  forall df, Analysis.text_frame rows = Some df ->
             rows = map Analysis.query_row df.
Proof.
  induction rows as [|r rows IH]; simpl; intros df H.
  - inversion H. reflexivity.
  - destruct r as [[t|] d p]; simpl in H; [|discriminate].
    destruct (Analysis.text_frame rows) as [df'|]; [|discriminate].
    inversion H; subst. simpl. rewrite <- (IH df' eq_refl). reflexivity.
Qed.

(** A frame read from a result ordered by date first is in date order. *)
Lemma text_frame_by_date (s : Store) (rows : list Analysis.QueryRow)
  (df : list Analysis.SymbolPrice) :
  Analysis.ordered_result Analysis.date_symbol_leb s rows ->
  Analysis.text_frame rows = Some df ->
  StronglySorted (fun a b => (Analysis.sp_date a <= Analysis.sp_date b)%Z) df.
Proof.
  intros [_ Hsorted] Hdf. apply text_frame_rows in Hdf. subst rows.
  apply (StronglySorted_map
           (fun a b => (Analysis.q_date a <= Analysis.q_date b)%Z)
           Analysis.query_row).
  apply Sorted_StronglySorted; [intros x y z ? ?; lia|].
  eapply Sorted_ind with
    (P := fun l => Sorted (fun a b => (Analysis.q_date a <= Analysis.q_date b)%Z) l);
    [constructor| |exact Hsorted].
  intros a l _ IH Hhd. constructor; [exact IH|].
  destruct Hhd as [|b l' Hab]; constructor.
  unfold Analysis.date_symbol_leb in Hab.
  destruct (Z.compare_spec (Analysis.q_date a) (Analysis.q_date b));
    try lia; discriminate.
Qed.

(** X12: in [plot_price_evolution], on whatever the query returns when
    every symbol is text, every row gets its price divided by the first
    price of its symbol, times 100; that first price is the price at the
    symbol's earliest date, and when it is finite and not zero the row it
    comes from is normalized to exactly 100.0. *)
Theorem price_normalized_base (s : Store) (rows : list Analysis.QueryRow)
  (df : list Analysis.SymbolPrice) :
  Analysis.ordered_result Analysis.date_symbol_leb s rows ->
  Analysis.text_frame rows = Some df ->
  Analysis.price_normalized df =
  map (fun r => (Analysis.sp_price_usd r
                 / Analysis.first_price (Analysis.sp_symbol r) df * 100)%float)
      df /\
  forall symbol, In symbol (map Analysis.sp_symbol df) ->
    exists r,
      In r df /\
      Analysis.sp_symbol r = symbol /\
      Analysis.first_price symbol df = Analysis.sp_price_usd r /\
      (forall r', In r' df ->
                  Analysis.sp_symbol r' = symbol ->
                  (Analysis.sp_date r <= Analysis.sp_date r')%Z) /\
      (is_finite (Analysis.sp_price_usd r) = true ->
       is_zero (Analysis.sp_price_usd r) = false ->
       (Analysis.sp_price_usd r / Analysis.first_price symbol df * 100)%float
       = 100%float).
Proof.
  intros Hrows Hdf.
  split; [apply price_normalized_closed|].
  intros symbol Hsym.
  pose proof (text_frame_by_date s rows df Hrows Hdf) as Hsorted.
  assert (Hsub : Subseq (filter (fun r => String.eqb (Analysis.sp_symbol r) symbol) df) df).
  { clear. induction df as [|a df IH]; simpl; [constructor|].
    destruct (String.eqb _ symbol); constructor; exact IH. }
  pose proof (Subseq_StronglySorted _ _ _ Hsub Hsorted) as Hfs.
  unfold Analysis.first_price.
  destruct (filter (fun r => String.eqb (Analysis.sp_symbol r) symbol) df)
    as [|r rest] eqn:E.
  - exfalso. apply in_map_iff in Hsym. destruct Hsym as [x [Hx Hin]].
    assert (Hf : In x (filter (fun r => String.eqb (Analysis.sp_symbol r) symbol) df))
      by (apply filter_In; split; [exact Hin | now apply String.eqb_eq]).
    rewrite E in Hf. contradiction.
  - assert (Hr : In r (filter (fun r => String.eqb (Analysis.sp_symbol r) symbol) df))
      by (rewrite E; now left).
    apply filter_In in Hr. destruct Hr as [Hr Hs]. apply String.eqb_eq in Hs.
    exists r. repeat split; auto.
    + intros r' Hr' Hs'.
      assert (Hin : In r' (r :: rest)).
      { rewrite <- E. apply filter_In. split; [exact Hr' | now apply String.eqb_eq]. }
      inversion Hfs as [|? ? _ Hall]; subst.
      destruct Hin as [<-|Hin]; [lia|].
      rewrite Forall_forall in Hall. now apply Hall.
    + intros Hf Hz. rewrite (div_same _ Hf Hz). reflexivity.
Qed.

Lemma price_normalized_base_witness :
  Analysis.text_frame (Analysis.price_query Analysis.two_asset_store)
    = Some Analysis.two_asset_frame /\
  Analysis.price_normalized Analysis.two_asset_frame
    = [ 100; 0x1.b800000000001p+6; 100; 99; 200 ]%float.
Proof.
  assert (E : Analysis.text_frame (Analysis.price_query Analysis.two_asset_store)
              = Some Analysis.two_asset_frame) by (vm_compute; reflexivity).
  split; [exact E|].
  destruct (price_normalized_base Analysis.two_asset_store
              (Analysis.price_query Analysis.two_asset_store)
              Analysis.two_asset_frame
              (price_query_ordered Analysis.two_asset_store) E)
    as [H _].
  rewrite H. vm_compute. reflexivity.
Defined.

(** ** The volume chart: who gets a panel *)





(** ** When the whole run succeeds *)

Lemma stages_run (w : World) (infos : list CryptoInfo) (rows : list RawPrice) :
  crypto_info_csv w = Table infos ->
  price_history_csv w = Table rows ->
  stages w empty_store =
    if ListDec.NoDup_dec string_dec (map id infos)
    then match texts (head 5 (map symbol infos)) with
         | Some _ => (fst (verify_data (populated_store infos rows)),
                      populated_store infos rows)
         | None => (Raise TypeError, assets_store infos)
         end
    else (Raise (IntegrityError "cryptocurrencies"), empty_store).
Proof.
  intros Hi Hr. unfold stages.
  pose proof (import_cryptocurrencies_fresh w infos empty_store Hi eq_refl) as H1.
  destruct (ListDec.NoDup_dec string_dec (map id infos)) as [Hn|Hn].
  - destruct (texts (head 5 (map symbol infos))) as [l|].
    + simpl in H1. rewrite (bind_ok _ _ _ _ _ H1).
      rewrite (bind_ok _ _ _ _ _
                 (import_price_history_fresh w rows
                    {| cryptocurrencies := map to_cryptocurrency infos;
                       price_history := []; metrics := [] |} Hr eq_refl)).
      simpl.
      erewrite bind_ok;
        [|apply calculate_metrics_fresh; [apply drop_duplicates_NoDup | reflexivity]].
      reflexivity.
    + now apply bind_raise.
  - now apply bind_raise.
Qed.

(** When the asset import went through and the history file cannot be
    read. *)
Lemma stages_without_history (w : World) (infos : list CryptoInfo) (e : exn) :
  crypto_info_csv w = Table infos ->
  NoDup (map id infos) ->
  texts (head 5 (map symbol infos)) <> None ->
  read_csv "price_history.csv" (price_history_csv w) = Raise e ->
  stages w empty_store = (Raise e, assets_store infos).
Proof.
  intros Hi Hn Ht Hr. unfold stages.
  pose proof (import_cryptocurrencies_fresh w infos empty_store Hi eq_refl) as H1.
  destruct (ListDec.NoDup_dec string_dec (map id infos)); [|contradiction].
  destruct (texts (head 5 (map symbol infos))); [|congruence].
  simpl in H1. rewrite (bind_ok _ _ _ _ _ H1).
  apply bind_raise. unfold import_price_history. apply bind_raise.
  unfold lift. now rewrite Hr.
Qed.

Lemma stages_without_assets (w : World) (e : exn) (conn : Store) :
  read_csv "crypto_info.csv" (crypto_info_csv w) = Raise e ->
  stages w conn = (Raise e, conn).
Proof.
  intros Hr. unfold stages. apply bind_raise.
  unfold import_cryptocurrencies. apply bind_raise. unfold lift. now rewrite Hr.
Qed.

Lemma main_aborts (w : World) (e : exn) (s : Store) :
  schema_sql w = true ->
  stages w empty_store = (Raise e, s) ->
  aborted_with w e s.
Proof.
  intros Hs H. unfold aborted_with, main, create_database.
  rewrite Hs, H. simpl. auto.
Qed.

(** X14: [main] of database.py succeeds exactly when the schema script and
    both CSV files can be read, the ids of the asset file are pairwise
    distinct and its first five symbols are text; repeated observations
    never make it fail.  When these conditions hold the database holds the
    assets of the file, the de-duplicated observations and the metrics
    computed from them. *)
Theorem main_succeeds_iff (w : World) :
  (outcome (main w) = Ok tt <->
   schema_sql w = true /\
   exists infos rows,
     crypto_info_csv w = Table infos /\
     NoDup (map id infos) /\
     texts (head 5 (map symbol infos)) <> None /\
     price_history_csv w = Table rows) /\
  (forall infos rows,
     schema_sql w = true ->
     crypto_info_csv w = Table infos ->
     NoDup (map id infos) ->
     texts (head 5 (map symbol infos)) <> None ->
     price_history_csv w = Table rows ->
     db_file (final (main w)) = Some (populated_store infos rows)).
Proof.
  split.
  2:{ intros infos rows Hs Hi Hn Ht Hr. unfold main, create_database.
      rewrite Hs, (stages_run w infos rows Hi Hr).
      destruct (ListDec.NoDup_dec string_dec (map id infos)); [|contradiction].
      destruct (texts (head 5 (map symbol infos))); [|congruence].
      reflexivity. }
  unfold main, create_database.
  destruct (schema_sql w) eqn:Es; simpl.
  2:{ split; [discriminate | intros [H _]; discriminate]. }
  destruct (crypto_info_csv w) as [| |infos] eqn:Ei.
  1,2: (erewrite stages_without_assets by (rewrite Ei; reflexivity);
        simpl; split; [discriminate | intros [_ [? [? [H _]]]]; discriminate]).
  destruct (price_history_csv w) as [| |rows] eqn:Er.
  3:{ rewrite (stages_run w infos rows Ei Er).
      destruct (ListDec.NoDup_dec string_dec (map id infos)) as [Hn|Hn]; simpl.
      - destruct (texts (head 5 (map symbol infos))) as [l|] eqn:Et; simpl.
        + split; [|reflexivity]. intros _. split; [reflexivity|].
          exists infos, rows. repeat split; auto. congruence.
        + split; [discriminate|].
          intros [_ [i [r [Hi [_ [Ht _]]]]]]. inversion Hi; subst. congruence.
      - split; [discriminate|].
        intros [_ [i [r [Hi [Hnd _]]]]]. inversion Hi; subst. contradiction. }
  all: (assert (Hfail : exists e s, stages w empty_store = (Raise e, s));
        [|destruct Hfail as [e [s Hfail]]; rewrite Hfail; simpl;
          split; [discriminate | intros [_ [? [? [_ [_ [_ H]]]]]]; discriminate]]).
  all: (unfold stages;
        destruct (import_cryptocurrencies w empty_store) as [[a|e] s1] eqn:E1;
        [rewrite (bind_ok _ _ _ _ _ E1)|
         eexists; eexists; apply bind_raise; exact E1]).
  all: (eexists; eexists; apply bind_raise;
        unfold import_price_history; apply bind_raise;
        unfold lift; rewrite Er; reflexivity).
Qed.

Lemma main_on_duplicates :
  outcome (main (world_of duplicated_rows)) = Ok tt /\
  outcome (main duplicated_info_world) = Raise (IntegrityError "cryptocurrencies") /\
  outcome (main missing_symbol_world) = Raise TypeError.
Proof. repeat split; vm_compute; reflexivity. Qed.

(** ** Errors end the run *)

Lemma import_price_history_conflict (w : World) (rows : list RawPrice)
  (conn : Store) (r : RawPrice) :
  price_history_csv w = Table rows ->
  In r rows ->
  In (price_key (to_price_row r)) (map price_key (price_history conn)) ->
  import_price_history w conn = (Raise (IntegrityError "price_history"), conn).
Proof.
  intros Hw Hr Hk. rewrite (import_price_history_run _ _ _ Hw).
  assert (Hin : In (price_key (to_price_row r))
                   (map price_key (drop_duplicates (map to_price_row rows)))).
  { apply drop_duplicates_keys. now apply in_map, in_map. }
  apply in_map_iff in Hin. destruct Hin as [x [Hx Hin]].
  unfold same_price_key.
  rewrite (insert_rows_conflict price_key _ _ x Hin); [reflexivity|].
  now rewrite Hx.
Qed.

Lemma calculate_metrics_conflict (conn : Store) (row : MetricRow) :
  In row (df_metrics conn) ->
  In (metric_key row) (map metric_key (metrics conn)) ->
  calculate_metrics conn = (Raise (IntegrityError "metrics"), conn).
Proof.
  intros Hr Hk. unfold calculate_metrics, to_sql_metrics, same_metric_key.
  now rewrite (insert_rows_conflict metric_key _ _ row Hr Hk).
Qed.

(** C7: no error of the import or of the metrics computation is caught on
    the way.  Inside [main]: an asset file or a history file that is
    missing or malformed, an id that occurs twice, or a symbol among the
    first five that is not text ends the run with the exception of that
    error, printed once and raised again, and the database holds what the
    stages before the error committed and nothing of a later stage.  For
    any connection: an observation or a metric row whose key is already
    stored makes its stage raise IntegrityError and store nothing; the
    block of [main] ends with the exception of the first stage that fails,
    on the store that stage left, and [main] hands every exception of the
    block on. *)
Theorem main_propagates_errors (w : World) :
  schema_sql w = true ->
  (crypto_info_csv w = Missing ->
   aborted_with w (FileNotFoundError "data/raw/crypto_info.csv") empty_store) /\
  (crypto_info_csv w = Malformed ->
   aborted_with w (MalformedInput "data/raw/crypto_info.csv") empty_store) /\
  (forall infos, crypto_info_csv w = Table infos ->
     (~ NoDup (map id infos) ->
      aborted_with w (IntegrityError "cryptocurrencies") empty_store) /\
     (NoDup (map id infos) ->
      texts (head 5 (map symbol infos)) = None ->
      aborted_with w TypeError (assets_store infos)) /\
     (NoDup (map id infos) ->
      texts (head 5 (map symbol infos)) <> None ->
      (price_history_csv w = Missing ->
       aborted_with w (FileNotFoundError "data/raw/price_history.csv")
                    (assets_store infos)) /\
      (price_history_csv w = Malformed ->
       aborted_with w (MalformedInput "data/raw/price_history.csv")
                    (assets_store infos)))) /\
  (forall conn rows r,
     price_history_csv w = Table rows ->
     In r rows ->
     In (price_key (to_price_row r)) (map price_key (price_history conn)) ->
     import_price_history w conn = (Raise (IntegrityError "price_history"), conn)) /\
  (forall conn row,
     In row (df_metrics conn) ->
     In (metric_key row) (map metric_key (metrics conn)) ->
     calculate_metrics conn = (Raise (IntegrityError "metrics"), conn)) /\
  (forall conn,
     stages w conn =
       match import_cryptocurrencies w conn with
       | (Raise e, s) => (Raise e, s)
       | (Ok _, s1) =>
           match import_price_history w s1 with
           | (Raise e, s) => (Raise e, s)
           | (Ok _, s2) =>
               match calculate_metrics s2 with
               | (Raise e, s) => (Raise e, s)
               | (Ok _, s3) => (fst (verify_data s3), s3)
               end
           end
       end) /\
  (forall e s, stages w empty_store = (Raise e, s) -> aborted_with w e s).
Proof.
  intros Hs.
  split; [|split; [|split; [|split; [|split; [|split]]]]].
  - intros Hi. apply (main_aborts w _ _ Hs).
    apply stages_without_assets. now rewrite Hi.
  - intros Hi. apply (main_aborts w _ _ Hs).
    apply stages_without_assets. now rewrite Hi.
  - intros infos Hi. split; [|split].
    + intros Hn. apply (main_aborts w _ _ Hs). unfold stages. apply bind_raise.
      rewrite (import_cryptocurrencies_fresh w infos empty_store Hi eq_refl).
      destruct (ListDec.NoDup_dec string_dec (map id infos)); [contradiction|].
      reflexivity.
    + intros Hn Ht. apply (main_aborts w _ _ Hs). unfold stages. apply bind_raise.
      rewrite (import_cryptocurrencies_fresh w infos empty_store Hi eq_refl).
      destruct (ListDec.NoDup_dec string_dec (map id infos)); [|contradiction].
      rewrite Ht. reflexivity.
    + intros Hn Ht. split; intros Hr; apply (main_aborts w _ _ Hs);
        apply (stages_without_history w infos _ Hi Hn Ht); now rewrite Hr.
  - intros conn rows r. apply import_price_history_conflict.
  - apply calculate_metrics_conflict.
  - intros conn. unfold stages, bind.
    destruct (import_cryptocurrencies w conn) as [[a|e] s1]; [|reflexivity].
    destruct (import_price_history w s1) as [[b|e] s2]; [|reflexivity].
    destruct (calculate_metrics s2) as [[u|e] s3]; reflexivity.
  - intros e s. apply (main_aborts w e s Hs).
Qed.

Lemma main_propagates_errors_witness :
  aborted_with world_without_history
               (FileNotFoundError "data/raw/price_history.csv")
               {| cryptocurrencies :=
                    [ {| crypto_id := "bitcoin"; c_symbol := Some "BTC"; c_name := Some "Bitcoin" |} ];
                  price_history := []; metrics := [] |} /\
  aborted_with duplicated_info_world (IntegrityError "cryptocurrencies") empty_store /\
  import_price_history (world_of example_rows) example_store
    = (Raise (IntegrityError "price_history"), example_store) /\
  calculate_metrics (snd (calculate_metrics example_store))
    = (Raise (IntegrityError "metrics"), snd (calculate_metrics example_store)).
Proof.
  split; [|split; [|split]].
  - destruct (main_propagates_errors world_without_history eq_refl)
      as [_ [_ [H _]]].
    destruct (H _ eq_refl) as [_ [_ H']].
    destruct H' as [H' _];
      [repeat constructor; simpl; intuition discriminate | discriminate |].
    apply (H' eq_refl).
  - destruct (main_propagates_errors duplicated_info_world eq_refl)
      as [_ [_ [H _]]].
    destruct (H _ eq_refl) as [H' _].
    apply H'. simpl. intros Hn. inversion Hn as [|? ? Hout _]; subst.
    apply Hout. simpl. auto.
  - destruct (main_propagates_errors (world_of example_rows) eq_refl)
      as [_ [_ [_ [H _]]]].
    apply (H example_store example_rows (observation "bitcoin" 1 100 5) eq_refl);
      simpl; auto.
  - destruct (main_propagates_errors (world_of example_rows) eq_refl)
      as [_ [_ [_ [_ [H _]]]]].
    apply (H (snd (calculate_metrics example_store))
             {| m_crypto_id := "bitcoin"; m_date := 2%Z;
                daily_return := Some 0x1.4000000000005p+3%float;
                volatility_7d := None; volatility_30d := None;
                volume_change_24h := Some 0%float |});
      vm_compute; auto.
Defined.

(** ** From the collector to the asset table *)

Lemma fetched_info_short (api : DataCollection.Api) (c : string) :
  (List.length (DataCollection.fetched_info api c) <= 1)%nat.
Proof.
  unfold DataCollection.fetched_info.
  destruct (DataCollection.get_crypto_info api c) as [[i|]|e]; simpl; lia.
Qed.

Lemma fetched_ids_NoDup (api : DataCollection.Api) (ids : list string) :
  NoDup ids ->
  (forall c i, In i (DataCollection.fetched_info api c) ->
               DataCollection.i_id i = c) ->
  NoDup (map DataCollection.i_id (flat_map (DataCollection.fetched_info api) ids)).
Proof.
  intros Hn Hid. induction Hn as [|c ids Hc Hn IH]; simpl; [constructor|].
  rewrite map_app. apply NoDup_app; [|exact IH|].
  - pose proof (fetched_info_short api c) as Hlen.
    destruct (DataCollection.fetched_info api c) as [|i [|j l]]; simpl in *;
      [constructor | repeat constructor; auto | lia].
  - intros x Hx Hx'. apply in_map_iff in Hx. destruct Hx as [i [<- Hi]].
    apply in_map_iff in Hx'. destruct Hx' as [j [Hj Hin]].
    apply in_flat_map in Hin. destruct Hin as [c' [Hc' Hin]].
    rewrite (Hid _ _ Hi) in Hj. rewrite (Hid _ _ Hin) in Hj. now subst c'.
Qed.

(** X15: when every info the service returns carries the id that was asked
    for, an asset file with the ids the collector fetched has pairwise
    distinct ids, so the asset import of database.py meets no constraint
    violation: into an empty table it stores every row, and it returns
    normally unless one of the first five symbols is read back as missing,
    in which case it raises TypeError with the rows already stored. *)
Theorem collected_infos_import (api : DataCollection.Api) (w : World)
  (rows : list CryptoInfo) (s : Store) :
  (forall c i, In i (DataCollection.fetched_info api c) ->
               DataCollection.i_id i = c) ->
  crypto_info_csv w = Table rows ->
  map id rows
    = map DataCollection.i_id
          (flat_map (DataCollection.fetched_info api) DataCollection.TOP_CRYPTOS) ->
  cryptocurrencies s = [] ->
  NoDup (map id rows) /\
  map crypto_id (cryptocurrencies (snd (import_cryptocurrencies w s))) = map id rows /\
  (texts (head 5 (map symbol rows)) <> None ->
   fst (import_cryptocurrencies w s) = Ok rows) /\
  (texts (head 5 (map symbol rows)) = None ->
   fst (import_cryptocurrencies w s) = Raise TypeError).
Proof.
  intros Hid Hw Hrows Hs.
  assert (Hn : NoDup (map id rows)).
  { rewrite Hrows. apply fetched_ids_NoDup; [|exact Hid].
    unfold DataCollection.TOP_CRYPTOS.
    repeat constructor; simpl; intuition discriminate. }
  split; [exact Hn|].
  rewrite (import_cryptocurrencies_fresh w _ s Hw Hs).
  destruct (ListDec.NoDup_dec string_dec _) as [_|Hbad]; [|contradiction].
  simpl. rewrite map_map. simpl. split; [reflexivity|].
  destruct (texts _); split; intros; congruence.
Qed.

Lemma collected_infos_import_witness :
  NoDup (map id [ {| id := "bitcoin"; symbol := Some "BTC"; name := Some "Bitcoin" |} ]) /\
  fst (import_cryptocurrencies collected_world empty_store)
    = Ok [ {| id := "bitcoin"; symbol := Some "BTC"; name := Some "Bitcoin" |} ].
Proof.
  destruct (collected_infos_import DataCollection.api_bitcoin collected_world
              [ {| id := "bitcoin"; symbol := Some "BTC"; name := Some "Bitcoin" |} ]
              empty_store)
    as [Hn [_ [Hok _]]].
  - intros c i. unfold DataCollection.fetched_info, DataCollection.get_crypto_info.
    simpl. destruct (String.eqb c "bitcoin") eqn:E; simpl; [|tauto].
    apply String.eqb_eq in E. intros [<-|[]]. simpl. now symmetry.
  - reflexivity.
  - reflexivity.
  - reflexivity.
  - split; [exact Hn | apply Hok; discriminate].
Defined.

(** ** Stored volatilities are not negative *)

Lemma SFsqrt_not_negative (pr em : Z) (x : spec_float) :
  SFltb (SFsqrt pr em x) (S754_zero false) = false.
Proof.
  destruct x as [s|s| |s m e]; simpl.
  - destruct s; reflexivity.
  - destruct s; reflexivity.
  - reflexivity.
  - destruct s; [reflexivity|].
    pose proof (Binary64.sqrt_core_nonneg pr em m e) as H.
    destruct (SFsqrt_core_binary _ _ _ _) as [[mz ez] lz]. simpl in H.
    pose proof (Binary64.binary_round_aux_signed pr em false mz ez lz H) as Hs.
    destruct (binary_round_aux pr em false mz ez lz) as [s'|s'| |s' m' e'];
      simpl in Hs; try contradiction; subst; reflexivity.
Qed.

Lemma zsqrt_not_negative (x : float) : (zsqrt x <? 0)%float = false.
Proof.
  unfold zsqrt. destruct (x <? 0)%float; [reflexivity|].
  rewrite ltb_spec, sqrt_spec. apply SFsqrt_not_negative.
Qed.

Lemma rolling_std_value (w : nat) (col : list float) (i : nat) (v : float) :
  nan_to_none (nth i (rolling_std w col) nan) = Some v ->
  is_nan v = false /\ (v <? 0)%float = false.
Proof.
  unfold nan_to_none.
  destruct (is_nan (nth i (rolling_std w col) nan)) eqn:En; [discriminate|].
  intros E. inversion E; subst v. split; [exact En|].
  unfold rolling_std. rewrite <- zsqrt_nan at 1. rewrite map_nth.
  apply zsqrt_not_negative.
Qed.

(** X16: a volatility that [calculate_metrics] stores is never negative and
    never NaN: volatility_7d and volatility_30d are each either null or a
    number that is not below zero, whatever the prices are. *)
Theorem stored_volatility_not_negative
  (s : Store) (c : string) (row : MetricRow) (v : float) :
  NoDup (map price_key (price_history s)) ->
  metrics s = [] ->
  In row (stored_asset_metrics s c) ->
  volatility_7d row = Some v \/ volatility_30d row = Some v ->
  is_nan v = false /\ (v <? 0)%float = false.
Proof.
  intros Hk Hm Hrow Hv.
  rewrite (stored_asset_metrics_fresh s c Hk Hm), asset_entries_rows, map_map in Hrow.
  apply in_map_iff in Hrow. destruct Hrow as [i [<- _]].
  unfold where_notna in Hv. simpl in Hv.
  destruct Hv as [Hv|Hv]; exact (rolling_std_value _ _ _ _ Hv).
Qed.

Lemma stored_volatility_not_negative_witness :
  forallb (fun row =>
             match volatility_7d row with
             | Some v => negb (is_nan v) && negb (v <? 0)%float
             | None => true
             end)
          (stored_asset_metrics rising_store "bitcoin") = true /\
  map (fun row => is_some (volatility_7d row))
      (stored_asset_metrics rising_store "bitcoin")
    = [false; false; false; false; false; false; true; true].
Proof.
  split; [|vm_compute; reflexivity].
  apply forallb_forall. intros row Hrow.
  destruct (volatility_7d row) as [v|] eqn:E; [|reflexivity].
  destruct (stored_volatility_not_negative rising_store "bitcoin" row v)
    as [Hn Hz]; [distinct_keys | reflexivity | exact Hrow | now left |].
  rewrite Hn, Hz. reflexivity.
Defined.

(** ** The correlation heatmap: when the pivot fails *)

Lemma entry_eqb_eq (a b : date * string) :
  Analysis.entry_eqb a b = true <-> a = b.
Proof.
  destruct a as [d1 s1], b as [d2 s2]. unfold Analysis.entry_eqb. simpl.
  rewrite andb_true_iff, Z.eqb_eq, String.eqb_eq.
  split; [intros [-> ->]; reflexivity | intros E; inversion E; auto].
Qed.

Lemma existsb_entry (e : date * string) (l : list (date * string)) :
  existsb (Analysis.entry_eqb e) l = true <-> In e l.
Proof.
  rewrite existsb_exists. split.
  - intros [x [Hx E]]. apply entry_eqb_eq in E. now subst.
  - intros H. exists e. split; [exact H | now apply entry_eqb_eq].
Qed.

Lemma duplicated_NoDup (l : list (date * string)) :
  Analysis.duplicated l = false <-> NoDup l.
Proof.
  induction l as [|e l IH]; simpl.
  - split; [constructor | reflexivity].
  - rewrite orb_false_iff, IH. split.
    + intros [He Hl]. constructor; [|exact Hl].
      intros Hin. apply existsb_entry in Hin. congruence.
    + intros Hn. inversion Hn as [|? ? Hout Hl]; subst. split; [|exact Hl].
      destruct (existsb _ l) eqn:E; [|reflexivity].
      apply existsb_entry in E. contradiction.
Qed.

(** Among pairwise distinct rows, a value of [g] occurs twice exactly when
    two different rows give it. *)
Lemma map_repeats {A B} (g : A -> B) (l : list A) :
  (forall x y : B, {x = y} + {x <> y}) ->
  NoDup l ->
  ~ NoDup (map g l) <->
  exists x y, In x l /\ In y l /\ x <> y /\ g x = g y.
Proof.
  intros eq_dec. induction 1 as [|a l Ha Hl IH]; simpl.
  - split; [intros H; exfalso; apply H; constructor | intros [x [y [[] _]]]].
  - split.
    + intros Hn. destruct (in_dec eq_dec (g a) (map g l)) as [Hin|Hout].
      * apply in_map_iff in Hin. destruct Hin as [y [E Hy]].
        exists a, y. repeat split; auto. intros ->. contradiction.
      * destruct (proj1 IH) as [x [y [Hx [Hy [Hne E]]]]].
        { intros Hnd. apply Hn. constructor; assumption. }
        exists x, y. auto.
    + intros [x [y [Hx [Hy [Hne E]]]]] Hnd.
      inversion Hnd as [|? ? Hout Hnd']; subst.
      destruct Hx as [->|Hx], Hy as [->|Hy].
      * contradiction.
      * apply Hout. rewrite E. now apply in_map.
      * apply Hout. rewrite <- E. now apply in_map.
      * apply (proj2 IH); [exists x, y; auto | exact Hnd'].
Qed.

Lemma query_entry_dec (x y : Z * option string) : {x = y} + {x <> y}.
Proof. repeat decide equality. Qed.

Lemma In_joined (s : Store) (r : PriceRow) (c : Cryptocurrency) :
  In (r, c) (Analysis.joined s) <->
  In r (price_history s) /\ In c (cryptocurrencies s) /\
  ph_crypto_id r = crypto_id c.
Proof.
  unfold Analysis.joined. rewrite in_flat_map. split.
  - intros [ph [Hph Hin]]. apply in_map_iff in Hin.
    destruct Hin as [c' [E Hc]]. inversion E; subst.
    apply filter_In in Hc. destruct Hc as [Hc Hid].
    apply String.eqb_eq in Hid. auto.
  - intros [Hr [Hc Hid]]. exists r. split; [exact Hr|].
    apply in_map, filter_In. split; [exact Hc | now apply String.eqb_eq].
Qed.

Lemma joined_NoDup (s : Store) :
  NoDup (cryptocurrencies s) -> NoDup (price_history s) ->
  NoDup (Analysis.joined s).
Proof.
  intros Hc Hp. unfold Analysis.joined.
  induction Hp as [|ph l Hout Hl IH]; simpl; [constructor|].
  apply NoDup_app; [|exact IH|].
  - apply Finite.Injective_map_NoDup; [|now apply NoDup_filter].
    intros c1 c2 E. now inversion E.
  - intros [r c] Hin Hin'. apply in_map_iff in Hin.
    destruct Hin as [c' [E _]]. inversion E; subst.
    apply in_flat_map in Hin'. destruct Hin' as [ph' [Hph' Hin']].
    apply in_map_iff in Hin'. destruct Hin' as [c'' [E' _]].
    inversion E'; subst. contradiction.
Qed.

Lemma NoDup_map_same {A B} (g : A -> B) (l : list A) (x y : A) :
  NoDup (map g l) -> In x l -> In y l -> g x = g y -> x = y.
Proof.
  induction l as [|a l IH]; simpl; intros Hn Hx Hy E; [contradiction|].
  inversion Hn as [|? ? Hout Hl]; subst.
  destruct Hx as [->|Hx], Hy as [->|Hy]; auto.
  - exfalso. apply Hout. rewrite E. now apply in_map.
  - exfalso. apply Hout. rewrite <- E. now apply in_map.
Qed.

(** The (date, symbol) pairs of a frame are distinct exactly when those of
    the join are. *)
Lemma frame_entries_NoDup (s : Store) (rows : list Analysis.QueryRow)
  (df : list Analysis.SymbolPrice) :
  Permutation rows (Analysis.price_rows s) ->
  Analysis.text_frame rows = Some df ->
  NoDup (map (fun r => (Analysis.sp_date r, Analysis.sp_symbol r)) df) <->
  NoDup (map (fun e : PriceRow * Cryptocurrency =>
                (ph_date (fst e), c_symbol (snd e)))
             (Analysis.joined s)).
Proof.
  intros Hp Hdf. apply text_frame_rows in Hdf. subst rows.
  assert (Hq : Permutation
                 (map (fun p : date * string => (fst p, Some (snd p)))
                      (map (fun r => (Analysis.sp_date r, Analysis.sp_symbol r)) df))
                 (map (fun e : PriceRow * Cryptocurrency =>
                         (ph_date (fst e), c_symbol (snd e)))
                      (Analysis.joined s))).
  { apply (Permutation_map
             (fun r => (Analysis.q_date r, Analysis.q_symbol r))) in Hp.
    unfold Analysis.price_rows in Hp. rewrite !map_map in Hp. simpl in Hp.
    rewrite map_map. exact Hp. }
  split; intros Hn.
  - apply (Permutation_NoDup Hq).
    apply Finite.Injective_map_NoDup; [|exact Hn].
    intros [d1 t1] [d2 t2] E. now inversion E.
  - apply (Permutation_NoDup (Permutation_sym Hq)) in Hn.
    now apply NoDup_map_inv in Hn.
Qed.

(** X17: the correlation heatmap cannot be drawn when two assets share a
    symbol and a date.  On a database that satisfies the schema's
    constraints and whose joined symbols are text, the pivot of
    [plot_correlation_heatmap] raises ValueError exactly when two different
    assets with the same symbol both have an observation at the same date;
    otherwise it returns a table. *)
Theorem correlation_pivot_fails_iff (s : Store) (rows : list Analysis.QueryRow)
  (df : list Analysis.SymbolPrice) :
  NoDup (map crypto_id (cryptocurrencies s)) ->
  NoDup (map price_key (price_history s)) ->
  Analysis.ordered_result Analysis.symbol_date_leb s rows ->
  Analysis.text_frame rows = Some df ->
  (Analysis.pivot df = DataCollection.Raised DataCollection.ValueError <->
   exists c1 c2 r1 r2,
     In c1 (cryptocurrencies s) /\ In c2 (cryptocurrencies s) /\
     crypto_id c1 <> crypto_id c2 /\ c_symbol c1 = c_symbol c2 /\
     In r1 (price_history s) /\ In r2 (price_history s) /\
     ph_crypto_id r1 = crypto_id c1 /\ ph_crypto_id r2 = crypto_id c2 /\
     ph_date r1 = ph_date r2) /\
  ((exists table, Analysis.pivot df = DataCollection.Done table) \/
   Analysis.pivot df = DataCollection.Raised DataCollection.ValueError).
Proof.
  intros Hids Hkeys [Hp _] Hdf. split.
  2:{ unfold Analysis.pivot. destruct (Analysis.duplicated _); eauto. }
  set (g := fun e : PriceRow * Cryptocurrency =>
              (ph_date (fst e), c_symbol (snd e))).
  assert (Hdup : Analysis.pivot df
                 = DataCollection.Raised DataCollection.ValueError <->
                 ~ NoDup (map g (Analysis.joined s))).
  { unfold g.
    rewrite <- (frame_entries_NoDup s rows df Hp Hdf), <- duplicated_NoDup.
    unfold Analysis.pivot.
    destruct (Analysis.duplicated _); split; congruence. }
  rewrite Hdup.
  rewrite (map_repeats g (Analysis.joined s) query_entry_dec)
    by (apply joined_NoDup; eapply NoDup_map_inv; eassumption).
  split.
  - intros [[r1 c1] [[r2 c2] [H1 [H2 [Hne E]]]]].
    apply In_joined in H1. apply In_joined in H2.
    destruct H1 as [Hr1 [Hc1 Hid1]], H2 as [Hr2 [Hc2 Hid2]].
    unfold g in E. simpl in E. inversion E as [[Hd Hs]].
    exists c1, c2, r1, r2. repeat split; auto.
    intros Hid. apply Hne.
    assert (c1 = c2) by (eapply NoDup_map_same; eassumption). subst c2.
    f_equal. apply (NoDup_map_same price_key (price_history s)); auto.
    unfold price_key. congruence.
  - intros [c1 [c2 [r1 [r2 [Hc1 [Hc2 [Hne [Hs [Hr1 [Hr2 [Hid1 [Hid2 Hd]]]]]]]]]]]].
    exists (r1, c1), (r2, c2). repeat split.
    + apply In_joined. auto.
    + apply In_joined. auto.
    + intros E. inversion E; subst. contradiction.
    + unfold g. simpl. congruence.
Qed.

Lemma symbol_date_leb_total (a b : Analysis.QueryRow) :
  Analysis.symbol_date_leb a b = true \/ Analysis.symbol_date_leb b a = true.
Proof.
  unfold Analysis.symbol_date_leb.
  rewrite (symbol_compare_antisym (Analysis.q_symbol b) (Analysis.q_symbol a)).
  destruct (Analysis.symbol_compare (Analysis.q_symbol a) (Analysis.q_symbol b));
    simpl; auto.
  destruct (Z.leb_spec (Analysis.q_date a) (Analysis.q_date b)); auto.
  right. apply Z.leb_le. lia.
Qed.

Lemma correlation_pivot_fails_iff_witness :
  Analysis.text_frame (Analysis.correlation_query Analysis.same_symbol_store)
    = Some Analysis.same_symbol_frame /\
  Analysis.pivot Analysis.same_symbol_frame
    = DataCollection.Raised DataCollection.ValueError.
Proof.
  assert (E : Analysis.text_frame
                (Analysis.correlation_query Analysis.same_symbol_store)
              = Some Analysis.same_symbol_frame) by (vm_compute; reflexivity).
  split; [exact E|].
  apply (correlation_pivot_fails_iff Analysis.same_symbol_store
           (Analysis.correlation_query Analysis.same_symbol_store)
           Analysis.same_symbol_frame).
  - repeat constructor; simpl; intuition discriminate.
  - distinct_keys.
  - split; [apply sort_by_perm|].
    apply (sort_by_sorted Analysis.symbol_date_leb symbol_date_leb_total).
  - exact E.
  - exists {| crypto_id := "bitcoin"; c_symbol := Some "BTC"; c_name := Some "Bitcoin" |},
           {| crypto_id := "batcat"; c_symbol := Some "BTC"; c_name := Some "BatCat" |},
           (to_price_row (observation "bitcoin" 1 100 1)),
           (to_price_row (observation "batcat" 1 2 1)).
    simpl. repeat split; auto. discriminate.
Defined.
